(** * LLMOps notebooks: endpoint dispatch, prompt rendering, data preparation

    A shallow embedding of the code cells of the deployment notebook
    (random endpoint selection, prediction, safety and citation lookups)
    and of [data-prep.ipynb] (guarded warehouse load, instruction column,
    train/evaluation split, JSON-Lines export), with the arguments of the
    tuning run of [supervised-tuning-pipe.ipynb] and the two components of
    the Kubeflow example.

    The notebooks are straight-line Python run against a global namespace
    and remote services.  The namespace is a finite map from variable
    names to Python values; the services are an explicit parameter; every
    cell is a computation in a state-and-exception monad. *)

From Stdlib Require Import ZArith QArith Lia Ascii String.
From stdpp Require Import gmap strings list.

Set Warnings "-register-all".

(** * Part I: the notebooks as definitions *)

(** ** Python values and exceptions *)

(** The exception classes the cells can meet.  All but [KeyboardInterrupt]
    derive from Python's [Exception]. *)
Inductive exn : Type :=
| IndexError (msg : string)
| KeyError (key : string)
| KeyErrorInt (key : nat)
| NameError (name : string)
| TypeError (msg : string)
| AttributeError (attr : string)
| ValueError (msg : string)
| UpstreamError (detail : string)
| OversizedResultError (detail : string)
| KeyboardInterrupt.

Definition isinstance_Exception (e : exn) : bool :=
  match e with
  | KeyboardInterrupt => false
  | _ => true
  end.

(** [random.choice] on an empty sequence: the failure the specification
    calls [EmptyRegistry]. *)
Definition EmptyRegistry : exn :=
  IndexError "Cannot choose from an empty sequence".

(** A pandas frame in "split" orientation: column labels, then one list of
    cells per row, in column order.  The frames of the notebook come from
    queries: their labels are distinct and every row has one cell per
    column; the statements that depend on it say so ([NoDup],
    [well_formed]). *)
Record DataFrame : Type := mkFrame {
  columns : list string;
  rows : list (list string)
}.

(** The Python values the cells handle: JSON-like data, and handles on
    the objects of the client libraries. *)
Inductive pyval : Type :=
| VNone
| VBool (b : bool)
| VNum (q : Q)
| VStr (s : string)
| VList (items : list pyval)
| VTuple (items : list pyval)
| VDict (entries : list (string * pyval))
| VModel (endpoint : string)
| VResponse (_prediction_response : pyval)
| VClient
| VJob (sql : string)
| VFrame (df : DataFrame)
| VExn (e : exn)
| VModule (name : string).

(** ** The world outside the namespace *)

(** What leaves the process: requests to the services, and files written. *)
Inductive event : Type :=
| NetGetTunedModel (name : string)
| NetPredict (endpoint prompt : string)
| NetQuery (sql : string)
| NetResult (sql : string)
| FileWrite (path text : string).

(** The remote services, as functions of the requests made so far. *)
Record Cloud : Type := mkCloud {
  get_tuned_model_reply : list event -> string -> option string;
  predict_reply : list event -> string -> string -> string + pyval;
  result_reply : list event -> string -> exn + DataFrame
}.

(** [draws k] is the integer the random source hands out on its [k]-th
    use; [drawn] counts the uses so far. *)
Record State : Type := mkState {
  globals : gmap string pyval;
  draws : nat -> nat;
  drawn : nat;
  network : list event;
  stdout : list (list pyval)
}.

Definition with_globals (g : gmap string pyval) (s : State) : State :=
  mkState g (draws s) (drawn s) (network s) (stdout s).

Definition with_network (n : list event) (s : State) : State :=
  mkState (globals s) (draws s) (drawn s) n (stdout s).

(** ** The cell monad: state that survives a raised exception *)

Definition M (A : Type) : Type := State -> (exn + A) * State.

Global Instance M_ret : MRet M := fun A a s => (inr a, s).

Global Instance M_bind : MBind M := fun A B k m s =>
  match m s with
  | (inl e, s') => (inl e, s')
  | (inr a, s') => k a s'
  end.

Definition raise {A : Type} (e : exn) : M A := fun s => (inl e, s).

(** [name] read as an expression. *)
Definition load (name : string) : M pyval := fun s =>
  match globals s !! name with
  | Some v => (inr v, s)
  | None => (inl (NameError name), s)
  end.

(** [name = v]. *)
Definition store (name : string) (v : pyval) : M unit := fun s =>
  (inr tt, with_globals (<[name := v]> (globals s)) s).

(** [print(a, b, ...)]. *)
Definition print (args : list pyval) : M unit := fun s =>
  (inr tt, mkState (globals s) (draws s) (drawn s) (network s)
                   (stdout s ++ [args])).

Definition send (ev : event) : M unit := fun s =>
  (inr tt, with_network (network s ++ [ev]) s).

Definition sent : M (list event) := fun s => (inr (network s), s).

(** [try: body  except Exception as name: handler].  The handler starts
    from the state the body had reached when it raised; the name is unbound
    when the clause ends, whether the handler raised or not. *)
Definition try_except_Exception (body : M unit) (name : string)
    (handler : M unit) : M unit := fun s =>
  match body s with
  | (inr tt, s') => (inr tt, s')
  | (inl e, s') =>
      if isinstance_Exception e
      then let (outcome, s'') := (store name (VExn e) ≫= λ _, handler) s' in
           (outcome, with_globals (delete name (globals s'')) s'')
      else (inl e, s')
  end.

(** ** Sequences and subscripts *)

(** The items of a list display or a list value, as [train[cols]] takes
    them. *)
Definition as_sequence (v : pyval) : M (list pyval) :=
  match v with
  | VList l | VTuple l => mret l
  | _ => raise (TypeError "object has no len()")
  end.

Definition as_str (v : pyval) : M string :=
  match v with
  | VStr s => mret s
  | _ => raise (TypeError "expected str")
  end.

Fixpoint dict_get (entries : list (string * pyval)) (key : string)
    : option pyval :=
  match entries with
  | [] => None
  | (k, v) :: rest => if String.eqb k key then Some v else dict_get rest key
  end.

(** [v[i]] for an integer subscript: an element of a list or tuple, a
    character of a string; a dictionary or a frame takes the integer for a
    key or a label, which neither has here. *)
Definition subscript_int (v : pyval) (i : nat) : M pyval :=
  match v with
  | VList l | VTuple l =>
      match l !! i with
      | Some x => mret x
      | None => raise (IndexError "index out of range")
      end
  | VStr text =>
      match String.get i text with
      | Some c => mret (VStr (String c EmptyString))
      | None => raise (IndexError "string index out of range")
      end
  | VDict _ | VFrame _ => raise (KeyErrorInt i)
  | _ => raise (TypeError "object is not subscriptable")
  end.

(** [len(v)] *)
Definition py_len (v : pyval) : M nat :=
  match v with
  | VList l | VTuple l => mret (length l)
  | VStr text => mret (String.length text)
  | VDict entries => mret (length entries)
  | VFrame df => mret (length (rows df))
  | _ => raise (TypeError "object has no len()")
  end.

(** [v[key]] for a string subscript. *)
Definition subscript_key (v : pyval) (key : string) : M pyval :=
  match v with
  | VDict d =>
      match dict_get d key with
      | Some x => mret x
      | None => raise (KeyError key)
      end
  | _ => raise (TypeError "object is not subscriptable")
  end.

(** ** [random.choice] *)

(** [Random._randbelow(n)]: the next integer of the random source, which
    a real source takes from [0, n). *)
Definition randbelow (n : nat) : M nat := fun s =>
  (inr (draws s (drawn s)),
   mkState (globals s) (draws s) (S (drawn s)) (network s) (stdout s)).

(** [Random.choice(seq)]:
      if not len(seq): raise IndexError('Cannot choose from an empty sequence')
      return seq[self._randbelow(len(seq))] *)
Definition random_choice (seq : pyval) : M pyval :=
  n ← py_len seq;
  if Nat.eqb n 0
  then raise EmptyRegistry
  else r ← randbelow n; subscript_int seq r.

(** ** The deployment notebook: selecting an endpoint and predicting *)

Section Deployment.

Context (cloud : Cloud).

(** [TextGenerationModel.get_tuned_model(name)]: one request to the
    hosting service, which either fails or yields a handle on the
    endpoint. *)
Definition get_tuned_model (name : pyval) : M pyval :=
  n ← as_str name;
  log ← sent;
  send (NetGetTunedModel n);;
  match get_tuned_model_reply cloud log n with
  | None => mret (VModel n)
  | Some detail => raise (UpstreamError detail)
  end.

(** [model.predict(prompt)]: one request to the endpoint behind the
    handle; the reply is handed back as it came, a failure is raised. *)
Definition predict (model prompt : pyval) : M pyval :=
  match model with
  | VModel endpoint =>
      p ← as_str prompt;
      log ← sent;
      send (NetPredict endpoint p);;
      match predict_reply cloud log endpoint p with
      | inl detail => raise (UpstreamError detail)
      | inr reply => mret (VResponse reply)
      end
  | _ => raise (AttributeError "predict")
  end.

(** Step 4; the import binds the name of the module.
      import random
      tuned_model_select = random.choice(list_tuned_models) *)
Definition step4_select : M unit :=
  store "random" (VModule "random");;
  seq ← load "list_tuned_models";
  choice ← random_choice seq;
  store "tuned_model_select" choice.

Definition PROMPT_step5 : string := "How can I load a CSV file using Pandas?".

(** Step 5.
      deployed_model = TextGenerationModel.get_tuned_model(tuned_model_select)
      PROMPT = "How can I load a CSV file using Pandas?" *)
Definition step5_load : M unit :=
  name ← load "tuned_model_select";
  model ← get_tuned_model name;
  store "deployed_model" model;;
  store "PROMPT" (VStr PROMPT_step5).

(** Step 6.
      response = deployed_model.predict(PROMPT)
      print(response) *)
Definition step6_predict : M unit :=
  model ← load "deployed_model";
  prompt ← load "PROMPT";
  response ← predict model prompt;
  store "response" response;;
  print [response].

(** One dispatch: the three cells in notebook order; a cell that raises
    stops the run. *)
Definition dispatch : M unit :=
  step4_select;; step5_load;; step6_predict.

End Deployment.

(** ** Prompt rendering *)

Definition LF : string := String "010"%char EmptyString.

(** Step 9 of the deployment notebook.
      INSTRUCTION = '''\
      Please answer the following Stackoverflow question on Python.\
      Answer it like you are a developer answering Stackoverflow questions.\
      Question:
      ''' *)
Definition INSTRUCTION : string :=
  "Please answer the following Stackoverflow question on Python." +:+
  "Answer it like you are a developer answering Stackoverflow questions." +:+
  "Question:" +:+ LF.

Definition QUESTION : string :=
  "How can I store my TensorFlow checkpoint on Google Cloud Storage? Python example?".

(** The text of
      f'''
      {INSTRUCTION} {QUESTION}
      '''
    for string values of the two names. *)
Definition render (instruction question : string) : string :=
  LF +:+ instruction +:+ " " +:+ question +:+ LF.

(** The f-string read against the namespace. *)
Definition fstring_PROMPT : M pyval :=
  i ← load "INSTRUCTION"; instruction ← as_str i;
  q ← load "QUESTION"; question ← as_str q;
  mret (VStr (render instruction question)).

(** The first half of the cell, for any instruction and question text:
      INSTRUCTION = ...; QUESTION = ...
      PROMPT = f'''...'''
      print(PROMPT) *)
Definition step9_prompt (instruction question : string) : M unit :=
  store "INSTRUCTION" (VStr instruction);;
  store "QUESTION" (VStr question);;
  p ← fstring_PROMPT;
  store "PROMPT" p;;
  print [p].

(** [data-prep.ipynb], step 7.
      INSTRUCTION_TEMPLATE = '''\
      Please answer the following Stackoverflow question on Python. \
      Answer it like you are a developer answering Stackoverflow questions.

      Stackoverflow question:
      ''' *)
Definition INSTRUCTION_TEMPLATE : string :=
  "Please answer the following Stackoverflow question on Python. " +:+
  "Answer it like you are a developer answering Stackoverflow questions." +:+
  LF +:+ LF +:+ "Stackoverflow question:" +:+ LF.

(** One cell of [INSTRUCTION_TEMPLATE + ' ' + stack_overflow_df['input_text']]. *)
Definition add_instruction (template input_text : string) : string :=
  template +:+ " " +:+ input_text.

(** ** Frames: columns by label *)

Fixpoint column_index (label : string) (labels : list string) : option nat :=
  match labels with
  | [] => None
  | l :: rest =>
      if String.eqb l label then Some 0 else S <$> column_index label rest
  end.

(** The cell of a row under the column at position [i]; a row of a frame
    has one cell per column. *)
Definition cell (i : nat) (row : list string) : string :=
  default EmptyString (row !! i).

(** [df[label]] for a frame of distinct labels: the column, or
    [KeyError]. *)
Definition get_column (df : DataFrame) (label : string) : M (list string) :=
  match column_index label (columns df) with
  | Some i => mret (cell i <$> rows df)
  | None => raise (KeyError label)
  end.

(** [df[label] = values]: the column is replaced when the label exists and
    appended otherwise; pandas refuses a column of the wrong length. *)
Definition set_column (df : DataFrame) (label : string) (values : list string)
    : M DataFrame :=
  if negb (Nat.eqb (length values) (length (rows df)))
  then raise (ValueError "Length of values does not match length of index")
  else match column_index label (columns df) with
       | Some i =>
           mret (mkFrame (columns df)
                         (zip_with (λ row v, <[i := v]> row) (rows df) values))
       | None =>
           mret (mkFrame (columns df ++ [label])
                         (zip_with (λ row v, row ++ [v]) (rows df) values))
       end.

(** The frame a name holds.  The cells bind [stack_overflow_df] and
    [train] to frames; subscripting by label is embedded for frames only,
    and a value of another kind is refused. *)
Definition as_frame (v : pyval) : M DataFrame :=
  match v with
  | VFrame df => mret df
  | _ => raise (TypeError "expected DataFrame")
  end.

(** Step 7.
      stack_overflow_df['input_text_instruct'] =
          INSTRUCTION_TEMPLATE + ' ' + stack_overflow_df['input_text'] *)
Definition step7_instruct (template : string) : M unit :=
  store "INSTRUCTION_TEMPLATE" (VStr template);;
  t ← load "INSTRUCTION_TEMPLATE"; template' ← as_str t;
  v ← load "stack_overflow_df"; df ← as_frame v;
  questions ← get_column df "input_text";
  v' ← load "stack_overflow_df"; df' ← as_frame v';
  updated ← set_column df' "input_text_instruct"
                       (add_instruction template' <$> questions);
  store "stack_overflow_df" (VFrame updated).

(** ** Safety and citation lookups *)

(** [response._prediction_response] *)
Definition attr_prediction_response (response : pyval) : M pyval :=
  match response with
  | VResponse r => mret r
  | _ => raise (AttributeError "_prediction_response")
  end.

(** [response._prediction_response[0][0]] *)
Definition first_prediction (response : pyval) : M pyval :=
  r ← attr_prediction_response response;
  predictions ← subscript_int r 0;
  subscript_int predictions 0.

(** [response._prediction_response[0][0]['safetyAttributes']] *)
Definition safety_attributes (response : pyval) : M pyval :=
  p ← first_prediction response;
  subscript_key p "safetyAttributes".

(** [response._prediction_response[0][0]['safetyAttributes']['blocked']] *)
Definition is_blocked (response : pyval) : M pyval :=
  sa ← safety_attributes response;
  subscript_key sa "blocked".

(** [response._prediction_response[0][0]['citationMetadata']['citations']] *)
Definition citations (response : pyval) : M pyval :=
  p ← first_prediction response;
  cm ← subscript_key p "citationMetadata";
  subscript_key cm "citations".

(** Step 10.
      blocked = response._prediction_response[0][0]['safetyAttributes']['blocked']
      print(blocked)
      safety_attributes = response._prediction_response[0][0]['safetyAttributes']
      pprint(safety_attributes) *)
Definition step10_safety : M unit :=
  response ← load "response";
  b ← is_blocked response;
  store "blocked" b;;
  b' ← load "blocked"; print [b'];;
  response' ← load "response";
  sa ← safety_attributes response';
  store "safety_attributes" sa;;
  sa' ← load "safety_attributes"; print [sa'].

(** Step 11.
      citation = response._prediction_response[0][0]['citationMetadata']['citations']
      pprint(citation) *)
Definition step11_citations : M unit :=
  response ← load "response";
  c ← citations response;
  store "citation" c;;
  c' ← load "citation"; print [c'].

(** The specification's Prediction Result, and the value the hosting
    service sends for it: a tuple whose first component is the list of
    predictions, each a dictionary. *)
Record PredictionResult : Type := mkResult {
  content : string;
  blocked : bool;
  scores : list (string * Q);
  references : list pyval
}.

Definition prediction_dict (r : PredictionResult) : pyval :=
  VDict [("content", VStr (content r));
         ("citationMetadata", VDict [("citations", VList (references r))]);
         ("safetyAttributes",
          VDict [("blocked", VBool (blocked r));
                 ("scores", VDict (prod_map id VNum <$> scores r))])].

Definition response_of (r : PredictionResult) (others metadata : list pyval)
    : pyval :=
  VResponse (VTuple (VList (prediction_dict r :: others) :: metadata)).

(** ** Data preparation: the guarded load of a whole table *)

Definition QUERY_ALL : string :=
  LF +:+ "SELECT" +:+ LF +:+ "    *" +:+ LF +:+ "FROM" +:+ LF +:+
  "    `bigquery-public-data.stackoverflow.posts_questions` q" +:+ LF.

Section Warehouse.

Context (cloud : Cloud).

(** [bq_client.query(sql)]: the job is submitted and a handle returned. *)
Definition bq_query (client sql : pyval) : M pyval :=
  match client with
  | VClient => q ← as_str sql; send (NetQuery q);; mret (VJob q)
  | _ => raise (AttributeError "query")
  end.

(** [query_job.result().to_arrow().to_pandas()]: the rows are fetched and
    materialised; the warehouse or the conversion may raise. *)
Definition result_to_pandas (job : pyval) : M pyval :=
  match job with
  | VJob sql =>
      log ← sent;
      send (NetResult sql);;
      match result_reply cloud log sql with
      | inl e => raise e
      | inr df => mret (VFrame df)
      end
  | _ => raise (AttributeError "result")
  end.

(** Step 5 of [data-prep.ipynb], for any query text.
      QUERY_ALL = '''...'''
      query_job = bq_client.query(QUERY_ALL)
      try:
          stack_overflow_df = query_job.result().to_arrow().to_pandas()
      except Exception as e:
          print('The DataFrame is too large to load into memory.', e) *)
Definition step5_load_all (sql : string) : M unit :=
  store "QUERY_ALL" (VStr sql);;
  client ← load "bq_client";
  q ← load "QUERY_ALL";
  job ← bq_query client q;
  store "query_job" job;;
  try_except_Exception
    (j ← load "query_job";
     df ← result_to_pandas j;
     store "stack_overflow_df" df)
    "e"
    (e ← load "e";
     print [VStr "The DataFrame is too large to load into memory."; e]).

End Warehouse.

(** ** JSON-Lines export *)

Definition DQUOTE : ascii := "034"%char.
Definition BACKSLASH : ascii := "092"%char.

Definition hex_digit (n : nat) : ascii :=
  nth n ["0"; "1"; "2"; "3"; "4"; "5"; "6"; "7";
         "8"; "9"; "a"; "b"; "c"; "d"; "e"; "f"]%char "0"%char.

Definition hex_value (c : ascii) : option nat :=
  let n := nat_of_ascii c in
  if ((48 <=? n) && (n <=? 57))%nat then Some (n - 48)
  else if ((97 <=? n) && (n <=? 102))%nat then Some (n - 87)
  else if ((65 <=? n) && (n <=? 70))%nat then Some (n - 55)
  else None.

(** Modelled from the spec: the writer behind
    [to_json(orient="records", lines=True)] is pandas code, which the
    repository calls but does not contain.  The specification only says
    that the artifact is JSON-Lines, one object per line, with string
    fields.  A string is written between quotes with the escapes of
    RFC 8259: quote, backslash and solidus behind a backslash, the short
    forms for backspace, form feed, newline, carriage return and tab, a
    four-digit hexadecimal escape for the other control characters, and
    every other character as it is. *)
Definition escape_char (c : ascii) : string :=
  let n := nat_of_ascii c in
  if (n =? 34)%nat then String BACKSLASH (String DQUOTE EmptyString)
  else if (n =? 92)%nat then String BACKSLASH (String BACKSLASH EmptyString)
  else if (n =? 47)%nat then String BACKSLASH "/"
  else if (n =? 8)%nat then String BACKSLASH "b"
  else if (n =? 12)%nat then String BACKSLASH "f"
  else if (n =? 10)%nat then String BACKSLASH "n"
  else if (n =? 13)%nat then String BACKSLASH "r"
  else if (n =? 9)%nat then String BACKSLASH "t"
  else if (n <? 32)%nat
       then String BACKSLASH
              ("u00" +:+ String (hex_digit (n / 16))
                           (String (hex_digit (n mod 16)) EmptyString))
       else String c EmptyString.

Fixpoint escape (s : string) : string :=
  match s with
  | EmptyString => EmptyString
  | String c rest => escape_char c +:+ escape rest
  end.

(** Modelled from the spec: a string value, between quotes. *)
Definition json_string (s : string) : string :=
  String DQUOTE (escape s +:+ String DQUOTE EmptyString).

(** [sep.join(parts)] *)
Fixpoint join (sep : string) (parts : list string) : string :=
  match parts with
  | [] => EmptyString
  | [p] => p
  | p :: rest => p +:+ sep +:+ join sep rest
  end.

(** Modelled from the spec: one member of an object, name and value both
    written as strings. *)
Definition json_member (m : string * string) : string :=
  json_string m.1 +:+ ":" +:+ json_string m.2.

(** Modelled from the spec: one record as a JSON object, the members in
    column order. *)
Definition json_object (members : list (string * string)) : string :=
  "{" +:+ join "," (json_member <$> members) +:+ "}".

(** The records of a frame, as [to_dict(orient="records")] gives them. *)
Definition records (df : DataFrame) : list (list (string * string)) :=
  (λ row, zip (columns df) row) <$> rows df.

(** Modelled from the spec: the JSON-Lines text of a frame, one object per
    line; pandas joins the lines with a newline and ends the text with
    one. *)
Definition to_json_records_lines (df : DataFrame) : string :=
  join LF (json_object <$> records df) +:+ LF.

(** Modelled from the spec: reading a string literal, from behind its
    opening quote; the decoded text and what follows the closing quote. *)
Fixpoint parse_string_body (s : string) : option (string * string) :=
  match s with
  | EmptyString => None
  | String c rest =>
      let keep (ch : ascii) (tail : string) :=
        match parse_string_body tail with
        | Some (text, after) => Some (String ch text, after)
        | None => None
        end in
      if Ascii.eqb c DQUOTE then Some (EmptyString, rest)
      else if Ascii.eqb c BACKSLASH then
        match rest with
        | String e rest1 =>
            if Ascii.eqb e DQUOTE then keep DQUOTE rest1
            else if Ascii.eqb e BACKSLASH then keep BACKSLASH rest1
            else if Ascii.eqb e "/" then keep "/"%char rest1
            else if Ascii.eqb e "b" then keep "008"%char rest1
            else if Ascii.eqb e "f" then keep "012"%char rest1
            else if Ascii.eqb e "n" then keep "010"%char rest1
            else if Ascii.eqb e "r" then keep "013"%char rest1
            else if Ascii.eqb e "t" then keep "009"%char rest1
            else if Ascii.eqb e "u" then
              match rest1 with
              | String h1 (String h2 (String h3 (String h4 rest2))) =>
                  match hex_value h1, hex_value h2, hex_value h3, hex_value h4 with
                  | Some a, Some b, Some c', Some d =>
                      let code := ((a * 16 + b) * 16 + c') * 16 + d in
                      if (code <? 256)%nat then keep (ascii_of_nat code) rest2
                      else None
                  | _, _, _, _ => None
                  end
              | _ => None
              end
            else None
        | EmptyString => None
        end
      else if (nat_of_ascii c <? 32)%nat then None
      else keep c rest
  end.

(** Modelled from the spec: reading a string value, quotes included. *)
Definition parse_string (s : string) : option (string * string) :=
  match s with
  | String c rest => if Ascii.eqb c DQUOTE then parse_string_body rest else None
  | EmptyString => None
  end.

Definition expect (c : ascii) (s : string) : option string :=
  match s with
  | String c' rest => if Ascii.eqb c c' then Some rest else None
  | EmptyString => None
  end.

(** Modelled from the spec: the members of an object up to its closing
    brace, [fuel] bounding their number. *)
Fixpoint parse_members (fuel : nat) (s : string)
    : option (list (string * string) * string) :=
  match fuel with
  | 0 => None
  | S fuel' =>
      '(key, s1) ← parse_string s;
      s2 ← expect ":" s1;
      '(value, s3) ← parse_string s2;
      match s3 with
      | String c rest =>
          if Ascii.eqb c "}" then Some ([(key, value)], rest)
          else if Ascii.eqb c "," then
            '(more, after) ← parse_members fuel' rest;
            Some ((key, value) :: more, after)
          else None
      | EmptyString => None
      end
  end.

(** Modelled from the spec: one line holds exactly one object. *)
Definition parse_object (line : string) : option (list (string * string)) :=
  s1 ← expect "{" line;
  match s1 with
  | String c rest =>
      if Ascii.eqb c "}"
      then match rest with EmptyString => Some [] | _ => None end
      else '(members, after) ← parse_members (String.length line) s1;
           match after with EmptyString => Some members | _ => None end
  | EmptyString => None
  end.

(** [text.split("\n")] *)
Fixpoint split_lines (text : string) : list string :=
  match text with
  | EmptyString => [EmptyString]
  | String c rest =>
      if Ascii.eqb c "010" then EmptyString :: split_lines rest
      else match split_lines rest with
           | line :: more => String c line :: more
           | [] => [String c EmptyString]
           end
  end.

Definition nonempty (line : string) : bool :=
  match line with EmptyString => false | _ => true end.

(** Modelled from the spec: reading JSON-Lines back, one record per
    non-empty line; the read fails if a line is not an object of string
    members. *)
Definition read_json_lines (text : string)
    : option (list (list (string * string))) :=
  mapM parse_object (List.filter nonempty (split_lines text)).

(** [df[labels]] for a list of labels. *)
Definition getitem_columns (df : DataFrame) (labels : list string)
    : M DataFrame :=
  match mapM (M := option) (λ l, column_index l (columns df)) labels with
  | Some positions =>
      mret (mkFrame labels ((λ row, (λ i, cell i row) <$> positions) <$> rows df))
  | None => raise (KeyError "not in index")
  end.

Definition as_labels (v : pyval) : M (list string) :=
  items ← as_sequence v; mapM as_str items.

(** Step 9.2 of [data-prep.ipynb].
      cols = ['input_text_instruct','output_text']
      tune_jsonl = train[cols].to_json(orient="records", lines=True)
      training_data_filename = f"tune_data_stack_overflow_python_qa-{date}.jsonl"
      with open(training_data_filename, "w") as f:
          f.write(tune_jsonl) *)
Definition step9_jsonl : M unit :=
  store "cols" (VList [VStr "input_text_instruct"; VStr "output_text"]);;
  t ← load "train"; train ← as_frame t;
  c ← load "cols"; labels ← as_labels c;
  selected ← getitem_columns train labels;
  store "tune_jsonl" (VStr (to_json_records_lines selected));;
  d ← load "date"; date ← as_str d;
  store "training_data_filename"
        (VStr ("tune_data_stack_overflow_python_qa-" +:+ date +:+ ".jsonl"));;
  n ← load "training_data_filename"; path ← as_str n;
  j ← load "tune_jsonl"; text ← as_str j;
  send (FileWrite path text).

(** A training record, the members it is written with, and the record
    read off the members of a parsed object. *)
Record qa_record : Type := mkQA {
  input_text_instruct : string;
  output_text : string
}.

Definition qa_members (r : qa_record) : list (string * string) :=
  [("input_text_instruct", input_text_instruct r);
   ("output_text", output_text r)].

Fixpoint member_get (members : list (string * string)) (key : string)
    : option string :=
  match members with
  | [] => None
  | (k, v) :: rest => if String.eqb k key then Some v else member_get rest key
  end.

Definition qa_of_members (members : list (string * string))
    : option qa_record :=
  a ← member_get members "input_text_instruct";
  b ← member_get members "output_text";
  Some (mkQA a b).

(** The [train] frame of the notebook: the question, the answer, and the
    question with its instruction, one row per record. *)
Definition training_frame (l : list (string * qa_record)) : DataFrame :=
  mkFrame ["input_text"; "output_text"; "input_text_instruct"]
          ((λ qr : string * qa_record,
              [qr.1; output_text qr.2; input_text_instruct qr.2]) <$> l).

(** ** Train/evaluation split *)

(** A non-negative binary64 number, [significand * 2 ^ exponent]. *)
Record binary64 : Type := mkFloat {
  significand : Z;
  exponent : Z
}.

(** The double written [0.2]: 0x1.999999999999ap-3. *)
Definition test_size : binary64 := mkFloat 3602879701896397 (-54).

(** The double nearest to [m * 2 ^ e], for [m >= 0]: at most 53
    significant bits, ties to the even significand. *)
Definition round_nearest_even (m e : Z) : binary64 :=
  if (m <? 2 ^ 53)%Z then mkFloat m e
  else
    let k := (Z.log2 m - 52)%Z in
    let q := (m / 2 ^ k)%Z in
    let r := (m mod 2 ^ k)%Z in
    let half := (2 ^ (k - 1))%Z in
    let up := ((half <? r) || ((r =? half) && Z.odd q))%Z in
    mkFloat (if up then q + 1 else q)%Z (e + k)%Z.

(** [x * n] for a Python int [n] that converts to a double exactly. *)
Definition float_mul_int (x : binary64) (n : Z) : binary64 :=
  round_nearest_even (significand x * n) (exponent x).

(** [math.ceil(x)] *)
Definition float_ceil (x : binary64) : Z :=
  if (0 <=? exponent x)%Z then (significand x * 2 ^ exponent x)%Z
  else (- ((- significand x) / 2 ^ (- exponent x)))%Z.

(** Modelled from the spec: [train_test_split] is scikit-learn code, which
    the notebook calls but the repository does not contain; the
    specification's claim reads the call as: a fifth of the rows, rounded
    up, for evaluation, the remainder for training, drawn with the seed 42.
    The sizes follow the library's size rule for a fractional [test_size]
    with no [train_size]:
      n_test = ceil(test_size * n_samples)
      n_train = n_samples - n_test
    and its refusal of an empty train set. *)
Definition validate_shuffle_split (n_samples : nat) : exn + nat * nat :=
  let n_test := Z.to_nat (float_ceil (float_mul_int test_size (Z.of_nat n_samples))) in
  let n_train := n_samples - n_test in
  if Nat.eqb n_train 0
  then inl (ValueError "the resulting train set will be empty")
  else inr (n_train, n_test).

(** Modelled from the spec: the size rule once more, as the splitter
    applies it to the two row counts. *)
Definition validate_counts (n_samples n_train n_test : nat) : exn + nat * nat :=
  if (Nat.leb n_samples n_test || Nat.eqb n_test 0)%bool
  then inl (ValueError "test_size should be in the (0, n_samples) range")
  else if (Nat.leb n_samples n_train || Nat.eqb n_train 0)%bool
  then inl (ValueError "train_size should be in the (0, n_samples) range")
  else if Nat.ltb n_samples (n_train + n_test)
  then inl (ValueError "train_size and test_size exceed the number of samples")
  else inr (n_train, n_test).

(** [df.iloc[positions]] *)
Definition take_rows (df : DataFrame) (positions : list nat) : exn + DataFrame :=
  match mapM (M := option) (λ i, rows df !! i) positions with
  | Some selected => inr (mkFrame (columns df) selected)
  | None => inl (IndexError "positional indexers are out-of-bounds")
  end.

Section Split.

(** [permutation seed n] stands for
    [numpy.random.RandomState(seed).permutation(n)]. *)
Context (permutation : nat → nat → list nat).

(** Modelled from the spec: one shuffled split.  A generator seeded with
    [random_state] permutes the row positions; the first [n_test] of them
    are the evaluation rows, the next [n_train] the training rows. *)
Definition train_test_split (df : DataFrame) (random_state : nat)
    : exn + DataFrame * DataFrame :=
  let n_samples := length (rows df) in
  match validate_shuffle_split n_samples with
  | inl e => inl e
  | inr (n_train0, n_test0) =>
      match validate_counts n_samples n_train0 n_test0 with
      | inl e => inl e
      | inr (n_train, n_test) =>
          let p := permutation random_state n_samples in
          let ind_test := take n_test p in
          let ind_train := take n_train (drop n_test p) in
          match take_rows df ind_train, take_rows df ind_test with
          | inr train, inr test => inr (train, test)
          | inl e, _ => inl e
          | _, inl e => inl e
          end
      end
  end.

(** Step 8.
      train, evaluation = train_test_split(
          stack_overflow_df, test_size=0.2, random_state=42) *)
Definition step8_split : M unit :=
  v ← load "stack_overflow_df"; df ← as_frame v;
  match train_test_split df 42 with
  | inl e => raise e
  | inr (train, evaluation) =>
      store "train" (VFrame train);;
      store "evaluation" (VFrame evaluation)
  end.

End Split.

(** ** The second request of the deployment notebook *)

Section SecondRequest.

Context (cloud : Cloud).

(** The second half of the cell of step 9.
      final_response = deployed_model.predict(PROMPT)
      output = final_response._prediction_response[0][0]["content"]
      print(output) *)
Definition step9_predict : M unit :=
  model ← load "deployed_model";
  prompt ← load "PROMPT";
  final_response ← predict cloud model prompt;
  store "final_response" final_response;;
  r ← load "final_response";
  p ← first_prediction r;
  output ← subscript_key p "content";
  store "output" output;;
  o ← load "output"; print [o].

End SecondRequest.

(** ** Vocabulary of the statements *)

Definition registry (names : list string) : pyval := VList (VStr <$> names).

(** The state in which the prediction cell of a dispatch starts, once an
    endpoint has been drawn and its handle obtained. *)
Definition before_predict (endpoint : string) (s : State) : State :=
  mkState (<["PROMPT" := VStr PROMPT_step5]>
             (<["deployed_model" := VModel endpoint]>
                (<["tuned_model_select" := VStr endpoint]>
                   (<["random" := VModule "random"]> (globals s)))))
          (draws s) (S (drawn s))
          (network s ++ [NetGetTunedModel endpoint]) (stdout s).

(** Sample services: one that knows every endpoint and answers every
    prompt with the same reply, and one whose endpoints all fail; the
    warehouse of both refuses every result as too large. *)
Definition sample_reply : pyval :=
  VTuple [VList [VDict [("content", VStr "Use pd.read_csv.")]]].

Definition steady_cloud : Cloud :=
  mkCloud (fun _ _ => None) (fun _ _ _ => inr sample_reply)
          (fun _ _ => inl (OversizedResultError "403 Response too large")).

Definition failing_cloud : Cloud :=
  mkCloud (fun _ _ => None) (fun _ _ _ => inl "503 Service Unavailable")
          (fun _ _ => inl (OversizedResultError "403 Response too large")).

(** A session whose registry is [names] and whose random source will hand
    out [rs], then zeros. *)
Definition session (names : list string) (rs : list nat) : State :=
  mkState {[ "list_tuned_models" := registry names ]}
          (fun k => nth k rs 0) 0 [] [].






(** What step 7 makes of the value bound to [stack_overflow_df]. *)
Definition instruct_frame (template : string) (bound : option pyval)
    : exn + DataFrame :=
  match bound with
  | None => inl (NameError "stack_overflow_df")
  | Some (VFrame df) =>
      match column_index "input_text" (columns df) with
      | None => inl (KeyError "input_text")
      | Some i =>
          (set_column df "input_text_instruct"
             (add_instruction template <$> (cell i <$> rows df))
             (session [] [])).1
      end
  | Some _ => inl (TypeError "expected DataFrame")
  end.

(** The frame the query of step 6 returns, one row per question and
    accepted answer, and the frame step 7 makes of it. *)
Definition query_frame (l : list (string * string)) : DataFrame :=
  mkFrame ["input_text"; "output_text"] ((λ p, [p.1; p.2]) <$> l).

Definition instructed_frame (template : string) (l : list (string * string))
    : DataFrame :=
  mkFrame ["input_text"; "output_text"; "input_text_instruct"]
          ((λ p, [p.1; p.2; template +:+ " " +:+ p.1]) <$> l).

(** The state in which the [try] statement of step 5 starts. *)
Definition before_try (sql : string) (s : State) : State :=
  mkState (<["query_job" := VJob sql]> (<["QUERY_ALL" := VStr sql]> (globals s)))
          (draws s) (drawn s) (network s ++ [NetQuery sql]) (stdout s).

Definition warehouse_session : State :=
  mkState {[ "bq_client" := VClient;
             "stack_overflow_df" := VFrame (mkFrame ["title"] [["q1"]; ["q2"]]) ]}
          (fun _ => 0) 0 [] [].

(** Whether a text holds a newline character. *)
Fixpoint has_newline (s : string) : bool :=
  match s with
  | EmptyString => false
  | String c rest => Ascii.eqb c "010" || has_newline rest
  end.

Definition tune_frame (l : list (string * qa_record)) : DataFrame :=
  mkFrame ["input_text_instruct"; "output_text"]
          ((λ qr : string * qa_record,
              [input_text_instruct qr.2; output_text qr.2]) <$> l).

(** A generator that leaves every range in order: one permutation among
    those a seeded generator can produce. *)
Definition in_order (seed n : nat) : list nat := seq 0 n.

Definition six_rows : DataFrame :=
  mkFrame ["input_text"; "output_text"]
          [["q0"; "a0"]; ["q1"; "a1"]; ["q2"; "a2"];
           ["q3"; "a3"]; ["q4"; "a4"]; ["q5"; "a5"]].

(** ** The remaining cells of the deployment notebook *)

(** [iter(v)]: what a [for] statement walks through. *)
Definition iterate (v : pyval) : M (list pyval) :=
  match v with
  | VList l | VTuple l => mret l
  | VDict d => mret (VStr <$> d.*1)
  | VStr s => mret ((λ c, VStr (String c EmptyString)) <$> list_ascii_of_string s)
  | _ => raise (TypeError "object is not iterable")
  end.

(** [for name in items: body] at the top level of a notebook: the loop
    variable is a global, and keeps its last value when the loop ends. *)
Fixpoint for_each (name : string) (items : list pyval) (body : M unit)
    : M unit :=
  match items with
  | [] => mret tt
  | x :: rest => store name x;; body;; for_each name rest body
  end.

(** The loop of step 3.
      for i in list_tuned_models:
          print(i) *)
Definition step3_print : M unit :=
  l ← load "list_tuned_models";
  items ← iterate l;
  for_each "i" items (i ← load "i"; print [i]).

(** Step 7.
      output = response._prediction_response[0]
      pprint(output) *)
Definition step7_output : M unit :=
  response ← load "response";
  r ← attr_prediction_response response;
  o ← subscript_int r 0;
  store "output" o;;
  o' ← load "output"; print [o'].

(** Step 8.
      final_output = response._prediction_response[0][0]["content"]
      print(final_output) *)
Definition step8_content : M unit :=
  response ← load "response";
  p ← first_prediction response;
  c ← subscript_key p "content";
  store "final_output" c;;
  c' ← load "final_output"; print [c'].

(** ** The unguarded loads of [data-prep.ipynb] *)

Definition INSPECT_QUERY : string :=
  LF +:+ "SELECT" +:+ LF +:+ "    *" +:+ LF +:+ "FROM" +:+ LF +:+
  "    `bigquery-public-data.stackoverflow.posts_questions`" +:+ LF +:+
  "LIMIT 3" +:+ LF.

Section Inspect.

Context (cloud : Cloud).

(** Step 4.2, for any query text; the closing [stack_overflow_df.head()]
    only displays.
      INSPECT_QUERY = '''...'''
      query_job = bq_client.query(INSPECT_QUERY)
      stack_overflow_df = query_job.result().to_arrow().to_pandas() *)
Definition step4_2_inspect (sql : string) : M unit :=
  store "INSPECT_QUERY" (VStr sql);;
  client ← load "bq_client";
  q ← load "INSPECT_QUERY";
  job ← bq_query client q;
  store "query_job" job;;
  j ← load "query_job";
  df ← result_to_pandas cloud j;
  store "stack_overflow_df" df.

(** Step 6, for any query text; the closing [stack_overflow_df.head(2)]
    only displays.
      QUERY = '''...'''
      query_job = bq_client.query(QUERY)
      stack_overflow_df = query_job.result().to_arrow().to_pandas() *)
Definition step6_load (sql : string) : M unit :=
  store "QUERY" (VStr sql);;
  client ← load "bq_client";
  q ← load "QUERY";
  job ← bq_query client q;
  store "query_job" job;;
  j ← load "query_job";
  df ← result_to_pandas cloud j;
  store "stack_overflow_df" df.

End Inspect.

(** ** Listing the tables of the warehouse *)

Definition QUERY_TABLES : string :=
  LF +:+ "SELECT" +:+ LF +:+ "  table_name" +:+ LF +:+ "FROM" +:+ LF +:+
  "  `bigquery-public-data.stackoverflow.INFORMATION_SCHEMA.TABLES`" +:+ LF.

Section Tables.

Context (cloud : Cloud).

(** [iter(query_job)]: the result is fetched, and its rows are walked
    through, each a Row of values in column order. *)
Definition job_rows (job : pyval) : M (list pyval) :=
  match job with
  | VJob sql =>
      log ← sent;
      send (NetResult sql);;
      match result_reply cloud log sql with
      | inl e => raise e
      | inr df => mret ((λ row, VTuple (VStr <$> row)) <$> rows df)
      end
  | _ => raise (TypeError "object is not iterable")
  end.

(** [row.values()] *)
Definition row_values (row : pyval) : M (list pyval) :=
  match row with
  | VTuple values => mret values
  | _ => raise (AttributeError "values")
  end.

(** Step 4.1, for any query text.
      QUERY_TABLES = '''...'''
      query_job = bq_client.query(QUERY_TABLES)
      for row in query_job:
          for value in row.values():
              print(value) *)
Definition step4_1_tables (sql : string) : M unit :=
  store "QUERY_TABLES" (VStr sql);;
  client ← load "bq_client";
  q ← load "QUERY_TABLES";
  job ← bq_query client q;
  store "query_job" job;;
  j ← load "query_job";
  table_rows ← job_rows j;
  for_each "row" table_rows
    (row ← load "row";
     values ← row_values row;
     for_each "value" values (value ← load "value"; print [value])).

End Tables.

(** ** Time stamps and file names *)

(** What [datetime.datetime.now()] returns. *)
Record datetime : Type := mkDatetime {
  year : nat;
  month : nat;
  day : nat;
  hour : nat;
  minute : nat;
  second : nat
}.

Definition digit (n : nat) : ascii := ascii_of_nat (48 + n mod 10).

(** [%H], [%d] and [%m]: two decimal digits, zero-padded. *)
Definition two_digits (n : nat) : string :=
  String (digit (n / 10)) (String (digit n) EmptyString).

(** [%Y] for a year of four digits. *)
Definition four_digits (n : nat) : string :=
  String (digit (n / 1000))
    (String (digit (n / 100)) (String (digit (n / 10))
       (String (digit n) EmptyString))).

(** [t.strftime("%H:%d:%m:%Y")] *)
Definition strftime_H_d_m_Y (t : datetime) : string :=
  two_digits (hour t) +:+ ":" +:+ two_digits (day t) +:+ ":" +:+
  two_digits (month t) +:+ ":" +:+ four_digits (year t).

(** Step 9.1 of [data-prep.ipynb], the clock reading being an input.
      date = datetime.datetime.now().strftime("%H:%d:%m:%Y") *)
Definition step9_1_date (now : datetime) : M unit :=
  store "date" (VStr (strftime_H_d_m_Y now)).

(** ** [supervised-tuning-pipe.ipynb]: the arguments of the tuning run *)

Definition TRAINING_DATA_URI : string :=
  "./tune_data_stack_overflow_python_qa.jsonl".

Definition EVAUATION_DATA_URI : string :=
  "./tune_eval_data_stack_overflow_python_qa.jsonl".

(** Step 1.
      TRAINING_DATA_URI = "./tune_data_stack_overflow_python_qa.jsonl"
      EVAUATION_DATA_URI = "./tune_eval_data_stack_overflow_python_qa.jsonl" *)
Definition tuning_step1_uris : M unit :=
  store "TRAINING_DATA_URI" (VStr TRAINING_DATA_URI);;
  store "EVAUATION_DATA_URI" (VStr EVAUATION_DATA_URI).

(** Step 2, the clock reading being an input.
      date = datetime.datetime.now().strftime("%H:%d:%m:%Y")
      MODEL_NAME = f"deep-learning-ai-model-{date}" *)
Definition tuning_step2_version (now : datetime) : M unit :=
  store "date" (VStr (strftime_H_d_m_Y now));;
  d ← load "date"; date ← as_str d;
  store "MODEL_NAME" (VStr ("deep-learning-ai-model-" +:+ date)).

(** Step 3.
      TRAINING_STEPS = 200
      EVALUATION_INTERVAL = 20 *)
Definition tuning_step3_parameters : M unit :=
  store "TRAINING_STEPS" (VNum 200);;
  store "EVALUATION_INTERVAL" (VNum 20).

(** Step 5: the dictionary display reads eight names and values, in
    order. *)
Definition tuning_step5_arguments : M unit :=
  model_name ← load "MODEL_NAME";
  region ← load "REGION";
  project ← load "PROJECT_ID";
  steps ← load "TRAINING_STEPS";
  dataset ← load "TRAINING_DATA_URI";
  interval ← load "EVALUATION_INTERVAL";
  evaluation ← load "EVAUATION_DATA_URI";
  store "pipeline_arguments"
        (VDict [("model_display_name", model_name);
                ("location", region);
                ("large_model_reference", VStr "text-bison@001");
                ("project", project);
                ("train_steps", steps);
                ("dataset_uri", dataset);
                ("evaluation_interval", interval);
                ("evaluation_data_uri", evaluation)]).

(** ** The Kubeflow example: two components and their pipeline *)

(** def say_hello(name: str) -> str:
        hello_text = f'Hello, {name}!'
        return hello_text *)
Definition say_hello (name : string) : string :=
  let hello_text := "Hello, " +:+ name +:+ "!" in
  hello_text.

(** def how_are_you(hello_text: str) -> str:
        how_are_you_text = f'{hello_text}. How are you?'
        return how_are_you_text *)
Definition how_are_you (hello_text : string) : string :=
  let how_are_you_text := hello_text +:+ ". How are you?" in
  how_are_you_text.

(** A task of a pipeline run: the component it runs, and the value the
    component returns, which the task offers as [output]. *)
Record PipelineTask : Type := mkTask {
  component : string;
  output : string
}.

(** def hello_pipeline(recipient: str) -> str:
        hello_task = say_hello(name=recipient)
        how_task = how_are_you(hello_text=hello_task.output)
        return how_task.output *)
Definition hello_pipeline (recipient : string) : string :=
  let hello_task := mkTask "say-hello" (say_hello recipient) in
  let how_task := mkTask "how-are-you" (how_are_you (output hello_task)) in
  output how_task.

(** ** Vocabulary of the further statements *)

(** [x] is an element of the sequence [seq]: an entry of a list or tuple,
    or a character of a string. *)
Definition element_of (x seq : pyval) : Prop :=
  match seq with
  | VList l | VTuple l => x ∈ l
  | VStr text =>
      ∃ c : ascii, c ∈ list_ascii_of_string text ∧ x = VStr (String c EmptyString)
  | _ => False
  end.

(** Every row has one cell per column. *)
Definition well_formed (df : DataFrame) : Prop :=
  Forall (λ row, length row = length (columns df)) (rows df).

(** The cells under a label, if the frame has the label. *)
Definition column_values (df : DataFrame) (label : string)
    : option (list string) :=
  i ← column_index label (columns df); Some (cell i <$> rows df).

(** A clock reading that [datetime] can hold, with a year of four
    digits. *)
Definition valid_datetime (t : datetime) : Prop :=
  (1000 ≤ Z.of_nat (year t) ≤ 9999)%Z ∧ 1 ≤ month t ≤ 12 ∧ 1 ≤ day t ≤ 31
  ∧ hour t < 24 ∧ minute t < 60 ∧ second t < 60.

(** The name of the file step 9.2 writes when [date] holds [date]. *)
Definition training_data_filename (date : string) : string :=
  "tune_data_stack_overflow_python_qa-" +:+ date +:+ ".jsonl".

(** A session that holds a frame and nothing else. *)
Definition frame_session (df : DataFrame) : State :=
  mkState {[ "stack_overflow_df" := VFrame df ]} (λ _, 0) 0 [] [].

(** A session that holds the training frame and nothing else. *)
Definition train_session (l : list (string * qa_record)) : State :=
  mkState {[ "train" := VFrame (training_frame l) ]} (λ _, 0) 0 [] [].

(** The cells of the tuning notebook up to the arguments, in order. *)
Definition tuning_arguments (now : datetime) : M unit :=
  tuning_step1_uris;; tuning_step2_version now;;
  tuning_step3_parameters;; tuning_step5_arguments.

(** The value a dictionary bound to [name] holds under [key]. *)
Definition entry_of (s : State) (name key : string) : option pyval :=
  match globals s !! name with
  | Some (VDict entries) => dict_get entries key
  | _ => None
  end.

(** A session of the tuning notebook after its step 4. *)
Definition tuning_session : State :=
  mkState {[ "REGION" := VStr "us-central1"; "PROJECT_ID" := VStr "my-project" ]}
          (λ _, 0) 0 [] [].

(** The cells of [data-prep.ipynb] from the query of step 6 to the export,
    in order. *)
Definition data_prep (cloud : Cloud) (permutation : nat → nat → list nat)
    (sql template : string) (now : datetime) : M unit :=
  step6_load cloud sql;; step7_instruct template;;
  step8_split permutation;; step9_1_date now;; step9_jsonl.

(** A warehouse that answers every query with the same frame. *)
Definition serving_cloud (df : DataFrame) : Cloud :=
  mkCloud (λ _ _, None) (λ _ _ _, inr sample_reply) (λ _ _, inr df).

Definition client_session : State :=
  mkState {[ "bq_client" := VClient ]} (λ _, 0) 0 [] [].

(** A session that holds the training frame and a time stamp. *)
Definition dated_session (l : list (string * qa_record)) (date : string)
    : State :=
  mkState {[ "train" := VFrame (training_frame l); "date" := VStr date ]}
          (λ _, 0) 0 [] [].

(** * Part II: properties *)

(** ** Running the cells *)

Ltac run_cell :=
  unfold mbind, M_bind, mret, M_ret, load, store, print, send, sent, raise,
    as_str, as_sequence, with_globals, with_network; simpl.

(** Reading a name through a chain of assignments to other names. *)
Ltac lookup_chain :=
  cbn [fst snd globals with_globals];
  repeat first [rewrite lookup_insert_ne by done | rewrite lookup_insert_eq];
  try done.

Lemma bind_ret {A B : Type} (a : A) (k : A → M B) s :
  (mret a ≫= k) s = k a s.
Proof. reflexivity. Qed.

Lemma bind_raise {A B : Type} (e : exn) (k : A → M B) s :
  (raise e ≫= k) s = (inl e, s).
Proof. reflexivity. Qed.

Lemma bind_store {B : Type} (name : string) (v : pyval) (k : unit → M B) s :
  (store name v ≫= k) s = k tt (with_globals (<[name := v]> (globals s)) s).
Proof. reflexivity. Qed.

Lemma bind_load {B : Type} (name : string) (k : pyval → M B) s :
  (load name ≫= k) s
  = match globals s !! name with
    | Some v => k v s
    | None => (inl (NameError name), s)
    end.
Proof.
  unfold mbind, M_bind, load. by destruct (globals s !! name).
Qed.

(** ** Running the dispatch cells *)


Lemma random_choice_pick (l : list pyval) (x : pyval) s :
  l !! draws s (drawn s) = Some x →
  random_choice (VList l) s =
    (inr x, mkState (globals s) (draws s) (S (drawn s)) (network s) (stdout s)).
Proof.
  intros Hx. unfold random_choice, py_len, randbelow. run_cell.
  destruct l as [|y l']; [by rewrite lookup_nil in Hx|].
  simpl. unfold subscript_int. by rewrite Hx.
Qed.


Lemma step4_select_run (l : list pyval) (x : pyval) s :
  globals s !! "list_tuned_models" = Some (VList l) →
  l !! draws s (drawn s) = Some x →
  step4_select s =
    (inr tt, mkState (<["tuned_model_select" := x]>
                        (<["random" := VModule "random"]> (globals s)))
                     (draws s) (S (drawn s)) (network s) (stdout s)).
Proof.
  intros Hreg Hx. unfold step4_select.
  rewrite bind_store, bind_load. cbn [globals with_globals].
  rewrite lookup_insert_ne, Hreg by done.
  unfold mbind, M_bind.
  by rewrite (random_choice_pick l x
                (with_globals (<["random" := VModule "random"]> (globals s)) s)
                Hx).
Qed.

Section DeploymentFacts.

Context (cloud : Cloud).

Lemma step5_load_run (endpoint : string) s :
  globals s !! "tuned_model_select" = Some (VStr endpoint) →
  get_tuned_model_reply cloud (network s) endpoint = None →
  step5_load cloud s =
    (inr tt, mkState (<["PROMPT" := VStr PROMPT_step5]>
                        (<["deployed_model" := VModel endpoint]> (globals s)))
                     (draws s) (drawn s)
                     (network s ++ [NetGetTunedModel endpoint]) (stdout s)).
Proof.
  intros Hsel Hrep. unfold step5_load, get_tuned_model. run_cell.
  rewrite Hsel. simpl. by rewrite Hrep.
Qed.

Lemma step6_predict_ok (endpoint prompt : string) (reply : pyval) s :
  globals s !! "deployed_model" = Some (VModel endpoint) →
  globals s !! "PROMPT" = Some (VStr prompt) →
  predict_reply cloud (network s) endpoint prompt = inr reply →
  step6_predict cloud s =
    (inr tt, mkState (<["response" := VResponse reply]> (globals s))
                     (draws s) (drawn s)
                     (network s ++ [NetPredict endpoint prompt])
                     (stdout s ++ [[VResponse reply]])).
Proof.
  intros Hm Hp Hrep. unfold step6_predict, predict. run_cell.
  rewrite Hm, Hp. simpl. by rewrite Hrep.
Qed.

Lemma step6_predict_fail (endpoint prompt detail : string) s :
  globals s !! "deployed_model" = Some (VModel endpoint) →
  globals s !! "PROMPT" = Some (VStr prompt) →
  predict_reply cloud (network s) endpoint prompt = inl detail →
  step6_predict cloud s =
    (inl (UpstreamError detail),
     with_network (network s ++ [NetPredict endpoint prompt]) s).
Proof.
  intros Hm Hp Hrep. unfold step6_predict, predict. run_cell.
  rewrite Hm, Hp. simpl. by rewrite Hrep.
Qed.

Lemma dispatch_reaches_predict (l : list pyval) (endpoint : string) s :
  globals s !! "list_tuned_models" = Some (VList l) →
  l !! draws s (drawn s) = Some (VStr endpoint) →
  get_tuned_model_reply cloud (network s) endpoint = None →
  dispatch cloud s = step6_predict cloud (before_predict endpoint s).
Proof.
  intros Hreg Hx Hrep. unfold dispatch.
  unfold mbind at 1, M_bind at 1. rewrite (step4_select_run l _ s Hreg Hx).
  unfold mbind at 1, M_bind at 1. rewrite (step5_load_run endpoint).
  - reflexivity.
  - simpl. by rewrite lookup_insert_eq.
  - done.
Qed.

End DeploymentFacts.

(** ** Dispatch: failure and frame properties *)

(** C1. Dispatch with an empty registry fails with [EmptyRegistry] in the
    selection cell itself; the state is left as it was but for the name of
    the module the cell imports, so no request of any kind, and in
    particular no prediction, has been sent. *)
Theorem dispatch_empty_registry (cloud : Cloud) (s : State) :
  globals s !! "list_tuned_models" = Some (VList []) →
  step4_select s
  = (inl EmptyRegistry,
     with_globals (<["random" := VModule "random"]> (globals s)) s)
  ∧ dispatch cloud s
    = (inl EmptyRegistry,
       with_globals (<["random" := VModule "random"]> (globals s)) s)
  ∧ network (dispatch cloud s).2 = network s.
Proof.
  intros Hreg.
  assert (Hsel : step4_select s
                 = (inl EmptyRegistry,
                    with_globals (<["random" := VModule "random"]> (globals s))
                                 s)).
  { unfold step4_select. rewrite bind_store, bind_load.
    cbn [globals with_globals]. by rewrite lookup_insert_ne, Hreg. }
  assert (Hrun : dispatch cloud s
                 = (inl EmptyRegistry,
                    with_globals (<["random" := VModule "random"]> (globals s))
                                 s)).
  { unfold dispatch. unfold mbind at 1, M_bind at 1. by rewrite Hsel. }
  split; [exact Hsel|]. split; [exact Hrun|]. by rewrite Hrun.
Qed.

(** C1 at a session without endpoints. *)
Lemma dispatch_empty_registry_witness :
  globals (session [] [0]) !! "list_tuned_models" = Some (VList [])
  ∧ dispatch steady_cloud (session [] [0])
    = (inl EmptyRegistry,
       with_globals (<["random" := VModule "random"]>
                       (globals (session [] [0]))) (session [] [0])).
Proof.
  split; [reflexivity|].
  apply (dispatch_empty_registry steady_cloud (session [] [0])).
  reflexivity.
Defined.

(** C4. When the prediction request of the selected endpoint fails, the
    dispatch ends with that very failure.  The network has seen the handle
    request and exactly one prediction request, to the selected endpoint;
    the random source was used once; nothing was bound to [response] and
    nothing printed. *)
Theorem dispatch_upstream_failure (cloud : Cloud) (s : State)
    (l : list pyval) (endpoint detail : string) :
  globals s !! "list_tuned_models" = Some (VList l) →
  l !! draws s (drawn s) = Some (VStr endpoint) →
  get_tuned_model_reply cloud (network s) endpoint = None →
  predict_reply cloud (network s ++ [NetGetTunedModel endpoint])
                endpoint PROMPT_step5 = inl detail →
  (dispatch cloud s).1 = inl (UpstreamError detail)
  ∧ network (dispatch cloud s).2
    = network s ++ [NetGetTunedModel endpoint; NetPredict endpoint PROMPT_step5]
  ∧ drawn (dispatch cloud s).2 = S (drawn s)
  ∧ globals (dispatch cloud s).2 !! "response" = globals s !! "response"
  ∧ stdout (dispatch cloud s).2 = stdout s.
Proof.
  intros Hreg Hx Hget Hfail.
  rewrite (dispatch_reaches_predict cloud l endpoint s Hreg Hx Hget).
  rewrite (step6_predict_fail cloud endpoint PROMPT_step5 detail).
  - simpl. rewrite <- app_assoc. simpl.
    repeat split. by rewrite !lookup_insert_ne.
  - simpl. by rewrite lookup_insert_ne, lookup_insert_eq.
  - simpl. by rewrite lookup_insert_eq.
  - exact Hfail.
Qed.

(** C4 at a session of three endpoints, all failing, the third drawn. *)
Lemma dispatch_upstream_failure_witness :
  (dispatch failing_cloud (session ["e1"; "e2"; "e3"] [2])).1
    = inl (UpstreamError "503 Service Unavailable")
  ∧ network (dispatch failing_cloud (session ["e1"; "e2"; "e3"] [2])).2
    = [NetGetTunedModel "e3"; NetPredict "e3" PROMPT_step5].
Proof.
  pose proof (dispatch_upstream_failure failing_cloud
                (session ["e1"; "e2"; "e3"] [2])
                [VStr "e1"; VStr "e2"; VStr "e3"] "e3"
                "503 Service Unavailable"
                eq_refl eq_refl eq_refl eq_refl) as (H1 & H2 & _).
  split; [exact H1 | exact H2].
Defined.

(** C5. A dispatch that succeeds binds [response] to exactly the reply the
    selected endpoint produced and prints that same value.  The registry is
    the list it was; of the namespace only the four names the cells assign
    ([tuned_model_select], [deployed_model], [PROMPT], [response]) and the
    name of the module the selection cell imports ([random]) can differ
    from before, and [random] is bound to that module. *)
Theorem dispatch_returns_reply_unchanged (cloud : Cloud) (s : State)
    (l : list pyval) (endpoint : string) (reply : pyval) :
  globals s !! "list_tuned_models" = Some (VList l) →
  l !! draws s (drawn s) = Some (VStr endpoint) →
  get_tuned_model_reply cloud (network s) endpoint = None →
  predict_reply cloud (network s ++ [NetGetTunedModel endpoint])
                endpoint PROMPT_step5 = inr reply →
  (dispatch cloud s).1 = inr tt
  ∧ globals (dispatch cloud s).2 !! "response" = Some (VResponse reply)
  ∧ stdout (dispatch cloud s).2 = stdout s ++ [[VResponse reply]]
  ∧ globals (dispatch cloud s).2 !! "list_tuned_models" = Some (VList l)
  ∧ (∀ x : string,
       x ∉ ["tuned_model_select"; "deployed_model"; "PROMPT"; "response";
            "random"] →
       globals (dispatch cloud s).2 !! x = globals s !! x)
  ∧ globals (dispatch cloud s).2 !! "random" = Some (VModule "random")
  ∧ network (dispatch cloud s).2
    = network s ++ [NetGetTunedModel endpoint; NetPredict endpoint PROMPT_step5].
Proof.
  intros Hreg Hx Hget Hok.
  rewrite (dispatch_reaches_predict cloud l endpoint s Hreg Hx Hget).
  rewrite (step6_predict_ok cloud endpoint PROMPT_step5 reply).
  - simpl. rewrite <- app_assoc. simpl.
    split; [done|]. split; [by rewrite lookup_insert_eq|]. split; [done|].
    split; [by rewrite !lookup_insert_ne|]. split; [|split; [|done]].
    + intros x Hx'. rewrite !not_elem_of_cons in Hx'.
      destruct Hx' as (? & ? & ? & ? & ? & _). by rewrite !lookup_insert_ne.
    + rewrite !lookup_insert_ne by done. by rewrite lookup_insert_eq.
  - simpl. by rewrite lookup_insert_ne, lookup_insert_eq.
  - simpl. by rewrite lookup_insert_eq.
  - exact Hok.
Qed.

(** C5 at a session of three endpoints, the second drawn. *)
Lemma dispatch_returns_reply_unchanged_witness :
  globals (dispatch steady_cloud (session ["e1"; "e2"; "e3"] [1])).2 !! "response"
    = Some (VResponse sample_reply)
  ∧ globals (dispatch steady_cloud (session ["e1"; "e2"; "e3"] [1])).2
      !! "list_tuned_models"
    = Some (VList [VStr "e1"; VStr "e2"; VStr "e3"]).
Proof.
  pose proof (dispatch_returns_reply_unchanged steady_cloud
                (session ["e1"; "e2"; "e3"] [1])
                [VStr "e1"; VStr "e2"; VStr "e3"] "e2" sample_reply
                eq_refl eq_refl eq_refl eq_refl) as (_ & H2 & _ & H4 & _).
  split; [exact H2 | exact H4].
Defined.

(** ** Selection as a function of the random draw *)





Lemma lookup_all_positions {A : Type} (l : list A) :
  (λ r, l !! r) <$> seq 0 (length l) = Some <$> l.
Proof.
  apply list_eq. intros i. rewrite !list_lookup_fmap.
  destruct (l !! i) as [x|] eqn:Hi.
  - rewrite lookup_seq_lt by (by eapply lookup_lt_Some). simpl. by rewrite Hi.
  - rewrite lookup_seq_ge by (by apply lookup_ge_None). done.
Qed.







(** ** Prompt rendering: shape and determinism *)

Lemma append_cons (ch : ascii) (a b : string) :
  String ch a +:+ b = String ch (a +:+ b).
Proof. reflexivity. Qed.

Lemma append_assoc (a b c : string) : (a +:+ b) +:+ c = a +:+ b +:+ c.
Proof.
  induction a as [|ch a IH]; [reflexivity|]. by rewrite !append_cons, IH.
Qed.

Lemma length_append (a b : string) :
  String.length (a +:+ b) = String.length a + String.length b.
Proof.
  induction a as [|ch a IH]; [reflexivity|].
  rewrite append_cons. cbn [String.length Nat.add]. by rewrite IH.
Qed.

Lemma step9_prompt_run (instruction question : string) s :
  step9_prompt instruction question s =
    (inr tt,
     mkState (<["PROMPT" := VStr (render instruction question)]>
                (<["QUESTION" := VStr question]>
                   (<["INSTRUCTION" := VStr instruction]> (globals s))))
             (draws s) (drawn s) (network s)
             (stdout s ++ [[VStr (render instruction question)]])).
Proof.
  unfold step9_prompt, fstring_PROMPT. run_cell.
  rewrite lookup_insert_ne, lookup_insert_eq by done. simpl.
  by rewrite lookup_insert_eq.
Qed.

Lemma set_column_pure (df : DataFrame) (label : string) (values : list string) s :
  set_column df label values s
  = ((set_column df label values (session [] [])).1, s).
Proof.
  unfold set_column.
  destruct (negb (Nat.eqb (length values) (length (rows df)))); [done|].
  by destruct (column_index label (columns df)).
Qed.

Lemma step7_instruct_run (template : string) s :
  step7_instruct template s
  = let s1 := with_globals
                (<["INSTRUCTION_TEMPLATE" := VStr template]> (globals s)) s in
    match instruct_frame template (globals s !! "stack_overflow_df") with
    | inl e => (inl e, s1)
    | inr df =>
        (inr tt,
         with_globals (<["stack_overflow_df" := VFrame df]> (globals s1)) s1)
    end.
Proof.
  unfold step7_instruct, instruct_frame.
  rewrite bind_store, bind_load. cbn [globals with_globals].
  rewrite lookup_insert_eq. cbn [as_str]. rewrite bind_ret, bind_load.
  cbn [globals with_globals]. rewrite lookup_insert_ne by done.
  destruct (globals s !! "stack_overflow_df") as [v|] eqn:Hv; [|done].
  destruct v; cbn [as_frame]; rewrite ?bind_raise; try done.
  rewrite bind_ret. unfold get_column.
  destruct (column_index "input_text" (columns df)) as [i|];
    [|by rewrite bind_raise].
  rewrite bind_ret, bind_load. cbn [globals with_globals].
  rewrite lookup_insert_ne, Hv by done. cbn [as_frame].
  rewrite bind_ret. unfold mbind, M_bind.
  rewrite set_column_pure.
  by destruct (set_column df "input_text_instruct" _ (session [] [])).1.
Qed.

Lemma step7_instruct_outcome (template : string) s :
  (step7_instruct template s).1
  = match instruct_frame template (globals s !! "stack_overflow_df") with
    | inl e => inl e
    | inr _ => inr tt
    end
  ∧ globals (step7_instruct template s).2 !! "stack_overflow_df"
    = match instruct_frame template (globals s !! "stack_overflow_df") with
      | inl _ => globals s !! "stack_overflow_df"
      | inr df => Some (VFrame df)
      end.
Proof.
  rewrite step7_instruct_run. cbn zeta.
  destruct (instruct_frame template (globals s !! "stack_overflow_df"));
    cbn [fst snd globals with_globals].
  - by rewrite lookup_insert_ne.
  - by rewrite lookup_insert_eq.
Qed.


Lemma instruct_query_frame (template : string) (l : list (string * string)) :
  instruct_frame template (Some (VFrame (query_frame l)))
  = inr (instructed_frame template l).
Proof.
  unfold instruct_frame, query_frame, instructed_frame, set_column.
  cbn [columns rows].
  change (column_index "input_text" _) with (Some 0).
  change (column_index "input_text_instruct" _) with (@None nat).
  cbv iota. rewrite !length_fmap, Nat.eqb_refl. cbn [negb fst].
  unfold mret, M_ret. cbn [fst app]. do 2 f_equal.
  rewrite <- !list_fmap_compose, zip_with_fmap_l, zip_with_fmap_r, zip_with_diag.
  by apply list_fmap_ext.
Qed.


(** C9. Rendering is a function of the instruction and the question
    alone: two runs of the prompt cell from any two states bind and print
    the same text, byte for byte; and two runs of the training-time cell on
    the same frame produce the same frame. *)
Theorem render_deterministic (instruction question : string) (s1 s2 : State) :
  globals (step9_prompt instruction question s1).2 !! "PROMPT"
  = globals (step9_prompt instruction question s2).2 !! "PROMPT"
  ∧ (∃ text : string,
        globals (step9_prompt instruction question s1).2 !! "PROMPT"
        = Some (VStr text)
        ∧ last (stdout (step9_prompt instruction question s1).2)
          = Some [VStr text]
        ∧ last (stdout (step9_prompt instruction question s2).2)
          = Some [VStr text]
        ∧ list_byte_of_string text
          = list_byte_of_string (render instruction question))
  ∧ (∀ template : string,
        globals s1 !! "stack_overflow_df" = globals s2 !! "stack_overflow_df" →
        (step7_instruct template s1).1 = (step7_instruct template s2).1
        ∧ globals (step7_instruct template s1).2 !! "stack_overflow_df"
          = globals (step7_instruct template s2).2 !! "stack_overflow_df").
Proof.
  rewrite !step9_prompt_run. simpl. rewrite !lookup_insert_eq.
  split; [done|]. split.
  - exists (render instruction question). by rewrite !last_snoc.
  - intros template Hdf.
    destruct (step7_instruct_outcome template s1) as [H1 H1'].
    destruct (step7_instruct_outcome template s2) as [H2 H2'].
    by rewrite H1, H2, H1', H2', Hdf.
Qed.

(** ** Safety and citation lookups *)

Lemma subscript_int_pure (v : pyval) (i : nat) s :
  ∃ r, subscript_int v i s = (r, s).
Proof.
  unfold subscript_int.
  destruct v as [| | |text|items|items| | | | | | | |]; try (by eexists).
  - destruct (String.get i text); by eexists.
  - destruct (items !! i); by eexists.
  - destruct (items !! i); by eexists.
Qed.

Lemma subscript_key_pure (v : pyval) (key : string) s :
  ∃ r, subscript_key v key s = (r, s).
Proof.
  unfold subscript_key.
  destruct v; try (by eexists); destruct (dict_get entries key); by eexists.
Qed.

Lemma first_prediction_pure (response : pyval) s :
  ∃ r, first_prediction response s = (r, s).
Proof.
  unfold first_prediction, mbind, M_bind.
  destruct response as [| | | | | | | |inner| | | | |]; try (by eexists).
  cbn [attr_prediction_response]. unfold mret at 1, M_ret at 1.
  destruct (subscript_int_pure inner 0 s) as [[e|a] ->]; [by eexists|].
  apply subscript_int_pure.
Qed.

Lemma is_blocked_raw (fields attrs : list (string * pyval)) (v : pyval)
    (others metadata : list pyval) s :
  dict_get fields "safetyAttributes" = Some (VDict attrs) →
  dict_get attrs "blocked" = Some v →
  is_blocked (VResponse (VTuple (VList (VDict fields :: others) :: metadata))) s
  = (inr v, s).
Proof.
  intros Hsa Hb.
  unfold is_blocked, safety_attributes, first_prediction, mbind, M_bind.
  simpl. rewrite Hsa. simpl. by rewrite Hb.
Qed.

Lemma safety_attributes_raw (fields : list (string * pyval)) (v : pyval)
    (others metadata : list pyval) s :
  dict_get fields "safetyAttributes" = Some v →
  safety_attributes
    (VResponse (VTuple (VList (VDict fields :: others) :: metadata))) s
  = (inr v, s).
Proof.
  intros Hsa. unfold safety_attributes, first_prediction, mbind, M_bind.
  simpl. by rewrite Hsa.
Qed.

Lemma citations_raw (fields meta : list (string * pyval)) (v : pyval)
    (others metadata : list pyval) s :
  dict_get fields "citationMetadata" = Some (VDict meta) →
  dict_get meta "citations" = Some v →
  citations (VResponse (VTuple (VList (VDict fields :: others) :: metadata))) s
  = (inr v, s).
Proof.
  intros Hcm Hc. unfold citations, first_prediction, mbind, M_bind.
  simpl. rewrite Hcm. simpl. by rewrite Hc.
Qed.

Lemma step10_safety_run (response b sa : pyval) s :
  globals s !! "response" = Some response →
  (∀ s0, is_blocked response s0 = (inr b, s0)) →
  (∀ s0, safety_attributes response s0 = (inr sa, s0)) →
  step10_safety s
  = (inr tt,
     mkState (<["safety_attributes" := sa]> (<["blocked" := b]> (globals s)))
             (draws s) (drawn s) (network s) (stdout s ++ [[b]] ++ [[sa]])).
Proof.
  intros Hresp Hb Hsa. unfold step10_safety.
  rewrite bind_load, Hresp. unfold mbind at 1, M_bind at 1. rewrite Hb.
  rewrite bind_store, bind_load. cbn [globals with_globals].
  rewrite lookup_insert_eq. unfold mbind at 1, M_bind at 1, print at 1.
  rewrite bind_load. cbn [globals with_globals stdout draws drawn network].
  rewrite lookup_insert_ne, Hresp by done.
  unfold mbind at 1, M_bind at 1. rewrite Hsa.
  rewrite bind_store, bind_load. cbn [globals with_globals].
  rewrite lookup_insert_eq. unfold print.
  cbn [globals with_globals stdout draws drawn network].
  by rewrite <- app_assoc.
Qed.

Lemma step11_citations_run (response c : pyval) s :
  globals s !! "response" = Some response →
  (∀ s0, citations response s0 = (inr c, s0)) →
  step11_citations s
  = (inr tt,
     mkState (<["citation" := c]> (globals s))
             (draws s) (drawn s) (network s) (stdout s ++ [[c]])).
Proof.
  intros Hresp Hc. unfold step11_citations.
  rewrite bind_load, Hresp. unfold mbind at 1, M_bind at 1. rewrite Hc.
  rewrite bind_store, bind_load. cbn [globals with_globals].
  rewrite lookup_insert_eq. unfold print.
  by cbn [globals with_globals stdout draws drawn network].
Qed.

(** C8. On the response that carries a Prediction Result, [is_blocked]
    yields exactly the result's [blocked] flag, [True] when the flag is
    set, and [citations] exactly its list of references, empty or not;
    both leave the state alone.  The cells of steps 10 and 11 bind those
    same values to [blocked] and [citation].  Whatever value sits under the
    two keys is handed back as it is. *)
Theorem accessors_pass_through (r : PredictionResult)
    (others metadata : list pyval) (s : State) :
  is_blocked (response_of r others metadata) s = (inr (VBool (blocked r)), s)
  ∧ citations (response_of r others metadata) s
    = (inr (VList (references r)), s)
  ∧ (let s' := (store "response" (response_of r others metadata)
                 ≫= λ _, step10_safety ≫= λ _, step11_citations) s in
     s'.1 = inr tt
     ∧ globals s'.2 !! "blocked" = Some (VBool (blocked r))
     ∧ globals s'.2 !! "citation" = Some (VList (references r))
     ∧ globals s'.2 !! "response" = Some (response_of r others metadata))
  ∧ (∀ (fields attrs meta : list (string * pyval)) (b c : pyval),
        dict_get fields "safetyAttributes" = Some (VDict attrs) →
        dict_get attrs "blocked" = Some b →
        dict_get fields "citationMetadata" = Some (VDict meta) →
        dict_get meta "citations" = Some c →
        is_blocked
          (VResponse (VTuple (VList (VDict fields :: others) :: metadata))) s
        = (inr b, s)
        ∧ citations
            (VResponse (VTuple (VList (VDict fields :: others) :: metadata))) s
          = (inr c, s)).
Proof.
  assert (Hb : ∀ s0, is_blocked (response_of r others metadata) s0
                     = (inr (VBool (blocked r)), s0)).
  { intros s0. unfold response_of, prediction_dict.
    eapply is_blocked_raw; reflexivity. }
  assert (Hc : ∀ s0, citations (response_of r others metadata) s0
                     = (inr (VList (references r)), s0)).
  { intros s0. unfold response_of, prediction_dict.
    eapply citations_raw; reflexivity. }
  split; [apply Hb|]. split; [apply Hc|]. split.
  - assert (Hrun : ∃ sa,
      (store "response" (response_of r others metadata)
         ≫= λ _, step10_safety ≫= λ _, step11_citations) s
      = (inr tt,
         mkState (<["citation" := VList (references r)]>
                    (<["safety_attributes" := sa]>
                       (<["blocked" := VBool (blocked r)]>
                          (<["response" := response_of r others metadata]>
                             (globals s)))))
                 (draws s) (drawn s) (network s)
                 ((stdout s ++ [[VBool (blocked r)]] ++ [[sa]])
                    ++ [[VList (references r)]]))).
    { eexists. rewrite bind_store. unfold mbind, M_bind.
      erewrite step10_safety_run; [|by apply lookup_insert_eq|exact Hb|].
      2: { intros s0. unfold response_of, prediction_dict.
           eapply safety_attributes_raw; reflexivity. }
      erewrite step11_citations_run; [reflexivity| |exact Hc].
      lookup_chain. }
    destruct Hrun as [sa Hrun]. cbn zeta. rewrite Hrun.
    cbn [fst snd]. split; [done|]. repeat split; lookup_chain.
  - intros fields attrs meta b c H1 H2 H3 H4. split.
    + by apply (is_blocked_raw fields attrs).
    + by apply (citations_raw fields meta).
Qed.

(** C8 at a blocked result, and at a response whose flag is not a boolean. *)
Lemma accessors_pass_through_witness :
  is_blocked (response_of (mkResult "..." true [("probability", 0.9%Q)] []) [] [])
             (session [] [])
  = (inr (VBool true), session [] [])
  ∧ citations (VResponse (VTuple [VList [VDict
       [("citationMetadata", VDict [("citations", VList [VStr "ref"])]);
        ("safetyAttributes", VDict [("blocked", VStr "unknown")])]]]))
      (session [] [])
    = (inr (VList [VStr "ref"]), session [] []).
Proof.
  pose proof (accessors_pass_through
                (mkResult "..." true [("probability", 0.9%Q)] []) [] []
                (session [] [])) as (Hflag & _ & _ & Hraw).
  split; [exact Hflag|].
  apply (Hraw [("citationMetadata", VDict [("citations", VList [VStr "ref"])]);
               ("safetyAttributes", VDict [("blocked", VStr "unknown")])]
              [("blocked", VStr "unknown")]
              [("citations", VList [VStr "ref"])]
              (VStr "unknown") (VList [VStr "ref"])
              eq_refl eq_refl eq_refl eq_refl).
Defined.

(** ** The guarded load *)

Lemma step5_load_all_caught (cloud : Cloud) (sql : string) (e : exn) s :
  globals s !! "bq_client" = Some VClient →
  result_reply cloud (network s ++ [NetQuery sql]) sql = inl e →
  isinstance_Exception e = true →
  step5_load_all cloud sql s
  = (inr tt,
     mkState (delete "e" (<["e" := VExn e]> (globals (before_try sql s))))
             (draws s) (drawn s)
             (network s ++ [NetQuery sql] ++ [NetResult sql])
             (stdout s ++ [[VStr "The DataFrame is too large to load into memory.";
                            VExn e]])).
Proof.
  intros Hclient Hreply Hexc. unfold step5_load_all.
  rewrite bind_store, bind_load. cbn [globals with_globals].
  rewrite lookup_insert_ne, Hclient by done.
  rewrite bind_load. cbn [globals with_globals]. rewrite lookup_insert_eq.
  unfold bq_query, mbind at 1, M_bind at 1. run_cell.
  unfold try_except_Exception, result_to_pandas. run_cell.
  rewrite lookup_insert_eq. simpl. rewrite Hreply. simpl. rewrite Hexc.
  simpl. rewrite lookup_insert_eq. unfold before_try. simpl.
  by rewrite <- app_assoc.
Qed.

Lemma step5_load_all_uncaught (cloud : Cloud) (sql : string) (e : exn) s :
  globals s !! "bq_client" = Some VClient →
  result_reply cloud (network s ++ [NetQuery sql]) sql = inl e →
  isinstance_Exception e = false →
  (step5_load_all cloud sql s).1 = inl e.
Proof.
  intros Hclient Hreply Hexc. unfold step5_load_all.
  rewrite bind_store, bind_load. cbn [globals with_globals].
  rewrite lookup_insert_ne, Hclient by done.
  rewrite bind_load. cbn [globals with_globals]. rewrite lookup_insert_eq.
  unfold bq_query, mbind at 1, M_bind at 1. run_cell.
  unfold try_except_Exception, result_to_pandas. run_cell.
  rewrite lookup_insert_eq. simpl. rewrite Hreply. simpl. by rewrite Hexc.
Qed.

(** C7. When loading the result of a query fails with
    [OversizedResultError], the cell of step 5 still ends normally: the
    error is caught there and reported on the output together with the
    fixed message.  The namespace is the one the [try] statement started
    from, [stack_overflow_df] included, and a cell that follows runs from
    the state the handler left. *)
Theorem oversized_result_is_caught (cloud : Cloud) (sql detail : string)
    (s : State) :
  globals s !! "bq_client" = Some VClient →
  globals s !! "e" = None →
  result_reply cloud (network s ++ [NetQuery sql]) sql
    = inl (OversizedResultError detail) →
  (step5_load_all cloud sql s).1 = inr tt
  ∧ stdout (step5_load_all cloud sql s).2
    = stdout s ++ [[VStr "The DataFrame is too large to load into memory.";
                    VExn (OversizedResultError detail)]]
  ∧ globals (step5_load_all cloud sql s).2 = globals (before_try sql s)
  ∧ globals (step5_load_all cloud sql s).2 !! "stack_overflow_df"
    = globals s !! "stack_overflow_df"
  ∧ (∀ (next : M unit),
        (step5_load_all cloud sql ≫= λ _, next) s
        = next (step5_load_all cloud sql s).2).
Proof.
  intros Hclient He Hreply.
  rewrite (step5_load_all_caught cloud sql _ s Hclient Hreply eq_refl).
  cbn [fst snd globals stdout].
  assert (Hg : delete "e" (<["e" := VExn (OversizedResultError detail)]>
                             (globals (before_try sql s)))
               = globals (before_try sql s)).
  { apply delete_insert_id. unfold before_try. cbn [globals].
    by rewrite !lookup_insert_ne. }
  rewrite Hg. split; [done|]. split; [done|]. split; [done|]. split.
  - unfold before_try. cbn [globals]. by rewrite !lookup_insert_ne.
  - intros next. unfold mbind, M_bind.
    rewrite (step5_load_all_caught cloud sql _ s Hclient Hreply eq_refl).
    by rewrite Hg.
Qed.

(** C7 at a session that already holds a two-row frame. *)
Lemma oversized_result_is_caught_witness :
  (step5_load_all steady_cloud QUERY_ALL warehouse_session).1 = inr tt
  ∧ globals (step5_load_all steady_cloud QUERY_ALL warehouse_session).2
      !! "stack_overflow_df"
    = Some (VFrame (mkFrame ["title"] [["q1"]; ["q2"]])).
Proof.
  pose proof (oversized_result_is_caught steady_cloud QUERY_ALL
                "403 Response too large" warehouse_session
                eq_refl eq_refl eq_refl) as (H1 & _ & _ & H4 & _).
  split; [exact H1 | exact H4].
Defined.

(** ** JSON-Lines: writing then reading *)

Ltac each_ascii c := destruct c as [[] [] [] [] [] [] [] []].

Lemma parse_escape_char (c : ascii) (tail : string) :
  parse_string_body (escape_char c +:+ tail)
  = match parse_string_body tail with
    | Some (text, after) => Some (String c text, after)
    | None => None
    end.
Proof. each_ascii c; reflexivity. Qed.

Lemma parse_escape (s rest : string) :
  parse_string_body (escape s +:+ String DQUOTE rest) = Some (s, rest).
Proof.
  induction s as [|c s IH]; [reflexivity|].
  cbn [escape]. by rewrite append_assoc, parse_escape_char, IH.
Qed.

Lemma parse_json_string (s rest : string) :
  parse_string (json_string s +:+ rest) = Some (s, rest).
Proof.
  unfold json_string. rewrite append_cons. cbn [parse_string].
  change (Ascii.eqb DQUOTE DQUOTE) with true. cbv iota.
  rewrite append_assoc. apply parse_escape.
Qed.

Lemma parse_member (m : string * string) (c : ascii) (rest : string)
    (fuel : nat) :
  parse_members (S fuel) (json_member m +:+ String c rest)
  = if Ascii.eqb c "}" then Some ([m], rest)
    else if Ascii.eqb c ","
         then match parse_members fuel rest with
              | Some (more, after) => Some (m :: more, after)
              | None => None
              end
         else None.
Proof.
  destruct m as [key value]. unfold json_member. cbn [fst snd parse_members].
  rewrite !append_assoc, parse_json_string. cbn [mbind option_bind].
  rewrite append_cons. cbn [expect].
  change (Ascii.eqb ":" ":") with true. cbv iota.
  change ("" +:+ ?x) with x. cbn [mbind option_bind].
  rewrite parse_json_string. cbn [mbind option_bind].
  destruct (Ascii.eqb c "}"); [done|].
  destruct (Ascii.eqb c ","); [|done].
  by destruct (parse_members fuel rest) as [[more after]|].
Qed.

Lemma join_cons2 (sep p q : string) (rest : list string) :
  join sep (p :: q :: rest) = p +:+ sep +:+ join sep (q :: rest).
Proof. reflexivity. Qed.

Lemma parse_members_join (members : list (string * string)) (rest : string)
    (fuel : nat) :
  members ≠ [] → (length members ≤ fuel)%nat →
  parse_members fuel (join "," (json_member <$> members) +:+ String "}" rest)
  = Some (members, rest).
Proof.
  revert fuel. induction members as [|m members IH]; [done|].
  intros fuel _ Hfuel. destruct fuel as [|fuel]; [simpl in Hfuel; lia|].
  destruct members as [|m' members'].
  - cbn [fmap list_fmap join]. by rewrite parse_member.
  - rewrite !fmap_cons, join_cons2, !append_assoc.
    change ("," +:+ ?x) with (String "," x).
    rewrite parse_member.
    change (Ascii.eqb "," "}") with false. change (Ascii.eqb "," ",") with true.
    cbv iota. rewrite <- !fmap_cons, IH; [done|done|simpl in *; lia].
Qed.

Lemma json_member_head (m : string * string) :
  ∃ tail, json_member m = String DQUOTE tail.
Proof. unfold json_member, json_string. rewrite append_cons. by eexists. Qed.

Lemma join_members_head (m : string * string) (members : list (string * string)) :
  ∃ tail, join "," (json_member <$> m :: members) = String DQUOTE tail.
Proof.
  destruct (json_member_head m) as [tail Hm].
  destruct members as [|m' members'].
  - exists tail. by rewrite fmap_cons.
  - rewrite !fmap_cons, join_cons2, Hm, append_cons. by eexists.
Qed.

Lemma length_join_members (members : list (string * string)) :
  (length members ≤ String.length (join "," (json_member <$> members)))%nat.
Proof.
  induction members as [|m members IH]; [simpl; lia|].
  destruct (json_member_head m) as [tail Hm].
  destruct members as [|m' members'].
  - rewrite fmap_cons. cbn [join]. rewrite Hm. simpl. lia.
  - rewrite !fmap_cons, join_cons2, Hm, !length_append.
    rewrite <- fmap_cons. cbn [String.length length] in *. lia.
Qed.

Lemma parse_json_object (members : list (string * string)) :
  parse_object (json_object members) = Some members.
Proof.
  destruct members as [|m members]; [reflexivity|].
  unfold json_object, parse_object. rewrite append_cons.
  change ("" +:+ ?x) with x. cbn [expect mbind option_bind].
  change (Ascii.eqb "{" "{") with true. cbv iota. cbn [mbind option_bind].
  assert (Hhead : ∃ c rest,
             join "," (json_member <$> m :: members) +:+ "}" = String c rest
             ∧ Ascii.eqb c "}" = false).
  { destruct (join_members_head m members) as [tail ->].
    rewrite append_cons. by eexists _, _. }
  destruct Hhead as (c & rest & Heq & Hc). rewrite Heq. rewrite Hc.
  rewrite <- Heq. rewrite parse_members_join; [done|done|].
  cbn [String.length]. rewrite Heq, <- Heq, length_append.
  pose proof (length_join_members (m :: members)). lia.
Qed.

Lemma has_newline_append (a b : string) :
  has_newline (a +:+ b) = has_newline a || has_newline b.
Proof.
  induction a as [|c a IH]; [reflexivity|].
  rewrite append_cons. cbn [has_newline]. by rewrite IH, orb_assoc.
Qed.

Lemma escape_char_one_line (c : ascii) : has_newline (escape_char c) = false.
Proof. each_ascii c; reflexivity. Qed.

Lemma json_string_one_line (s : string) : has_newline (json_string s) = false.
Proof.
  unfold json_string. cbn [has_newline]. rewrite has_newline_append.
  change (Ascii.eqb DQUOTE "010") with false. cbn [orb has_newline].
  change (Ascii.eqb DQUOTE "010") with false. rewrite orb_false_r.
  induction s as [|c s IH]; [reflexivity|].
  cbn [escape]. by rewrite has_newline_append, escape_char_one_line, IH.
Qed.

Lemma json_object_one_line (members : list (string * string)) :
  has_newline (json_object members) = false.
Proof.
  unfold json_object. rewrite !has_newline_append.
  change (has_newline "{") with false. change (has_newline "}") with false.
  rewrite orb_false_r. cbn [orb].
  induction members as [|m members IH]; [reflexivity|].
  assert (Hm : has_newline (json_member m) = false).
  { unfold json_member.
    by rewrite !has_newline_append, !json_string_one_line. }
  destruct members as [|m' members']; [by rewrite fmap_cons|].
  rewrite !fmap_cons, join_cons2, !has_newline_append, Hm.
  rewrite <- fmap_cons, IH. reflexivity.
Qed.

Lemma split_lines_one_line (line : string) :
  has_newline line = false → split_lines line = [line].
Proof.
  induction line as [|c line IH]; [done|].
  cbn [has_newline split_lines]. intros [Hc Hline]%orb_false_iff.
  by rewrite IH, Hc.
Qed.

Lemma split_lines_after (line rest : string) :
  has_newline line = false →
  split_lines (line +:+ String "010" rest) = line :: split_lines rest.
Proof.
  induction line as [|c line IH]; [done|].
  cbn [has_newline]. intros [Hc Hline]%orb_false_iff.
  rewrite append_cons. cbn [split_lines]. by rewrite Hc, IH.
Qed.

Lemma json_object_nonempty (members : list (string * string)) :
  nonempty (json_object members) = true.
Proof. unfold json_object. by rewrite append_cons. Qed.

Lemma split_text (objects : list string) :
  Forall (λ o, has_newline o = false) objects →
  split_lines (join LF objects +:+ LF)
  = match objects with
    | [] => [EmptyString; EmptyString]
    | _ => objects ++ [EmptyString]
    end.
Proof.
  induction 1 as [|o objects Ho Hrest IH]; [reflexivity|].
  destruct objects as [|o' objects'].
  - cbn [join]. unfold LF. by rewrite split_lines_after.
  - rewrite join_cons2, !append_assoc. unfold LF at 1.
    change (String "010" "" +:+ ?x) with (String "010" x).
    by rewrite split_lines_after, IH.
Qed.

Lemma read_lines_of_objects (l : list (list (string * string))) :
  mapM parse_object
       (List.filter nonempty
          (match json_object <$> l with
           | [] => [EmptyString; EmptyString]
           | _ => (json_object <$> l) ++ [EmptyString]
           end))
  = Some l.
Proof.
  destruct l as [|m l]; [reflexivity|].
  rewrite fmap_cons. cbn [app].
  assert (Hgen : ∀ k : list (list (string * string)),
             mapM parse_object
                  (List.filter nonempty ((json_object <$> k) ++ [EmptyString]))
             = Some k).
  { induction k as [|m' k IH]; [reflexivity|].
    rewrite fmap_cons. cbn [app List.filter].
    rewrite json_object_nonempty. cbn [mapM].
    rewrite parse_json_object. cbn [mbind option_bind].
    by rewrite IH. }
  cbn [List.filter]. rewrite json_object_nonempty. cbn [mapM].
  rewrite parse_json_object. cbn [mbind option_bind]. by rewrite Hgen.
Qed.

Lemma read_written_frame (df : DataFrame) :
  read_json_lines (to_json_records_lines df) = Some (records df).
Proof.
  unfold read_json_lines, to_json_records_lines.
  rewrite split_text.
  - apply read_lines_of_objects.
  - apply Forall_fmap, Forall_forall. intros m _. apply json_object_one_line.
Qed.

Lemma getitem_tune_columns (l : list (string * qa_record)) s :
  getitem_columns (training_frame l) ["input_text_instruct"; "output_text"] s
  = (inr (tune_frame l), s).
Proof.
  unfold getitem_columns, training_frame, tune_frame. cbn [columns rows].
  change (mapM _ ["input_text_instruct"; "output_text"]) with (Some [2; 1]).
  cbv iota. unfold mret, M_ret. do 2 f_equal. f_equal.
  rewrite <- list_fmap_compose. by apply list_fmap_ext.
Qed.

Lemma records_tune_frame (l : list (string * qa_record)) :
  records (tune_frame l) = (λ qr, qa_members qr.2) <$> l.
Proof.
  unfold records, tune_frame. cbn [columns rows].
  rewrite <- list_fmap_compose. by apply list_fmap_ext.
Qed.

Lemma qa_of_qa_members (l : list (string * qa_record)) :
  mapM qa_of_members ((λ qr, qa_members qr.2) <$> l) = Some (snd <$> l).
Proof.
  induction l as [|[q [a b]] l IH]; [reflexivity|].
  rewrite !fmap_cons. cbn [mapM]. rewrite IH. reflexivity.
Qed.

Lemma step9_jsonl_run (l : list (string * qa_record)) (date : string) s :
  globals s !! "train" = Some (VFrame (training_frame l)) →
  globals s !! "date" = Some (VStr date) →
  step9_jsonl s
  = (inr tt,
     mkState
       (<["training_data_filename" :=
            VStr ("tune_data_stack_overflow_python_qa-" +:+ date +:+ ".jsonl")]>
          (<["tune_jsonl" := VStr (to_json_records_lines (tune_frame l))]>
             (<["cols" := VList [VStr "input_text_instruct"; VStr "output_text"]]>
                (globals s))))
       (draws s) (drawn s)
       (network s ++
          [FileWrite ("tune_data_stack_overflow_python_qa-" +:+ date +:+ ".jsonl")
                     (to_json_records_lines (tune_frame l))])
       (stdout s)).
Proof.
  intros Htrain Hdate. unfold step9_jsonl.
  rewrite bind_store, bind_load. cbn [globals with_globals].
  rewrite lookup_insert_ne, Htrain by done. cbn [as_frame].
  rewrite bind_ret, bind_load. cbn [globals with_globals].
  rewrite lookup_insert_eq.
  change (as_labels (VList [VStr "input_text_instruct"; VStr "output_text"]))
    with (mret (M := M) ["input_text_instruct"; "output_text"]).
  rewrite bind_ret. unfold mbind at 1, M_bind at 1.
  rewrite getitem_tune_columns.
  rewrite bind_store, bind_load. cbn [globals with_globals].
  rewrite !lookup_insert_ne, Hdate by done. cbn [as_str].
  rewrite bind_ret, bind_store, bind_load. cbn [globals with_globals].
  rewrite lookup_insert_eq. cbn [as_str].
  rewrite bind_ret, bind_load. cbn [globals with_globals].
  rewrite lookup_insert_ne, lookup_insert_eq by done. cbn [as_str].
  rewrite bind_ret. reflexivity.
Qed.

(** C6. A frame written as JSON-Lines and read back yields the frame's
    records, as many as it has rows.  In particular the text the notebook
    binds to [tune_jsonl] and writes to its file, for [N] training records
    with the fields [input_text_instruct] and [output_text], reads back as
    exactly those [N] records, field by field. *)
Theorem jsonl_round_trip (l : list (string * qa_record)) (date : string)
    (s : State) :
  (∀ df : DataFrame,
      read_json_lines (to_json_records_lines df) = Some (records df)
      ∧ length (records df) = length (rows df))
  ∧ (let s0 := with_globals (<["date" := VStr date]>
                               (<["train" := VFrame (training_frame l)]>
                                  (globals s))) s in
     (step9_jsonl s0).1 = inr tt
     ∧ ∃ text : string,
         globals (step9_jsonl s0).2 !! "tune_jsonl" = Some (VStr text)
         ∧ network (step9_jsonl s0).2
           = network s ++
               [FileWrite ("tune_data_stack_overflow_python_qa-" +:+ date
                             +:+ ".jsonl") text]
         ∧ read_json_lines text ≫= mapM qa_of_members = Some (snd <$> l)
         ∧ (length <$> read_json_lines text) = Some (length l)).
Proof.
  split.
  - intros df. split; [apply read_written_frame|].
    unfold records. by rewrite length_fmap.
  - cbn zeta. rewrite (step9_jsonl_run l date); [| lookup_chain | lookup_chain].
    cbn [fst snd globals with_globals network].
    split; [done|]. exists (to_json_records_lines (tune_frame l)).
    split; [lookup_chain|]. split; [done|].
    rewrite read_written_frame, records_tune_frame. cbn [mbind option_bind fmap option_fmap option_map].
    split; [apply qa_of_qa_members|]. by rewrite length_fmap.
Qed.

(** ** The size rule: a fifth, rounded up *)

Lemma ceil_between (a d c : Z) :
  (0 < d)%Z → ((c - 1) * d < a)%Z → (a <= c * d)%Z →
  (- ((- a) / d))%Z = c.
Proof.
  intros Hd Hlo Hhi.
  assert (H : ((- a) / d = - c)%Z).
  { symmetry. apply (Z.div_unique (- a) d (- c) (c * d - a)); lia. }
  lia.
Qed.

Lemma fifth_rounded_up (n : Z) :
  (0 <= n < 2 ^ 48)%Z →
  float_ceil (float_mul_int test_size n) = ((n + 4) / 5)%Z.
Proof.
  intros [Hn0 Hn].
  destruct (Z_lt_le_dec n 3) as [Hsmall|Hbig].
  { assert (Hcases : n = 0%Z ∨ n = 1%Z ∨ n = 2%Z) by lia.
    destruct Hcases as [->|[->| ->]]; reflexivity. }
  unfold float_mul_int, test_size, round_nearest_even.
  cbn [significand exponent].
  set (P := (3602879701896397 * n)%Z).
  assert (HP53 : (2 ^ 53 <= P)%Z) by (subst P; lia).
  assert (HP100 : (P < 2 ^ 100)%Z) by (subst P; lia).
  destruct (Z.ltb_spec P (2 ^ 53)) as [Hlt|_]; [lia|].
  set (k := (Z.log2 P - 52)%Z).
  assert (Hlog : (53 <= Z.log2 P < 100)%Z).
  { split.
    - change 53%Z with (Z.log2 (2 ^ 53)). apply Z.log2_le_mono. lia.
    - apply Z.log2_lt_pow2; lia. }
  assert (Hk : (1 <= k <= 47)%Z) by (subst k; lia).
  assert (Hspec : (2 ^ Z.log2 P <= P < 2 ^ Z.succ (Z.log2 P))%Z)
    by (apply Z.log2_spec; lia).
  replace (Z.log2 P) with (52 + k)%Z in Hspec by (subst k; lia).
  replace (Z.succ (52 + k)) with (53 + k)%Z in Hspec by lia.
  rewrite !Z.pow_add_r in Hspec by lia.
  assert (HKD : (2 ^ k * 2 ^ (54 - k) = 2 ^ 54)%Z)
    by (rewrite <- Z.pow_add_r by lia; f_equal; lia).
  assert (Hhalf : (2 * 2 ^ (k - 1) = 2 ^ k)%Z).
  { replace k with (1 + (k - 1))%Z at 2 by lia.
    rewrite Z.pow_add_r by lia. reflexivity. }
  assert (HK47 : (2 ^ k <= 2 ^ 47)%Z) by (apply Z.pow_le_mono_r; lia).
  assert (HKpos : (0 < 2 ^ k)%Z) by (apply Z.pow_pos_nonneg; lia).
  assert (HDpos : (0 < 2 ^ (54 - k))%Z) by (apply Z.pow_pos_nonneg; lia).
  unfold float_ceil. cbn [significand exponent].
  destruct (Z.leb_spec 0 (-54 + k)) as [Hge|_]; [lia|].
  replace (- (-54 + k))%Z with (54 - k)%Z by lia.
  set (K := (2 ^ k)%Z) in *. set (D := (2 ^ (54 - k))%Z) in *.
  set (half := (2 ^ (k - 1))%Z) in *. clearbody K D half.
  change (2 ^ 52)%Z with 4503599627370496%Z in Hspec.
  change (2 ^ 53)%Z with 9007199254740992%Z in Hspec, HP53.
  change (2 ^ 54)%Z with 18014398509481984%Z in HKD.
  change (2 ^ 47)%Z with 140737488355328%Z in HK47.
  change (2 ^ 48)%Z with 281474976710656%Z in Hn.
  pose proof (Z.div_mod n 5 ltac:(lia)) as Hdm.
  pose proof (Z.mod_pos_bound n 5 ltac:(lia)) as Hmod.
  set (j := (n / 5)%Z) in *. set (t := (n mod 5)%Z) in *.
  assert (Hj : (0 <= j)%Z) by (subst j; apply Z.div_pos; lia).
  assert (HPj : (P = K * (j * D) + (j + 3602879701896397 * t))%Z).
  { subst P. rewrite Hdm. nia. }
  replace ((n + 4) / 5)%Z with (if Z.eqb t 0 then j else j + 1)%Z.
  2: { destruct (Z.eqb_spec t 0) as [Ht|Ht].
       - apply (Z.div_unique (n + 4) 5 j 4); lia.
       - apply (Z.div_unique (n + 4) 5 (j + 1) (t - 1)); lia. }
  destruct (Z.eqb_spec t 0) as [Ht|Ht].
  - rewrite Ht in HPj.
    assert (Hjhalf : (j < half)%Z) by nia.
    assert (Hq : (P / K = j * D)%Z).
    { symmetry. apply (Z.div_unique P K (j * D) j); lia. }
    assert (Hr : (P mod K = j)%Z).
    { symmetry. apply (Z.mod_unique P K (j * D) j); lia. }
    rewrite Hq, Hr.
    destruct (Z.ltb_spec half j) as [?|_]; [lia|].
    destruct (Z.eqb_spec j half) as [?|_]; [lia|].
    cbn [orb andb]. apply ceil_between; nia.
  - assert (Hqlo : (j * D + 1 <= P / K)%Z).
    { apply Z.div_le_lower_bound; nia. }
    assert (Hqhi : (P / K < (j + 1) * D)%Z).
    { apply Z.div_lt_upper_bound; nia. }
    destruct ((half <? P mod K)%Z || ((P mod K =? half)%Z && Z.odd (P / K)))%bool;
      apply ceil_between; nia.
Qed.

Lemma validate_shuffle_split_sizes (n : nat) :
  (Z.of_nat n < 2 ^ 48)%Z →
  validate_shuffle_split n
  = if Nat.leb n 1
    then inl (ValueError "the resulting train set will be empty")
    else inr (n - (n + 4) / 5, (n + 4) / 5).
Proof.
  intros Hn. unfold validate_shuffle_split.
  rewrite fifth_rounded_up by lia.
  replace (Z.to_nat ((Z.of_nat n + 4) / 5)) with ((n + 4) / 5).
  2: { rewrite <- (Nat2Z.id ((n + 4) / 5)). f_equal.
       by rewrite Nat2Z.inj_div, Nat2Z.inj_add. }
  pose proof (Nat.div_mod_eq (n + 4) 5) as Hdm.
  pose proof (Nat.mod_upper_bound (n + 4) 5 ltac:(lia)) as Hmod.
  destruct (Nat.leb_spec n 1) as [Hle|Hgt].
  - destruct (Nat.eqb_spec (n - (n + 4) / 5) 0) as [_|Hne]; [done|]. lia.
  - destruct (Nat.eqb_spec (n - (n + 4) / 5) 0) as [Heq|_]; [lia|done].
Qed.

(** ** The split as a partition *)

Lemma take_rows_in_range (df : DataFrame) (positions : list nat) :
  Forall (λ i, i < length (rows df)) positions →
  ∃ selected,
    take_rows df positions = inr (mkFrame (columns df) selected)
    ∧ Some <$> selected = (λ i, rows df !! i) <$> positions.
Proof.
  intros Hall. unfold take_rows.
  assert (H : ∃ selected,
             mapM (M := option) (λ i, rows df !! i) positions = Some selected
             ∧ Some <$> selected = (λ i, rows df !! i) <$> positions).
  { induction Hall as [|i positions Hi _ (selected & Hsel & Heq)];
      [by exists []|].
    destruct (lookup_lt_is_Some_2 _ _ Hi) as [row Hrow].
    exists (row :: selected). cbn [mapM]. rewrite Hrow, Hsel.
    split; [done|]. by rewrite !fmap_cons, Heq, Hrow. }
  destruct H as (selected & -> & Heq). by exists selected.
Qed.

Lemma Permutation_of_Some {A : Type} (x y : list A) :
  Some <$> x ≡ₚ Some <$> y → x ≡ₚ y.
Proof.
  destruct x as [|a x].
  - intros H%Permutation_length. destruct y; [done|discriminate].
  - intros H.
    assert (Hback : ∀ l : list A, default a <$> (Some <$> l) = l).
    { intros l. rewrite <- list_fmap_compose. apply list_fmap_id. }
    rewrite <- (Hback (a :: x)), <- (Hback y). by rewrite H.
Qed.

Section SplitFacts.

Context (permutation : nat → nat → list nat).
Hypothesis permutation_spec : ∀ seed n, permutation seed n ≡ₚ seq 0 n.

Lemma train_test_split_run (df : DataFrame) (seed : nat) :
  2 ≤ length (rows df) →
  (Z.of_nat (length (rows df)) < 2 ^ 48)%Z →
  let N := length (rows df) in
  let p := permutation seed N in
  ∃ train evaluation,
    train_test_split permutation df seed
    = inr (mkFrame (columns df) train, mkFrame (columns df) evaluation)
    ∧ Some <$> evaluation = (λ i, rows df !! i) <$> take ((N + 4) / 5) p
    ∧ Some <$> train = (λ i, rows df !! i) <$> drop ((N + 4) / 5) p.
Proof.
  intros H2 Hbound N p. unfold train_test_split. fold N.
  rewrite validate_shuffle_split_sizes by done.
  pose proof (Nat.div_mod_eq (N + 4) 5) as Hdm.
  pose proof (Nat.mod_upper_bound (N + 4) 5 ltac:(lia)) as Hmod.
  set (e := (N + 4) / 5) in *.
  assert (He : 1 ≤ e ∧ e < N) by lia.
  destruct (Nat.leb_spec N 1) as [?|_]; [lia|].
  unfold validate_counts.
  destruct (Nat.leb_spec N e) as [?|_]; [lia|].
  destruct (Nat.eqb_spec e 0) as [?|_]; [lia|]. cbn [orb].
  destruct (Nat.leb_spec N (N - e)) as [?|_]; [lia|].
  destruct (Nat.eqb_spec (N - e) 0) as [?|_]; [lia|]. cbn [orb].
  destruct (Nat.ltb_spec N (N - e + e)) as [?|_]; [lia|].
  fold p.
  assert (Hlen : length p = N).
  { subst p. by rewrite (permutation_spec seed N), length_seq. }
  assert (Hrange : Forall (λ i, i < N) p).
  { apply Forall_forall. intros i Hi. subst p.
    rewrite (permutation_spec seed N) in Hi.
    apply elem_of_seq in Hi. lia. }
  rewrite (take_ge (drop e p)) by (rewrite length_drop; lia).
  destruct (take_rows_in_range df (drop e p)) as (train & -> & Htrain);
    [by apply Forall_drop|].
  destruct (take_rows_in_range df (take e p)) as (evaluation & -> & Heval);
    [by apply Forall_take|].
  by exists train, evaluation.
Qed.

End SplitFacts.

Lemma train_test_split_too_small (permutation : nat → nat → list nat)
    (df : DataFrame) (seed : nat) :
  length (rows df) ≤ 1 →
  train_test_split permutation df seed
  = inl (ValueError "the resulting train set will be empty").
Proof.
  intros Hsmall. unfold train_test_split.
  rewrite validate_shuffle_split_sizes
    by (change (2 ^ 48)%Z with 281474976710656%Z; lia).
  by destruct (Nat.leb_spec (length (rows df)) 1) as [_|?]; [|lia].
Qed.

Lemma step8_split_outcome (permutation : nat → nat → list nat)
    (df : DataFrame) s :
  globals s !! "stack_overflow_df" = Some (VFrame df) →
  step8_split permutation s
  = match train_test_split permutation df 42 with
    | inl e => (inl e, s)
    | inr (train, evaluation) =>
        (inr tt,
         with_globals (<["evaluation" := VFrame evaluation]>
                         (<["train" := VFrame train]> (globals s))) s)
    end.
Proof.
  intros Hdf. unfold step8_split. rewrite bind_load, Hdf. cbn [as_frame].
  rewrite bind_ret.
  by destruct (train_test_split permutation df 42) as [e|[train evaluation]].
Qed.

(** C10, as the claim words it, fails: a frame of one row is not split at
    all; the call raises and the cell binds neither [train] nor
    [evaluation]. *)
Lemma split_of_one_row_raises :
  train_test_split in_order (mkFrame ["input_text"] [["q"]]) 42
  = inl (ValueError "the resulting train set will be empty")
  ∧ step8_split in_order
      (mkState {[ "stack_overflow_df" :=
                    VFrame (mkFrame ["input_text"] [["q"]]) ]}
               (λ _, 0) 0 [] [])
    = (inl (ValueError "the resulting train set will be empty"),
       mkState {[ "stack_overflow_df" :=
                    VFrame (mkFrame ["input_text"] [["q"]]) ]}
               (λ _, 0) 0 [] []).
Proof.
  assert (H : train_test_split in_order (mkFrame ["input_text"] [["q"]]) 42
              = inl (ValueError "the resulting train set will be empty")).
  { apply train_test_split_too_small. simpl. lia. }
  split; [exact H|].
  rewrite (step8_split_outcome in_order (mkFrame ["input_text"] [["q"]]))
    by reflexivity.
  by rewrite H.
Qed.

(** C10, amended. For a frame of [N] rows ([N] below 2^48, the range for
    which the rounded product [0.2 * N] is shown to round up to
    ceil(N/5)): with [N <= 1] the split raises; with [2 <= N] the split
    with [test_size=0.2] and [random_state=42] succeeds and partitions the rows
    by position: the positions of the evaluation rows and of the training
    rows are disjoint and together are all positions, so the rows of the
    two frames are a rearrangement of the input rows; the evaluation frame
    has ceil(N/5) rows, the training frame the other N - ceil(N/5); both
    keep the columns.  The cell's outcome depends on the frame alone: run
    from any two states that hold the same frame it binds the same [train]
    and [evaluation]. *)
Theorem split_partitions (permutation : nat → nat → list nat)
    (df : DataFrame) :
  (∀ seed n, permutation seed n ≡ₚ seq 0 n) →
  (Z.of_nat (length (rows df)) < 2 ^ 48)%Z →
  (length (rows df) ≤ 1 →
     train_test_split permutation df 42
     = inl (ValueError "the resulting train set will be empty"))
  ∧ (2 ≤ length (rows df) →
     (∃ train evaluation : DataFrame,
         train_test_split permutation df 42 = inr (train, evaluation)
         ∧ (∃ ind_test ind_train : list nat,
               ind_test ++ ind_train ≡ₚ seq 0 (length (rows df))
               ∧ NoDup (ind_test ++ ind_train)
               ∧ Some <$> rows evaluation = (λ i, rows df !! i) <$> ind_test
               ∧ Some <$> rows train = (λ i, rows df !! i) <$> ind_train)
         ∧ rows evaluation ++ rows train ≡ₚ rows df
         ∧ length (rows evaluation) = (length (rows df) + 4) / 5
         ∧ length (rows train)
           = length (rows df) - (length (rows df) + 4) / 5
         ∧ columns train = columns df
         ∧ columns evaluation = columns df)
     ∧ (∀ s1 s2 : State,
           globals s1 !! "stack_overflow_df" = Some (VFrame df) →
           globals s2 !! "stack_overflow_df" = Some (VFrame df) →
           (step8_split permutation s1).1 = inr tt
           ∧ (step8_split permutation s2).1 = inr tt
           ∧ globals (step8_split permutation s1).2 !! "train"
             = globals (step8_split permutation s2).2 !! "train"
           ∧ globals (step8_split permutation s1).2 !! "evaluation"
             = globals (step8_split permutation s2).2 !! "evaluation")).
Proof.
  intros Hperm Hbound. split; [by apply train_test_split_too_small|].
  intros H2.
  destruct (train_test_split_run permutation Hperm df 42 H2 Hbound)
    as (train & evaluation & Hrun & Heval & Htrain).
  set (N := length (rows df)) in *. set (p := permutation 42 N) in *.
  assert (Hlen : length p = N).
  { subst p. by rewrite (Hperm 42 N), length_seq. }
  pose proof (Nat.div_mod_eq (N + 4) 5) as Hdm.
  pose proof (Nat.mod_upper_bound (N + 4) 5 ltac:(lia)) as Hmod.
  split.
  - eexists _, _. split; [exact Hrun|]. cbn [rows columns].
    split; [|split; [|split; [|split; [|done]]]].
    + exists (take ((N + 4) / 5) p), (drop ((N + 4) / 5) p).
      rewrite take_drop. split; [apply Hperm|]. split; [|done].
      subst p. rewrite (Hperm 42 N). apply NoDup_seq.
    + apply Permutation_of_Some.
      rewrite fmap_app, Heval, Htrain, <- fmap_app, take_drop.
      subst p. rewrite (Hperm 42 N). subst N.
      by rewrite lookup_all_positions.
    + apply (f_equal length) in Heval. rewrite !length_fmap in Heval.
      rewrite Heval, length_take. lia.
    + apply (f_equal length) in Htrain. rewrite !length_fmap in Htrain.
      rewrite Htrain, length_drop. lia.
  - intros s1 s2 H1 H2'.
    rewrite !(step8_split_outcome permutation df) by done.
    rewrite Hrun. cbn [fst snd globals with_globals].
    repeat split; lookup_chain.
Qed.

(** C10, amended, at a frame of six rows: two for evaluation, four for
    training. *)
Lemma split_partitions_witness :
  2 ≤ length (rows six_rows)
  ∧ ∃ train evaluation : DataFrame,
      train_test_split in_order six_rows 42 = inr (train, evaluation)
      ∧ rows evaluation ++ rows train ≡ₚ rows six_rows
      ∧ length (rows evaluation) = 2
      ∧ length (rows train) = 4.
Proof.
  assert (Hperm : ∀ seed n, in_order seed n ≡ₚ seq 0 n) by done.
  assert (H2 : 2 ≤ length (rows six_rows)) by (simpl; lia).
  assert (Hbound : (Z.of_nat (length (rows six_rows)) < 2 ^ 48)%Z)
    by (vm_compute; reflexivity).
  destruct (split_partitions in_order six_rows Hperm Hbound)
    as [_ Hsplit].
  destruct (Hsplit H2)
    as [(train & evaluation & Hrun & _ & Hrows & Heval & Htrain & _) _].
  split; [exact H2|]. by exists train, evaluation.
Defined.

(** ** The second request goes to the same endpoint *)

Section SecondRequestFacts.

Context (cloud : Cloud).

(** The request of step 9 goes to the endpoint whose handle step 5 bound:
    no identifier is drawn for it. *)
Lemma step9_predict_reuses_endpoint (endpoint prompt : string) s :
  globals s !! "deployed_model" = Some (VModel endpoint) →
  globals s !! "PROMPT" = Some (VStr prompt) →
  network (step9_predict cloud s).2 = network s ++ [NetPredict endpoint prompt]
  ∧ drawn (step9_predict cloud s).2 = drawn s.
Proof.
  intros Hm Hp. unfold step9_predict.
  rewrite bind_load, Hm, bind_load, Hp.
  unfold predict, mbind at 1, M_bind at 1. run_cell.
  destruct (predict_reply cloud (network s) endpoint prompt) as [detail|reply];
    [done|].
  simpl. rewrite lookup_insert_eq.
  destruct (first_prediction_pure (VResponse reply)
              (mkState (<["final_response" := VResponse reply]> (globals s))
                       (draws s) (drawn s)
                       (network s ++ [NetPredict endpoint prompt]) (stdout s)))
    as [[e|p] ->]; [done|].
  destruct (subscript_key_pure p "content"
              (mkState (<["final_response" := VResponse reply]> (globals s))
                       (draws s) (drawn s)
                       (network s ++ [NetPredict endpoint prompt]) (stdout s)))
    as [[e|o] ->]; [done|].
  simpl. by rewrite lookup_insert_eq.
Qed.

End SecondRequestFacts.

(** * Part III: further properties of the notebooks *)

(** ** The selection cell in any state *)

Lemma get_in_text (i : nat) (text : string) (c : ascii) :
  String.get i text = Some c → c ∈ list_ascii_of_string text.
Proof.
  revert i. induction text as [|d text IH]; intros i; [done|].
  destruct i as [|i]; cbn [String.get list_ascii_of_string].
  - intros [= ->]. apply elem_of_cons. by left.
  - intros H. apply elem_of_cons. right. by apply (IH i).
Qed.

Lemma random_choice_cases (seq : pyval) s :
  (∃ e s', random_choice seq s = (inl e, s')
           ∧ globals s' = globals s ∧ network s' = network s
           ∧ stdout s' = stdout s ∧ drawn s ≤ drawn s' ≤ S (drawn s))
  ∨ (∃ x, element_of x seq
          ∧ random_choice seq s
            = (inr x, mkState (globals s) (draws s) (S (drawn s))
                              (network s) (stdout s))).
Proof.
  assert (Hfail : ∀ (e : exn) (s' : State),
            random_choice seq s = (inl e, s') →
            globals s' = globals s → network s' = network s →
            stdout s' = stdout s → drawn s ≤ drawn s' ≤ S (drawn s) →
            ∃ e s', random_choice seq s = (inl e, s')
                    ∧ globals s' = globals s ∧ network s' = network s
                    ∧ stdout s' = stdout s ∧ drawn s ≤ drawn s' ≤ S (drawn s)).
  { intros e s' H1 H2 H3 H4 H5. by exists e, s'. }
  unfold random_choice in *. unfold py_len in *.
  destruct seq as [| | |text|items|items|entries| | | | |df| |];
    try (left; eapply Hfail; [reflexivity|done|done|done|lia]);
    rewrite bind_ret in *.
  - destruct text as [|c0 text];
      [left; eapply Hfail; [reflexivity|done|done|done|lia]|].
    cbn [String.length Nat.eqb] in *.
    unfold randbelow, mbind, M_bind, subscript_int in *.
    destruct (String.get (draws s (drawn s)) (String c0 text)) as [c|] eqn:Hc.
    + right. eexists. split; [|reflexivity].
      exists c. split; [by eapply get_in_text|done].
    + left. eapply Hfail; [reflexivity|done|done|done|simpl; lia].
  - destruct items as [|y l'];
      [left; eapply Hfail; [reflexivity|done|done|done|lia]|].
    cbn [length Nat.eqb] in *.
    unfold randbelow, mbind, M_bind, subscript_int in *.
    destruct ((y :: l') !! draws s (drawn s)) as [x|] eqn:Hx.
    + right. exists x. split; [by eapply list_elem_of_lookup_2|done].
    + left. eapply Hfail; [reflexivity|done|done|done|simpl; lia].
  - destruct items as [|y l'];
      [left; eapply Hfail; [reflexivity|done|done|done|lia]|].
    cbn [length Nat.eqb] in *.
    unfold randbelow, mbind, M_bind, subscript_int in *.
    destruct ((y :: l') !! draws s (drawn s)) as [x|] eqn:Hx.
    + right. exists x. split; [by eapply list_elem_of_lookup_2|done].
    + left. eapply Hfail; [reflexivity|done|done|done|simpl; lia].
  - left. destruct entries as [|entry entries];
      (eapply Hfail; [reflexivity|done|done|done|simpl; lia]).
  - left. destruct (rows df) as [|row table];
      (eapply Hfail; [reflexivity|done|done|done|simpl; lia]).
Qed.

Lemma step4_select_cases s :
  (∃ e s', step4_select s = (inl e, s')
           ∧ globals s' = <["random" := VModule "random"]> (globals s)
           ∧ network s' = network s
           ∧ stdout s' = stdout s ∧ drawn s ≤ drawn s' ≤ S (drawn s))
  ∨ (∃ seq choice,
        globals s !! "list_tuned_models" = Some seq
        ∧ element_of choice seq
        ∧ step4_select s
          = (inr tt, mkState (<["tuned_model_select" := choice]>
                                (<["random" := VModule "random"]> (globals s)))
                             (draws s) (S (drawn s)) (network s) (stdout s))).
Proof.
  unfold step4_select. rewrite bind_store, bind_load.
  cbn [globals with_globals]. rewrite lookup_insert_ne by done.
  destruct (globals s !! "list_tuned_models") as [seq|] eqn:Hreg.
  2:{ left. eexists _, _. split; [reflexivity|]. simpl. repeat split; lia. }
  destruct (random_choice_cases seq
              (with_globals (<["random" := VModule "random"]> (globals s)) s))
    as [(e & s' & Hrun & Hg & Hn & Ho & Hd)|(x & Hx & Hrun)].
  - left. exists e, s'. unfold mbind, M_bind. by rewrite Hrun.
  - right. exists seq, x. unfold mbind, M_bind. by rewrite Hrun.
Qed.

Lemma step5_load_refused (cloud : Cloud) (endpoint detail : string) s :
  globals s !! "tuned_model_select" = Some (VStr endpoint) →
  get_tuned_model_reply cloud (network s) endpoint = Some detail →
  step5_load cloud s =
    (inl (UpstreamError detail),
     with_network (network s ++ [NetGetTunedModel endpoint]) s).
Proof.
  intros Hsel Hrep. unfold step5_load, get_tuned_model. run_cell.
  rewrite Hsel. simpl. by rewrite Hrep.
Qed.

(** X1. Whatever the state, the selection cell sends no request, prints
    nothing and uses the random source at most once.  It binds [random]
    to the module it imports and changes no other binding than that and
    [tuned_model_select].  When it ends normally, exactly one draw was
    made and the value it bound is an element of what [list_tuned_models]
    holds: an entry of the list or tuple, or a character of the string. *)
Theorem step4_select_frame (s : State) :
  network (step4_select s).2 = network s
  ∧ stdout (step4_select s).2 = stdout s
  ∧ drawn s ≤ drawn (step4_select s).2 ≤ S (drawn s)
  ∧ globals (step4_select s).2 !! "random" = Some (VModule "random")
  ∧ (∀ x : string, x ∉ ["tuned_model_select"; "random"] →
       globals (step4_select s).2 !! x = globals s !! x)
  ∧ ((step4_select s).1 = inr tt →
       ∃ seq choice : pyval,
         globals s !! "list_tuned_models" = Some seq
         ∧ element_of choice seq
         ∧ globals (step4_select s).2 !! "tuned_model_select" = Some choice
         ∧ drawn (step4_select s).2 = S (drawn s)).
Proof.
  destruct (step4_select_cases s)
    as [(e & s' & -> & Hg & Hn & Ho & Hd)|(seq & x & Hreg & Hx & ->)];
    cbn [fst snd globals network stdout drawn].
  - split; [done|]. split; [done|]. split; [lia|].
    rewrite Hg. split; [by rewrite lookup_insert_eq|]. split; [|done].
    intros y Hy. rewrite !not_elem_of_cons in Hy.
    destruct Hy as (_ & ? & _). by rewrite lookup_insert_ne.
  - split; [done|]. split; [done|]. split; [lia|].
    split; [by rewrite lookup_insert_ne, lookup_insert_eq|]. split.
    + intros y Hy. rewrite !not_elem_of_cons in Hy.
      destruct Hy as (? & ? & _). by rewrite !lookup_insert_ne.
    + intros _. exists seq, x. by rewrite lookup_insert_eq.
Qed.

(** X2. For a registry that is a list of identifiers, whatever the random
    source hands out and whatever the services answer, one dispatch sends
    nothing, or one handle request, or one handle request and then one
    prediction request, both for the same endpoint; the endpoint is an
    identifier of the registry, and the prompt of the prediction is the
    fixed prompt of step 5. *)
Theorem dispatch_requests (cloud : Cloud) (names : list string) (s : State) :
  globals s !! "list_tuned_models" = Some (registry names) →
  network (dispatch cloud s).2 = network s
  ∨ ∃ endpoint : string,
      endpoint ∈ names
      ∧ (network (dispatch cloud s).2 = network s ++ [NetGetTunedModel endpoint]
         ∨ network (dispatch cloud s).2
           = network s ++ [NetGetTunedModel endpoint;
                           NetPredict endpoint PROMPT_step5]).
Proof.
  intros Hnames.
  assert (Hstep : dispatch cloud s
    = match step4_select s with
      | (inl e, s') => (inl e, s')
      | (inr _, s1) =>
          match step5_load cloud s1 with
          | (inl e, s') => (inl e, s')
          | (inr _, s2) => step6_predict cloud s2
          end
      end) by reflexivity.
  rewrite Hstep. clear Hstep.
  destruct (step4_select_cases s)
    as [(e & s' & -> & Hg & Hn & Ho & Hd)|(seq & x & Hreg & Hx & ->)];
    [by left|].
  rewrite Hnames in Hreg. injection Hreg as <-.
  unfold registry in Hx. cbn [element_of] in Hx.
  apply list_elem_of_fmap in Hx as (endpoint & -> & Hin).
  right. exists endpoint. split; [exact Hin|].
  destruct (get_tuned_model_reply cloud (network s) endpoint)
    as [detail|] eqn:Hhandle.
  - left. rewrite (step5_load_refused cloud endpoint detail);
      [done|by lookup_chain|done].
  - rewrite (step5_load_run cloud endpoint); [|by lookup_chain|done].
    destruct (predict_reply cloud (network s ++ [NetGetTunedModel endpoint])
                endpoint PROMPT_step5) as [detail|reply] eqn:Hrep.
    + right. rewrite (step6_predict_fail cloud endpoint PROMPT_step5 detail);
        [|by lookup_chain|by lookup_chain|done].
      cbn [snd network with_network]. by rewrite <- app_assoc.
    + right. rewrite (step6_predict_ok cloud endpoint PROMPT_step5 reply);
        [|by lookup_chain|by lookup_chain|done].
      cbn [snd network]. by rewrite <- app_assoc.
Qed.

(** X2 at a session of three endpoints, the second drawn. *)
Lemma dispatch_requests_witness :
  network (dispatch steady_cloud (session ["e1"; "e2"; "e3"] [1])).2
    = network (session ["e1"; "e2"; "e3"] [1])
  ∨ ∃ endpoint : string,
      endpoint ∈ ["e1"; "e2"; "e3"]
      ∧ (network (dispatch steady_cloud (session ["e1"; "e2"; "e3"] [1])).2
         = network (session ["e1"; "e2"; "e3"] [1])
             ++ [NetGetTunedModel endpoint]
         ∨ network (dispatch steady_cloud (session ["e1"; "e2"; "e3"] [1])).2
           = network (session ["e1"; "e2"; "e3"] [1])
               ++ [NetGetTunedModel endpoint;
                   NetPredict endpoint PROMPT_step5]).
Proof.
  apply (dispatch_requests steady_cloud ["e1"; "e2"; "e3"]
           (session ["e1"; "e2"; "e3"] [1]) eq_refl).
Defined.

(** X3. When the hosting service refuses the handle on the selected
    endpoint, the dispatch fails in step 5 with that failure: the handle
    request is the only request sent, no prediction is asked for, nothing
    is printed, and apart from [tuned_model_select] and the imported
    [random] every name, among them [deployed_model], [PROMPT] and
    [response], keeps the binding it had. *)
Theorem dispatch_handle_refused (cloud : Cloud) (s : State)
    (l : list pyval) (endpoint detail : string) :
  globals s !! "list_tuned_models" = Some (VList l) →
  l !! draws s (drawn s) = Some (VStr endpoint) →
  get_tuned_model_reply cloud (network s) endpoint = Some detail →
  (dispatch cloud s).1 = inl (UpstreamError detail)
  ∧ network (dispatch cloud s).2 = network s ++ [NetGetTunedModel endpoint]
  ∧ stdout (dispatch cloud s).2 = stdout s
  ∧ globals (dispatch cloud s).2 !! "tuned_model_select" = Some (VStr endpoint)
  ∧ globals (dispatch cloud s).2 !! "random" = Some (VModule "random")
  ∧ (∀ x : string, x ∉ ["tuned_model_select"; "random"] →
       globals (dispatch cloud s).2 !! x = globals s !! x).
Proof.
  intros Hreg Hx Hrep.
  assert (Hrun : dispatch cloud s
                 = (inl (UpstreamError detail),
                    mkState (<["tuned_model_select" := VStr endpoint]>
                               (<["random" := VModule "random"]> (globals s)))
                            (draws s) (S (drawn s))
                            (network s ++ [NetGetTunedModel endpoint])
                            (stdout s))).
  { unfold dispatch.
    unfold mbind at 1, M_bind at 1. rewrite (step4_select_run l _ s Hreg Hx).
    unfold mbind at 1, M_bind at 1.
    rewrite (step5_load_refused cloud endpoint detail);
      [done|by lookup_chain|exact Hrep]. }
  rewrite Hrun. cbn [fst snd globals network stdout].
  split; [done|]. split; [done|]. split; [done|].
  split; [by lookup_chain|]. split; [by lookup_chain|].
  intros x Hne. rewrite !not_elem_of_cons in Hne.
  destruct Hne as (? & ? & _). by rewrite !lookup_insert_ne.
Qed.

(** X3 at a session of three endpoints whose handles are all refused. *)
Lemma dispatch_handle_refused_witness :
  (dispatch (mkCloud (λ _ _, Some "404 Endpoint not found")
                     (λ _ _ _, inr sample_reply)
                     (λ _ _, inr (mkFrame [] [])))
            (session ["e1"; "e2"; "e3"] [1])).1
    = inl (UpstreamError "404 Endpoint not found")
  ∧ network (dispatch (mkCloud (λ _ _, Some "404 Endpoint not found")
                               (λ _ _ _, inr sample_reply)
                               (λ _ _, inr (mkFrame [] [])))
                      (session ["e1"; "e2"; "e3"] [1])).2
    = [NetGetTunedModel "e2"].
Proof.
  pose proof (dispatch_handle_refused
                (mkCloud (λ _ _, Some "404 Endpoint not found")
                         (λ _ _ _, inr sample_reply)
                         (λ _ _, inr (mkFrame [] [])))
                (session ["e1"; "e2"; "e3"] [1])
                [VStr "e1"; VStr "e2"; VStr "e3"] "e2" "404 Endpoint not found"
                eq_refl eq_refl eq_refl) as (Hout & Hnet & _).
  split; [exact Hout | exact Hnet].
Defined.

Lemma step9_predict_frame (cloud : Cloud) (endpoint prompt : string) s :
  globals s !! "deployed_model" = Some (VModel endpoint) →
  globals s !! "PROMPT" = Some (VStr prompt) →
  network (step9_predict cloud s).2 = network s ++ [NetPredict endpoint prompt]
  ∧ drawn (step9_predict cloud s).2 = drawn s
  ∧ (∀ x : string, x ∉ ["final_response"; "output"] →
       globals (step9_predict cloud s).2 !! x = globals s !! x).
Proof.
  intros Hm Hp. unfold step9_predict.
  rewrite bind_load, Hm, bind_load, Hp.
  unfold predict, mbind at 1, M_bind at 1. run_cell.
  destruct (predict_reply cloud (network s) endpoint prompt) as [detail|reply];
    [done|].
  simpl. rewrite lookup_insert_eq.
  destruct (first_prediction_pure (VResponse reply)
              (mkState (<["final_response" := VResponse reply]> (globals s))
                       (draws s) (drawn s)
                       (network s ++ [NetPredict endpoint prompt]) (stdout s)))
    as [[e|p] ->].
  { simpl. repeat split. intros x Hx. rewrite lookup_insert_ne; set_solver. }
  destruct (subscript_key_pure p "content"
              (mkState (<["final_response" := VResponse reply]> (globals s))
                       (draws s) (drawn s)
                       (network s ++ [NetPredict endpoint prompt]) (stdout s)))
    as [[e|o] ->].
  { simpl. repeat split. intros x Hx. rewrite lookup_insert_ne; set_solver. }
  simpl. rewrite lookup_insert_eq. simpl. repeat split.
  intros x Hx. rewrite !lookup_insert_ne; set_solver.
Qed.

(** X4. A dispatch followed by the cell of step 9 sends two prediction
    requests, with the two prompts, to one and the same endpoint, the one
    selected in step 4: the random source is used once for both. *)
Theorem two_requests_one_selection (cloud : Cloud) (s : State)
    (l : list pyval) (endpoint instruction question : string)
    (reply : pyval) :
  globals s !! "list_tuned_models" = Some (VList l) →
  l !! draws s (drawn s) = Some (VStr endpoint) →
  get_tuned_model_reply cloud (network s) endpoint = None →
  predict_reply cloud (network s ++ [NetGetTunedModel endpoint])
                endpoint PROMPT_step5 = inr reply →
  let run := (dispatch cloud ≫= λ _,
              step9_prompt instruction question ≫= λ _,
              step9_predict cloud) s in
  network run.2
  = network s ++ [NetGetTunedModel endpoint;
                  NetPredict endpoint PROMPT_step5;
                  NetPredict endpoint (render instruction question)]
  ∧ drawn run.2 = S (drawn s)
  ∧ globals run.2 !! "tuned_model_select" = Some (VStr endpoint)
  ∧ globals run.2 !! "deployed_model" = Some (VModel endpoint).
Proof.
  intros Hreg Hx Hhandle Hrep run.
  assert (Hrun : run = step9_predict cloud
            (mkState (<["PROMPT" := VStr (render instruction question)]>
                        (<["QUESTION" := VStr question]>
                           (<["INSTRUCTION" := VStr instruction]>
                              (<["response" := VResponse reply]>
                                 (globals (before_predict endpoint s))))))
                     (draws s) (S (drawn s))
                     (network s ++ [NetGetTunedModel endpoint]
                        ++ [NetPredict endpoint PROMPT_step5])
                     (stdout s ++ [[VResponse reply]]
                        ++ [[VStr (render instruction question)]]))).
  { subst run. unfold mbind at 1, M_bind at 1.
    rewrite (dispatch_reaches_predict cloud l endpoint s Hreg Hx Hhandle).
    rewrite (step6_predict_ok cloud endpoint PROMPT_step5 reply);
      [|by unfold before_predict; lookup_chain
       |by unfold before_predict; lookup_chain|exact Hrep].
    unfold mbind at 1, M_bind at 1. rewrite step9_prompt_run.
    simpl. by rewrite <- !app_assoc. }
  rewrite Hrun. clear Hrun run. unfold before_predict. cbn [globals].
  match goal with
  | |- context [step9_predict cloud ?s2] =>
      destruct (step9_predict_frame cloud endpoint
                  (render instruction question) s2)
        as (Hnet & Hdrawn & Hglob); [by lookup_chain|by lookup_chain|]
  end.
  rewrite Hnet, Hdrawn, !Hglob by compute_done.
  cbn [network drawn]. repeat split.
  - by rewrite <- !app_assoc.
  - by lookup_chain.
  - by lookup_chain.
Qed.

(** X4 at a session of three endpoints and the notebook's own texts. *)
Lemma two_requests_one_selection_witness :
  network ((dispatch steady_cloud ≫= λ _,
            step9_prompt INSTRUCTION QUESTION ≫= λ _,
            step9_predict steady_cloud) (session ["e1"; "e2"; "e3"] [2])).2
  = [NetGetTunedModel "e3"; NetPredict "e3" PROMPT_step5;
     NetPredict "e3" (render INSTRUCTION QUESTION)]
  ∧ drawn ((dispatch steady_cloud ≫= λ _,
            step9_prompt INSTRUCTION QUESTION ≫= λ _,
            step9_predict steady_cloud) (session ["e1"; "e2"; "e3"] [2])).2
    = 1.
Proof.
  pose proof (two_requests_one_selection steady_cloud
                (session ["e1"; "e2"; "e3"] [2])
                [VStr "e1"; VStr "e2"; VStr "e3"] "e3" INSTRUCTION QUESTION
                sample_reply eq_refl eq_refl eq_refl eq_refl)
    as (Hnet & Hdrawn & _).
  split; [exact Hnet | exact Hdrawn].
Defined.

(** ** Reading a response: missing parts *)

Lemma first_prediction_run (p : pyval) (others metadata : list pyval) s :
  first_prediction (VResponse (VTuple (VList (p :: others) :: metadata))) s
  = (inr p, s).
Proof. reflexivity. Qed.

Lemma first_prediction_none (metadata : list pyval) s :
  first_prediction (VResponse (VTuple (VList [] :: metadata))) s
  = (inl (IndexError "index out of range"), s).
Proof. reflexivity. Qed.

(** X5. Steps 10 and 11 check nothing before they subscript: with
    [response] unbound they raise [NameError]; on a response without
    predictions [IndexError]; on a first prediction that lacks
    [safetyAttributes], [blocked], [citationMetadata] or [citations] the
    [KeyError] of that key.  In each case the cell stops with the state
    as it was: nothing is bound and nothing printed. *)
Theorem safety_and_citation_failures (s : State) :
  (globals s !! "response" = None →
     step10_safety s = (inl (NameError "response"), s)
     ∧ step11_citations s = (inl (NameError "response"), s))
  ∧ (∀ metadata : list pyval,
       globals s !! "response"
       = Some (VResponse (VTuple (VList [] :: metadata))) →
       step10_safety s = (inl (IndexError "index out of range"), s)
       ∧ step11_citations s = (inl (IndexError "index out of range"), s))
  ∧ (∀ (fields : list (string * pyval)) (others metadata : list pyval),
       globals s !! "response"
       = Some (VResponse (VTuple (VList (VDict fields :: others) :: metadata))) →
       (dict_get fields "safetyAttributes" = None →
          step10_safety s = (inl (KeyError "safetyAttributes"), s))
       ∧ (∀ attrs, dict_get fields "safetyAttributes" = Some (VDict attrs) →
            dict_get attrs "blocked" = None →
            step10_safety s = (inl (KeyError "blocked"), s))
       ∧ (dict_get fields "citationMetadata" = None →
            step11_citations s = (inl (KeyError "citationMetadata"), s))
       ∧ (∀ meta, dict_get fields "citationMetadata" = Some (VDict meta) →
            dict_get meta "citations" = None →
            step11_citations s = (inl (KeyError "citations"), s))).
Proof.
  unfold step10_safety, step11_citations.
  split; [|split].
  - intros Hr. by rewrite !bind_load, Hr.
  - intros metadata Hr. rewrite !bind_load, Hr.
    unfold is_blocked, safety_attributes, citations.
    unfold mbind, M_bind. by rewrite !first_prediction_none.
  - intros fields others metadata Hr. rewrite !bind_load, Hr.
    unfold is_blocked, safety_attributes, citations.
    unfold mbind, M_bind. rewrite !first_prediction_run.
    unfold subscript_key.
    repeat split.
    + by intros ->.
    + intros attrs -> Hb. simpl. by rewrite Hb.
    + by intros ->.
    + intros meta -> Hb. simpl. by rewrite Hb.
Qed.

(** X6. On a response whose first prediction is a dictionary, step 7
    binds [output] to the list of predictions and step 8 binds
    [final_output] to the value under [content], unexamined; both are
    printed, in that order, and no request is sent.  [final_output] is
    what [output[0]['content']] yields.  If the prediction has no
    [content], step 8 raises [KeyError] and [final_output] keeps its
    earlier binding. *)
Theorem content_of_first_prediction (s : State)
    (fields : list (string * pyval)) (others metadata : list pyval) :
  globals s !! "response"
  = Some (VResponse (VTuple (VList (VDict fields :: others) :: metadata))) →
  let run := (step7_output ≫= λ _, step8_content) s in
  globals run.2 !! "output" = Some (VList (VDict fields :: others))
  ∧ network run.2 = network s
  ∧ match dict_get fields "content" with
    | Some c =>
        run.1 = inr tt
        ∧ globals run.2 !! "final_output" = Some c
        ∧ stdout run.2 = stdout s ++ [[VList (VDict fields :: others)]; [c]]
        ∧ (o ← subscript_int (VList (VDict fields :: others)) 0;
           subscript_key o "content") run.2 = (inr c, run.2)
    | None =>
        run.1 = inl (KeyError "content")
        ∧ globals run.2 !! "final_output" = globals s !! "final_output"
        ∧ stdout run.2 = stdout s ++ [[VList (VDict fields :: others)]]
    end.
Proof.
  intros Hr run.
  assert (Hrun : run
    = let s7 := mkState (<["output" := VList (VDict fields :: others)]>
                           (globals s))
                        (draws s) (drawn s) (network s)
                        (stdout s ++ [[VList (VDict fields :: others)]]) in
      match dict_get fields "content" with
      | Some c =>
          (inr tt, mkState (<["final_output" := c]> (globals s7))
                           (draws s) (drawn s) (network s)
                           (stdout s7 ++ [[c]]))
      | None => (inl (KeyError "content"), s7)
      end).
  { subst run. unfold step7_output, step8_content.
    unfold mbind at 1, M_bind at 1. rewrite bind_load, Hr.
    unfold attr_prediction_response, subscript_int. rewrite bind_ret.
    cbn [lookup list_lookup]. rewrite bind_ret, bind_store, bind_load.
    cbn [globals with_globals]. rewrite lookup_insert_eq.
    unfold print at 1. cbn [draws drawn network stdout globals with_globals].
    rewrite bind_load. cbn [globals]. rewrite lookup_insert_ne by done.
    rewrite Hr. unfold mbind at 1, M_bind at 1.
    rewrite first_prediction_run. unfold subscript_key at 1.
    destruct (dict_get fields "content") as [c|]; [|done].
    rewrite bind_ret, bind_store, bind_load.
    cbn [globals with_globals]. rewrite lookup_insert_eq.
    unfold print. reflexivity. }
  rewrite Hrun. clear Hrun run. cbn zeta.
  destruct (dict_get fields "content") as [c|] eqn:Hc; cbn [fst snd globals network stdout].
  - repeat split; try by lookup_chain.
    + by rewrite <- app_assoc.
    + unfold subscript_int. cbn [lookup list_lookup]. rewrite bind_ret.
      unfold subscript_key. by rewrite Hc.
  - repeat split; by lookup_chain.
Qed.

(** X6 at the response that carries a Prediction Result, and at a
    prediction without content. *)
Lemma content_of_first_prediction_witness :
  globals ((step7_output ≫= λ _, step8_content)
             (mkState {[ "response" :=
                           response_of (mkResult "Use pd.read_csv." false [] [])
                                       [] [] ]}
                      (λ _, 0) 0 [] [])).2 !! "final_output"
  = Some (VStr "Use pd.read_csv.")
  ∧ ((step7_output ≫= λ _, step8_content)
       (mkState {[ "response" := VResponse (VTuple [VList [VDict []]]) ]}
                (λ _, 0) 0 [] [])).1
    = inl (KeyError "content").
Proof.
  split.
  - pose proof (content_of_first_prediction
                  (mkState {[ "response" :=
                      response_of (mkResult "Use pd.read_csv." false [] [])
                                  [] [] ]}
                     (λ _, 0) 0 [] [])
                  _ [] [] eq_refl) as (_ & _ & H).
    simpl in H. exact (proj1 (proj2 H)).
  - pose proof (content_of_first_prediction
                  (mkState {[ "response" := VResponse (VTuple [VList [VDict []]]) ]}
                     (λ _, 0) 0 [] [])
                  [] [] [] eq_refl) as (_ & _ & H).
    simpl in H. exact (proj1 H).
Defined.

(** ** Which response the safety cells read *)

Lemma step9_predict_ok (cloud : Cloud) (endpoint prompt : string)
    (fields : list (string * pyval)) (c : pyval)
    (others metadata : list pyval) s :
  globals s !! "deployed_model" = Some (VModel endpoint) →
  globals s !! "PROMPT" = Some (VStr prompt) →
  predict_reply cloud (network s) endpoint prompt
  = inr (VTuple (VList (VDict fields :: others) :: metadata)) →
  dict_get fields "content" = Some c →
  step9_predict cloud s
  = (inr tt,
     mkState (<["output" := c]>
                (<["final_response" :=
                     VResponse (VTuple (VList (VDict fields :: others)
                                          :: metadata))]> (globals s)))
             (draws s) (drawn s)
             (network s ++ [NetPredict endpoint prompt])
             (stdout s ++ [[c]])).
Proof.
  intros Hm Hp Hrep Hc. unfold step9_predict.
  rewrite bind_load, Hm, bind_load, Hp.
  unfold predict, mbind at 1, M_bind at 1. run_cell.
  rewrite Hrep. simpl. rewrite lookup_insert_eq. simpl.
  rewrite Hc. simpl. by rewrite lookup_insert_eq.
Qed.

(** X7. Steps 10 and 11 read [response], the reply to the first prompt,
    not [final_response]: run after the request of step 9, they bind
    [blocked] and [citation] to the flag and the references of the first
    reply, whatever the second reply holds, while [output], printed by
    step 9, is the content of the second. *)
Theorem safety_cells_read_first_response (cloud : Cloud)
    (endpoint prompt : string) (first second : PredictionResult)
    (others1 metadata1 others2 metadata2 : list pyval) (s : State) :
  globals s !! "response" = Some (response_of first others1 metadata1) →
  globals s !! "deployed_model" = Some (VModel endpoint) →
  globals s !! "PROMPT" = Some (VStr prompt) →
  predict_reply cloud (network s) endpoint prompt
  = inr (VTuple (VList (prediction_dict second :: others2) :: metadata2)) →
  let run := (step9_predict cloud ≫= λ _,
              step10_safety ≫= λ _, step11_citations) s in
  run.1 = inr tt
  ∧ globals run.2 !! "final_response"
    = Some (response_of second others2 metadata2)
  ∧ globals run.2 !! "output" = Some (VStr (content second))
  ∧ globals run.2 !! "blocked" = Some (VBool (blocked first))
  ∧ globals run.2 !! "citation" = Some (VList (references first))
  ∧ network run.2 = network s ++ [NetPredict endpoint prompt].
Proof.
  intros Hr Hm Hp Hrep run.
  assert (Hrun : run
    = (inr tt,
       mkState
         (<["citation" := VList (references first)]>
            (<["safety_attributes" :=
                 VDict [("blocked", VBool (blocked first));
                        ("scores", VDict (prod_map id VNum <$> scores first))]]>
               (<["blocked" := VBool (blocked first)]>
                  (<["output" := VStr (content second)]>
                     (<["final_response" :=
                          response_of second others2 metadata2]>
                        (globals s))))))
         (draws s) (drawn s)
         (network s ++ [NetPredict endpoint prompt])
         (((stdout s ++ [[VStr (content second)]])
             ++ [[VBool (blocked first)]]
             ++ [[VDict [("blocked", VBool (blocked first));
                         ("scores",
                          VDict (prod_map id VNum <$> scores first))]]])
            ++ [[VList (references first)]]))).
  { subst run. unfold mbind at 1, M_bind at 1.
    rewrite (step9_predict_ok cloud endpoint prompt _ (VStr (content second))
               others2 metadata2 s Hm Hp Hrep eq_refl).
    unfold mbind at 1, M_bind at 1.
    rewrite (step10_safety_run (response_of first others1 metadata1)
               (VBool (blocked first))
               (VDict [("blocked", VBool (blocked first));
                       ("scores", VDict (prod_map id VNum <$> scores first))]));
      [|by lookup_chain|done|done].
    rewrite (step11_citations_run (response_of first others1 metadata1)
               (VList (references first))); [|by lookup_chain|done].
    reflexivity. }
  rewrite Hrun. cbn [fst snd globals network]. repeat split; by lookup_chain.
Qed.

(** X7 at a first reply that is blocked and a second that is not. *)
Lemma safety_cells_read_first_response_witness :
  globals ((step9_predict
              (mkCloud (λ _ _, None)
                 (λ _ _ _, inr (VTuple [VList [prediction_dict
                                  (mkResult "second" false [] [])]]))
                 (λ _ _, inr (mkFrame [] [])))
              ≫= λ _, step10_safety ≫= λ _, step11_citations)
             (mkState {[ "response" :=
                           response_of (mkResult "first" true [] []) [] [];
                         "deployed_model" := VModel "e1";
                         "PROMPT" := VStr "p" ]}
                      (λ _, 0) 0 [] [])).2 !! "blocked"
  = Some (VBool true).
Proof.
  pose proof (safety_cells_read_first_response
                (mkCloud (λ _ _, None)
                   (λ _ _ _, inr (VTuple [VList [prediction_dict
                                    (mkResult "second" false [] [])]]))
                   (λ _ _, inr (mkFrame [] [])))
                "e1" "p" (mkResult "first" true [] [])
                (mkResult "second" false [] []) [] [] [] []
                (mkState {[ "response" :=
                              response_of (mkResult "first" true [] []) [] [];
                            "deployed_model" := VModel "e1";
                            "PROMPT" := VStr "p" ]}
                         (λ _, 0) 0 [] [])
                eq_refl eq_refl eq_refl eq_refl) as (_ & _ & _ & H & _).
  exact H.
Defined.

(** ** The loop that prints the registry *)

Lemma for_each_print (name : string) (items : list pyval) s :
  for_each name items (x ← load name; print [x]) s
  = (inr tt,
     mkState (match last items with
              | Some x => <[name := x]> (globals s)
              | None => globals s
              end)
             (draws s) (drawn s) (network s)
             (stdout s ++ ((λ x, [x]) <$> items))).
Proof.
  revert s. induction items as [|x rest IH]; intros s.
  - destruct s. simpl. by rewrite app_nil_r.
  - cbn [for_each]. rewrite bind_store.
    unfold mbind at 1, M_bind at 1. rewrite bind_load.
    cbn [globals with_globals]. rewrite lookup_insert_eq.
    unfold print, with_globals. simpl. rewrite IH. simpl.
    rewrite last_cons, <- app_assoc. simpl.
    destruct (last rest); [by rewrite insert_insert_eq|done].
Qed.

(** X8. The loop of step 3 prints every entry of the registry once, in
    registry order, one per line, and sends nothing; the registry is
    left as it was, and the loop variable [i] stays bound to the last
    entry (for an empty registry nothing is printed and [i] is not
    bound by the loop). *)
Theorem step3_prints_registry (names : list string) (s : State) :
  globals s !! "list_tuned_models" = Some (registry names) →
  (step3_print s).1 = inr tt
  ∧ stdout (step3_print s).2 = stdout s ++ ((λ n, [VStr n]) <$> names)
  ∧ network (step3_print s).2 = network s
  ∧ globals (step3_print s).2 !! "list_tuned_models" = Some (registry names)
  ∧ globals (step3_print s).2 !! "i"
    = match last names with
      | Some n => Some (VStr n)
      | None => globals s !! "i"
      end.
Proof.
  intros Hreg. unfold step3_print. rewrite bind_load, Hreg.
  unfold registry, iterate. rewrite bind_ret, for_each_print.
  cbn [fst snd stdout network globals].
  rewrite <- list_fmap_compose, fmap_last.
  repeat split.
  - destruct (last names); simpl; [by rewrite lookup_insert_ne|done].
  - destruct (last names); simpl; [by rewrite lookup_insert_eq|done].
Qed.

(** X8 at a registry of three endpoints. *)
Lemma step3_prints_registry_witness :
  stdout (step3_print (session ["e1"; "e2"; "e3"] [])).2
  = [[VStr "e1"]; [VStr "e2"]; [VStr "e3"]]
  ∧ globals (step3_print (session ["e1"; "e2"; "e3"] [])).2 !! "i"
    = Some (VStr "e3").
Proof.
  pose proof (step3_prints_registry ["e1"; "e2"; "e3"]
                (session ["e1"; "e2"; "e3"] []) eq_refl)
    as (_ & Hout & _ & _ & Hi).
  split; [exact Hout | exact Hi].
Defined.

(** ** The guarded load: what is caught, and what is kept *)

Lemma step5_load_all_escapes (cloud : Cloud) (sql : string) (e : exn) s :
  globals s !! "bq_client" = Some VClient →
  result_reply cloud (network s ++ [NetQuery sql]) sql = inl e →
  isinstance_Exception e = false →
  step5_load_all cloud sql s
  = (inl e,
     mkState (globals (before_try sql s)) (draws s) (drawn s)
             (network s ++ [NetQuery sql] ++ [NetResult sql]) (stdout s)).
Proof.
  intros Hclient Hreply Hexc. unfold step5_load_all.
  rewrite bind_store, bind_load. cbn [globals with_globals].
  rewrite lookup_insert_ne, Hclient by done.
  rewrite bind_load. cbn [globals with_globals]. rewrite lookup_insert_eq.
  unfold bq_query, mbind at 1, M_bind at 1. run_cell.
  unfold try_except_Exception, result_to_pandas. run_cell.
  rewrite lookup_insert_eq. simpl. rewrite Hreply. simpl. rewrite Hexc.
  unfold before_try. simpl. by rewrite <- app_assoc.
Qed.

(** X9. The guard of step 5 does not look at the kind of failure: every
    exception that derives from [Exception], whatever its class, ends
    the cell normally and is printed after the fixed message about the
    frame being too large; an exception that does not derive from
    [Exception] (an interrupt) is not caught, and nothing is printed.
    Either way [stack_overflow_df] keeps its earlier binding, and the
    name [e] is not bound once the cell has ended normally. *)
Theorem guard_catches_every_exception (cloud : Cloud) (sql : string)
    (e : exn) (s : State) :
  globals s !! "bq_client" = Some VClient →
  result_reply cloud (network s ++ [NetQuery sql]) sql = inl e →
  globals (step5_load_all cloud sql s).2 !! "stack_overflow_df"
  = globals s !! "stack_overflow_df"
  ∧ network (step5_load_all cloud sql s).2
    = network s ++ [NetQuery sql; NetResult sql]
  ∧ if isinstance_Exception e
    then (step5_load_all cloud sql s).1 = inr tt
         ∧ stdout (step5_load_all cloud sql s).2
           = stdout s
               ++ [[VStr "The DataFrame is too large to load into memory.";
                    VExn e]]
         ∧ globals (step5_load_all cloud sql s).2 !! "e" = None
    else (step5_load_all cloud sql s).1 = inl e
         ∧ stdout (step5_load_all cloud sql s).2 = stdout s.
Proof.
  intros Hclient Hrep.
  destruct (isinstance_Exception e) eqn:He.
  - rewrite (step5_load_all_caught cloud sql e s Hclient Hrep He).
    unfold before_try. cbn [fst snd globals network stdout].
    repeat split.
    + rewrite lookup_delete_ne by done. by lookup_chain.
    + by rewrite lookup_delete_eq.
  - rewrite (step5_load_all_escapes cloud sql e s Hclient Hrep He).
    unfold before_try. cbn [fst snd globals network stdout].
    repeat split. by lookup_chain.
Qed.

(** X9 at a warehouse that is out of reach, and at an interrupt. *)
Lemma guard_catches_every_exception_witness :
  stdout (step5_load_all
            (mkCloud (λ _ _, None) (λ _ _ _, inr sample_reply)
                     (λ _ _, inl (UpstreamError "503 Service Unavailable")))
            QUERY_ALL warehouse_session).2
  = [[VStr "The DataFrame is too large to load into memory.";
      VExn (UpstreamError "503 Service Unavailable")]]
  ∧ (step5_load_all
       (mkCloud (λ _ _, None) (λ _ _ _, inr sample_reply)
                (λ _ _, inl KeyboardInterrupt))
       QUERY_ALL warehouse_session).1
    = inl KeyboardInterrupt.
Proof.
  split.
  - pose proof (guard_catches_every_exception
                  (mkCloud (λ _ _, None) (λ _ _ _, inr sample_reply)
                     (λ _ _, inl (UpstreamError "503 Service Unavailable")))
                  QUERY_ALL (UpstreamError "503 Service Unavailable")
                  warehouse_session eq_refl eq_refl) as (_ & _ & H).
    exact (proj1 (proj2 H)).
  - pose proof (guard_catches_every_exception
                  (mkCloud (λ _ _, None) (λ _ _ _, inr sample_reply)
                     (λ _ _, inl KeyboardInterrupt))
                  QUERY_ALL KeyboardInterrupt
                  warehouse_session eq_refl eq_refl) as (_ & _ & H).
    exact (proj1 H).
Defined.

Lemma step4_2_inspect_run (cloud : Cloud) (sql : string) s :
  globals s !! "bq_client" = Some VClient →
  step4_2_inspect cloud sql s
  = let log := network s ++ [NetQuery sql] in
    let g := <["query_job" := VJob sql]>
               (<["INSPECT_QUERY" := VStr sql]> (globals s)) in
    match result_reply cloud log sql with
    | inl e =>
        (inl e, mkState g (draws s) (drawn s) (log ++ [NetResult sql]) (stdout s))
    | inr df =>
        (inr tt,
         mkState (<["stack_overflow_df" := VFrame df]> g)
                 (draws s) (drawn s) (log ++ [NetResult sql]) (stdout s))
    end.
Proof.
  intros Hclient. unfold step4_2_inspect.
  rewrite bind_store, bind_load. cbn [globals with_globals].
  rewrite lookup_insert_ne, Hclient by done.
  rewrite bind_load. cbn [globals with_globals]. rewrite lookup_insert_eq.
  unfold bq_query, mbind at 1, M_bind at 1. run_cell.
  unfold result_to_pandas. run_cell.
  rewrite lookup_insert_eq. simpl.
  by destruct (result_reply cloud (network s ++ [NetQuery sql]) sql).
Qed.

(** X10. The load of step 4.2 has no guard: a failure of the warehouse is
    the outcome of the cell, of whatever class, and [stack_overflow_df]
    is not assigned.  When the load succeeds and the guarded load of
    step 5 then fails with an [Exception], step 5 ends normally and
    [stack_overflow_df] still holds the frame of step 4.2: the cells
    that follow would work on that sample. *)
Theorem sample_frame_survives_failed_load (cloud : Cloud)
    (inspect_sql all_sql : string) (s : State) :
  globals s !! "bq_client" = Some VClient →
  match result_reply cloud (network s ++ [NetQuery inspect_sql]) inspect_sql with
  | inl e =>
      (step4_2_inspect cloud inspect_sql s).1 = inl e
      ∧ globals (step4_2_inspect cloud inspect_sql s).2 !! "stack_overflow_df"
        = globals s !! "stack_overflow_df"
      ∧ stdout (step4_2_inspect cloud inspect_sql s).2 = stdout s
  | inr sample =>
      (step4_2_inspect cloud inspect_sql s).1 = inr tt
      ∧ globals (step4_2_inspect cloud inspect_sql s).2 !! "stack_overflow_df"
        = Some (VFrame sample)
      ∧ ∀ e : exn,
          result_reply cloud
            (network s ++ [NetQuery inspect_sql; NetResult inspect_sql;
                           NetQuery all_sql]) all_sql = inl e →
          isinstance_Exception e = true →
          let run := (step4_2_inspect cloud inspect_sql ≫= λ _,
                      step5_load_all cloud all_sql) s in
          run.1 = inr tt
          ∧ globals run.2 !! "stack_overflow_df" = Some (VFrame sample)
  end.
Proof.
  intros Hclient. rewrite (step4_2_inspect_run cloud inspect_sql s Hclient).
  cbn zeta.
  destruct (result_reply cloud (network s ++ [NetQuery inspect_sql]) inspect_sql)
    as [e|sample] eqn:Hfirst.
  - cbn [fst snd globals stdout]. repeat split. by lookup_chain.
  - cbn [fst snd globals stdout]. split; [done|]. split; [by lookup_chain|].
    intros e Hrep He.
    assert (Hrun : (step4_2_inspect cloud inspect_sql ≫= λ _,
                    step5_load_all cloud all_sql) s
      = step5_load_all cloud all_sql
          (mkState (<["stack_overflow_df" := VFrame sample]>
                      (<["query_job" := VJob inspect_sql]>
                         (<["INSPECT_QUERY" := VStr inspect_sql]> (globals s))))
                   (draws s) (drawn s)
                   ((network s ++ [NetQuery inspect_sql])
                      ++ [NetResult inspect_sql]) (stdout s))).
    { unfold mbind at 1, M_bind at 1.
      rewrite (step4_2_inspect_run cloud inspect_sql s Hclient). cbn zeta.
      by rewrite Hfirst. }
    rewrite Hrun.
    rewrite (step5_load_all_caught cloud all_sql e); [|by lookup_chain| |exact He].
    + cbn [fst snd globals]. split; [done|].
      rewrite lookup_delete_ne by done.
      unfold before_try. by lookup_chain.
    + cbn [network]. by rewrite <- !app_assoc.
Qed.

(** X10 at a warehouse that serves the three-row sample and refuses the
    whole table. *)
Lemma sample_frame_survives_failed_load_witness :
  globals ((step4_2_inspect
              (mkCloud (λ _ _, None) (λ _ _ _, inr sample_reply)
                 (λ _ sql, if String.eqb sql INSPECT_QUERY
                           then inr (mkFrame ["title"] [["a"]; ["b"]; ["c"]])
                           else inl (OversizedResultError "too large")))
              INSPECT_QUERY ≫= λ _,
            step5_load_all
              (mkCloud (λ _ _, None) (λ _ _ _, inr sample_reply)
                 (λ _ sql, if String.eqb sql INSPECT_QUERY
                           then inr (mkFrame ["title"] [["a"]; ["b"]; ["c"]])
                           else inl (OversizedResultError "too large")))
              QUERY_ALL)
             (mkState {[ "bq_client" := VClient ]} (λ _, 0) 0 [] [])).2
    !! "stack_overflow_df"
  = Some (VFrame (mkFrame ["title"] [["a"]; ["b"]; ["c"]])).
Proof.
  pose proof (sample_frame_survives_failed_load
                (mkCloud (λ _ _, None) (λ _ _ _, inr sample_reply)
                   (λ _ sql, if String.eqb sql INSPECT_QUERY
                             then inr (mkFrame ["title"] [["a"]; ["b"]; ["c"]])
                             else inl (OversizedResultError "too large")))
                INSPECT_QUERY QUERY_ALL
                (mkState {[ "bq_client" := VClient ]} (λ _, 0) 0 [] [])
                eq_refl) as H.
  simpl in H. destruct H as (_ & _ & H).
  exact (proj2 (H (OversizedResultError "too large") eq_refl eq_refl)).
Defined.

(** ** The table listing *)

Lemma bind_run {A B : Type} (m : M A) (k : A → M B) (a : A) s s' :
  m s = (inr a, s') → (m ≫= k) s = k a s'.
Proof. intros H. unfold mbind, M_bind. by rewrite H. Qed.

Lemma print_rows (table : list (list string)) s :
  ∃ g : gmap string pyval,
    for_each "row" ((λ row, VTuple (VStr <$> row)) <$> table)
      (row ← load "row";
       values ← row_values row;
       for_each "value" values (value ← load "value"; print [value])) s
    = (inr tt,
       mkState g (draws s) (drawn s) (network s)
               (stdout s ++ ((λ c, [VStr c]) <$> concat table))).
Proof.
  revert s. induction table as [|row table IH]; intros s.
  - exists (globals s). destruct s. simpl. by rewrite app_nil_r.
  - rewrite fmap_cons. cbn [for_each]. rewrite bind_store.
    erewrite bind_run; cycle 1.
    { rewrite bind_load. cbn [globals with_globals]. rewrite lookup_insert_eq.
      unfold row_values. rewrite bind_ret. apply for_each_print. }
    match goal with
    | |- context [for_each "row" _ _ ?s1] => destruct (IH s1) as [g ->]
    end.
    exists g. cbn [draws drawn network stdout with_globals].
    rewrite concat_cons, fmap_app, <- list_fmap_compose, app_assoc.
    reflexivity.
Qed.

(** X11. Step 4.1 prints every value of every row of the query result,
    row after row and within a row in column order, one value per line;
    it sends the query and fetches the result once.  The load has no
    guard here either: a failure of the warehouse is the outcome of the
    cell, and nothing is printed. *)
Theorem step4_1_prints_every_value (cloud : Cloud) (sql : string) (s : State) :
  globals s !! "bq_client" = Some VClient →
  network (step4_1_tables cloud sql s).2
  = network s ++ [NetQuery sql; NetResult sql]
  ∧ match result_reply cloud (network s ++ [NetQuery sql]) sql with
    | inl e =>
        (step4_1_tables cloud sql s).1 = inl e
        ∧ stdout (step4_1_tables cloud sql s).2 = stdout s
    | inr df =>
        (step4_1_tables cloud sql s).1 = inr tt
        ∧ stdout (step4_1_tables cloud sql s).2
          = stdout s ++ ((λ c, [VStr c]) <$> concat (rows df))
    end.
Proof.
  intros Hclient.
  assert (Hrun : step4_1_tables cloud sql s
    = let s1 := mkState (<["query_job" := VJob sql]>
                           (<["QUERY_TABLES" := VStr sql]> (globals s)))
                        (draws s) (drawn s)
                        ((network s ++ [NetQuery sql]) ++ [NetResult sql])
                        (stdout s) in
      match result_reply cloud (network s ++ [NetQuery sql]) sql with
      | inl e => (inl e, s1)
      | inr df =>
          for_each "row" ((λ row, VTuple (VStr <$> row)) <$> rows df)
            (row ← load "row";
             values ← row_values row;
             for_each "value" values (value ← load "value"; print [value])) s1
      end).
  { unfold step4_1_tables.
    rewrite bind_store, bind_load. cbn [globals with_globals].
    rewrite lookup_insert_ne, Hclient by done.
    rewrite bind_load. cbn [globals with_globals]. rewrite lookup_insert_eq.
    unfold bq_query, mbind at 1, M_bind at 1. run_cell.
    unfold job_rows. run_cell.
    rewrite lookup_insert_eq. simpl.
    by destruct (result_reply cloud (network s ++ [NetQuery sql]) sql). }
  rewrite Hrun. cbn zeta.
  destruct (result_reply cloud (network s ++ [NetQuery sql]) sql) as [e|df].
  - cbn [fst snd network stdout]. by rewrite <- app_assoc.
  - match goal with
    | |- context [for_each "row" _ _ ?s1] =>
        destruct (print_rows (rows df) s1) as [g ->]
    end.
    cbn [fst snd network stdout]. by rewrite <- app_assoc.
Qed.

(** X11 at a warehouse with two tables. *)
Lemma step4_1_prints_every_value_witness :
  stdout (step4_1_tables
            (serving_cloud (mkFrame ["table_name"]
                              [["posts_questions"]; ["posts_answers"]]))
            QUERY_TABLES client_session).2
  = [[VStr "posts_questions"]; [VStr "posts_answers"]].
Proof.
  pose proof (step4_1_prints_every_value
                (serving_cloud (mkFrame ["table_name"]
                                  [["posts_questions"]; ["posts_answers"]]))
                QUERY_TABLES client_session eq_refl) as [_ H].
  exact (proj2 H).
Defined.


(** ** The instruction column on any frame *)

Lemma column_index_lookup (label : string) (labels : list string) (i : nat) :
  column_index label labels = Some i → labels !! i = Some label.
Proof.
  revert i. induction labels as [|l rest IH]; intros i; [done|].
  cbn [column_index]. destruct (String.eqb l label) eqn:Heq.
  - intros [= <-]. apply String.eqb_eq in Heq. by subst.
  - destruct (column_index label rest) as [j|]; [|done].
    intros [= <-]. by apply IH.
Qed.

Lemma column_index_absent (label : string) (labels : list string) :
  column_index label labels = None → label ∈ labels → False.
Proof.
  induction labels as [|l rest IH]; intros Hnone Hin.
  - by apply not_elem_of_nil in Hin.
  - cbn [column_index] in Hnone. destruct (String.eqb l label) eqn:Heq; [done|].
    apply String.eqb_neq in Heq.
    destruct (column_index label rest); [done|].
    apply elem_of_cons in Hin as [->|Hin]; [done|]. by apply IH.
Qed.

Lemma column_index_app (label : string) (labels extra : list string) (i : nat) :
  column_index label labels = Some i →
  column_index label (labels ++ extra) = Some i.
Proof.
  revert i. induction labels as [|l rest IH]; intros i; [done|].
  cbn [column_index app]. destruct (String.eqb l label); [done|].
  destruct (column_index label rest) as [j|]; [|done].
  intros [= <-]. by rewrite (IH j).
Qed.

Lemma column_index_new (label : string) (labels : list string) :
  column_index label labels = None →
  column_index label (labels ++ [label]) = Some (length labels).
Proof.
  induction labels as [|l rest IH].
  - intros _. cbn. by rewrite String.eqb_refl.
  - cbn [column_index app length]. destruct (String.eqb l label); [done|].
    destruct (column_index label rest) as [j|]; [done|].
    intros _. by rewrite IH.
Qed.

Lemma column_index_other (label other : string) (labels : list string) :
  other ≠ label →
  column_index other labels = None →
  column_index other (labels ++ [label]) = None.
Proof.
  intros Hne. induction labels as [|l rest IH].
  - intros _. cbn.
    assert (String.eqb label other = false) as ->; [|done].
    apply String.eqb_neq. congruence.
  - cbn [column_index app]. destruct (String.eqb l other); [done|].
    destruct (column_index other rest) as [j|]; [done|].
    intros _. by rewrite IH.
Qed.

Lemma zip_with_column {A B C : Type} (f : A → B → C) (g : A → B) (l : list A) :
  zip_with f l (g <$> l) = (λ x, f x (g x)) <$> l.
Proof.
  induction l as [|x l IH]; [done|].
  rewrite !fmap_cons. cbn [zip_with]. by rewrite IH.
Qed.

(** What step 7 makes of a frame that has the column [input_text], row
    by row. *)
Lemma instruct_frame_rows (template : string) (df : DataFrame) (i : nat) :
  column_index "input_text" (columns df) = Some i →
  instruct_frame template (Some (VFrame df))
  = inr match column_index "input_text_instruct" (columns df) with
        | Some k =>
            mkFrame (columns df)
              ((λ row, <[k := add_instruction template (cell i row)]> row)
                 <$> rows df)
        | None =>
            mkFrame (columns df ++ ["input_text_instruct"])
              ((λ row, row ++ [add_instruction template (cell i row)])
                 <$> rows df)
        end.
Proof.
  intros Hi. unfold instruct_frame. rewrite Hi. unfold set_column.
  rewrite !length_fmap, Nat.eqb_refl. cbn [negb].
  rewrite <- list_fmap_compose.
  destruct (column_index "input_text_instruct" (columns df)) as [k|];
    unfold mret, M_ret; cbn [fst]; by rewrite zip_with_column.
Qed.

Lemma step7_instruct_ok (template : string) (df df' : DataFrame) s :
  globals s !! "stack_overflow_df" = Some (VFrame df) →
  instruct_frame template (Some (VFrame df)) = inr df' →
  step7_instruct template s
  = (inr tt,
     with_globals
       (<["stack_overflow_df" := VFrame df']>
          (<["INSTRUCTION_TEMPLATE" := VStr template]> (globals s))) s).
Proof.
  intros Hdf Hrun. rewrite step7_instruct_run. cbn zeta.
  rewrite Hdf, Hrun. by destruct s.
Qed.

(** X12. Step 7 binds [INSTRUCTION_TEMPLATE] to the template in every
    state.  With [stack_overflow_df] unbound it raises [NameError].  On a
    frame whose rows have one cell per column and whose labels are
    distinct, it fails exactly when the frame has no column [input_text],
    with [KeyError], and the frame is left as it was; otherwise it ends
    normally and leaves a frame with as many rows as before: the column
    it assigns never has the wrong length. *)
Theorem step7_failure_modes (template : string) (s : State) :
  globals (step7_instruct template s).2 !! "INSTRUCTION_TEMPLATE"
  = Some (VStr template)
  ∧ (globals s !! "stack_overflow_df" = None →
       (step7_instruct template s).1 = inl (NameError "stack_overflow_df")
       ∧ globals (step7_instruct template s).2 !! "stack_overflow_df" = None)
  ∧ (∀ df : DataFrame,
       globals s !! "stack_overflow_df" = Some (VFrame df) →
       well_formed df → NoDup (columns df) →
       match column_index "input_text" (columns df) with
       | None =>
           (step7_instruct template s).1 = inl (KeyError "input_text")
           ∧ globals (step7_instruct template s).2 !! "stack_overflow_df"
             = Some (VFrame df)
       | Some _ =>
           (step7_instruct template s).1 = inr tt
           ∧ ∃ df' : DataFrame,
               globals (step7_instruct template s).2 !! "stack_overflow_df"
               = Some (VFrame df')
               ∧ length (rows df') = length (rows df)
       end).
Proof.
  rewrite step7_instruct_run. cbn zeta.
  split; [|split].
  - destruct (instruct_frame template (globals s !! "stack_overflow_df"));
      cbn [fst snd globals with_globals]; by lookup_chain.
  - intros Hnone. rewrite Hnone.
    cbn [instruct_frame fst snd globals with_globals].
    split; [done|]. by rewrite lookup_insert_ne.
  - intros df Hdf _ _. rewrite Hdf.
    destruct (column_index "input_text" (columns df)) as [i|] eqn:Hi.
    + rewrite (instruct_frame_rows template df i Hi).
      cbn [fst snd globals with_globals]. split; [done|].
      eexists. split; [by lookup_chain|].
      destruct (column_index "input_text_instruct" (columns df));
        cbn [rows]; by rewrite length_fmap.
    + unfold instruct_frame. rewrite Hi.
      cbn [fst snd globals with_globals]. split; [done|].
      by rewrite lookup_insert_ne.
Qed.

Lemma cell_app (i : nat) (row extra : list string) :
  i < length row → cell i (row ++ extra) = cell i row.
Proof. intros Hi. unfold cell. by rewrite lookup_app_l. Qed.

Lemma cell_insert_ne (i k : nat) (v : string) (row : list string) :
  i ≠ k → cell i (<[k := v]> row) = cell i row.
Proof. intros Hne. unfold cell. by rewrite list_lookup_insert_ne. Qed.

(** The frame step 7 makes of a well-formed frame, column by column. *)
Lemma instruct_frame_columns (template : string) (df : DataFrame) (i : nat) :
  well_formed df →
  column_index "input_text" (columns df) = Some i →
  ∃ df' : DataFrame,
    instruct_frame template (Some (VFrame df)) = inr df'
    ∧ well_formed df'
    ∧ length (rows df') = length (rows df)
    ∧ column_values df' "input_text_instruct"
      = Some (add_instruction template <$> (cell i <$> rows df))
    ∧ (∀ label : string, label ≠ "input_text_instruct" →
         column_values df' label = column_values df label).
Proof.
  intros Hwf Hi. rewrite (instruct_frame_rows template df i Hi).
  eexists. split; [reflexivity|].
  unfold well_formed in Hwf. unfold well_formed, column_values.
  destruct (column_index "input_text_instruct" (columns df)) as [k|] eqn:Hk;
    cbn [columns rows].
  - pose proof (column_index_lookup _ _ _ Hk) as Hlk.
    apply lookup_lt_Some in Hlk as Hklt.
    split; [|split; [by rewrite length_fmap|split]].
    + apply Forall_fmap. eapply Forall_impl; [exact Hwf|].
      intros row Hrow. cbn. by rewrite length_insert.
    + rewrite Hk. cbn. f_equal. rewrite <- !list_fmap_compose.
      apply Forall_fmap_ext. eapply Forall_impl; [exact Hwf|].
      intros row Hrow. cbn. unfold cell at 1.
      rewrite list_lookup_insert_eq; [done|]. by rewrite Hrow.
    + intros label Hne.
      destruct (column_index label (columns df)) as [j|] eqn:Hj; [|done].
      cbn. f_equal. rewrite <- list_fmap_compose.
      apply list_fmap_ext. intros n row _. cbn.
      apply cell_insert_ne. intros ->.
      apply column_index_lookup in Hj. congruence.
  - split; [|split; [by rewrite length_fmap|split]].
    + apply Forall_fmap. eapply Forall_impl; [exact Hwf|].
      intros row Hrow. cbn. rewrite !length_app. cbn. by rewrite Hrow.
    + rewrite (column_index_new _ _ Hk). cbn. f_equal.
      rewrite <- !list_fmap_compose.
      apply Forall_fmap_ext. eapply Forall_impl; [exact Hwf|].
      intros row Hrow. cbn. unfold cell at 1.
      rewrite lookup_app_r by (rewrite Hrow; lia).
      by rewrite Hrow, Nat.sub_diag.
    + intros label Hne.
      destruct (column_index label (columns df)) as [j|] eqn:Hj.
      * rewrite (column_index_app _ _ _ _ Hj). cbn. f_equal.
        rewrite <- list_fmap_compose.
        apply Forall_fmap_ext. eapply Forall_impl; [exact Hwf|].
        intros row Hrow. cbn. apply cell_app. rewrite Hrow.
        apply column_index_lookup in Hj. by apply lookup_lt_Some in Hj.
      * by rewrite (column_index_other _ _ _ Hne Hj).
Qed.

(** X13. On any frame whose rows have one cell per column, whose labels
    are distinct and which has a column [input_text], step 7 ends normally
    and leaves a frame of the same kind, with distinct labels and the same
    number of rows, whose column [input_text_instruct] holds, row by row,
    the template, one space, and the cell of [input_text]; every other
    column, [input_text] and [output_text] among them, holds what it held
    before. *)
Theorem step7_adds_one_column (template : string) (df : DataFrame)
    (questions : list string) (s : State) :
  globals s !! "stack_overflow_df" = Some (VFrame df) →
  well_formed df →
  NoDup (columns df) →
  column_values df "input_text" = Some questions →
  ∃ df' : DataFrame,
    (step7_instruct template s).1 = inr tt
    ∧ globals (step7_instruct template s).2 !! "stack_overflow_df"
      = Some (VFrame df')
    ∧ well_formed df'
    ∧ NoDup (columns df')
    ∧ length (rows df') = length (rows df)
    ∧ column_values df' "input_text_instruct"
      = Some ((λ q, template +:+ " " +:+ q) <$> questions)
    ∧ (∀ label : string, label ≠ "input_text_instruct" →
         column_values df' label = column_values df label).
Proof.
  intros Hdf Hwf Hdistinct Hq. unfold column_values in Hq.
  destruct (column_index "input_text" (columns df)) as [i|] eqn:Hi; [|done].
  injection Hq as <-.
  destruct (instruct_frame_columns template df i Hwf Hi)
    as (df' & Hrun & Hwf' & Hlen & Hnew & Hold).
  assert (Hlabels : NoDup (columns df')).
  { rewrite (instruct_frame_rows template df i Hi) in Hrun.
    injection Hrun as <-.
    destruct (column_index "input_text_instruct" (columns df)) as [k|] eqn:Hk;
      cbn [columns]; [done|].
    apply NoDup_app. split; [done|]. split; [|apply NoDup_singleton].
    intros label Hin ->%list_elem_of_singleton.
    exact (column_index_absent _ _ Hk Hin). }
  exists df'. rewrite (step7_instruct_ok template df df' s Hdf Hrun).
  cbn [fst snd globals with_globals]. repeat split; try done.
  by lookup_chain.
Qed.

(** X13 at a frame of three columns and two rows. *)
Lemma step7_adds_one_column_witness :
  ∃ df' : DataFrame,
    globals (step7_instruct "Answer:"
               (frame_session
                  (mkFrame ["title"; "input_text"; "output_text"]
                     [["t1"; "q1"; "a1"]; ["t2"; "q2"; "a2"]]))).2
      !! "stack_overflow_df"
    = Some (VFrame df')
    ∧ column_values df' "input_text_instruct"
      = Some ["Answer: q1"; "Answer: q2"]
    ∧ column_values df' "title" = Some ["t1"; "t2"].
Proof.
  destruct (step7_adds_one_column "Answer:"
              (mkFrame ["title"; "input_text"; "output_text"]
                 [["t1"; "q1"; "a1"]; ["t2"; "q2"; "a2"]])
              ["q1"; "q2"]
              (frame_session
                 (mkFrame ["title"; "input_text"; "output_text"]
                    [["t1"; "q1"; "a1"]; ["t2"; "q2"; "a2"]]))
              eq_refl ltac:(repeat constructor) ltac:(compute_done) eq_refl)
    as (df' & _ & Hdf' & _ & _ & _ & Hnew & Hold).
  exists df'. split; [exact Hdf'|]. split; [exact Hnew|].
  rewrite (Hold "title"); [reflexivity|discriminate].
Defined.



(** ** Time stamps: one name per hour *)

Lemma digit_inj (a b : nat) : digit a = digit b → a mod 10 = b mod 10.
Proof.
  unfold digit. intros H. apply (f_equal nat_of_ascii) in H.
  pose proof (Nat.mod_upper_bound a 10 ltac:(lia)).
  pose proof (Nat.mod_upper_bound b 10 ltac:(lia)).
  rewrite !nat_ascii_embedding in H by lia. lia.
Qed.

Lemma two_digits_inj (a b : nat) :
  a < 100 → b < 100 → two_digits a = two_digits b → a = b.
Proof.
  intros Ha Hb H. unfold two_digits in H. injection H as H1 H0.
  apply (digit_inj (a / 10) (b / 10)) in H1. apply (digit_inj a b) in H0.
  pose proof (Nat.div_mod_eq a 10). pose proof (Nat.div_mod_eq b 10).
  pose proof (Nat.div_mod_eq (a / 10) 10).
  pose proof (Nat.div_mod_eq (b / 10) 10).
  assert (a / 10 / 10 = 0) by (apply Nat.div_small; lia).
  assert (b / 10 / 10 = 0) by (apply Nat.div_small; lia).
  lia.
Qed.

Lemma four_digits_inj (a b : nat) :
  (Z.of_nat a ≤ 9999)%Z → (Z.of_nat b ≤ 9999)%Z →
  four_digits a = four_digits b → a = b.
Proof.
  intros Ha Hb H. unfold four_digits in H. injection H as H3 H2 H1 H0.
  apply (digit_inj (a / 1000) (b / 1000)) in H3.
  apply (digit_inj (a / 100) (b / 100)) in H2.
  apply (digit_inj (a / 10) (b / 10)) in H1. apply (digit_inj a b) in H0.
  assert (Hdiv : ∀ n, n / 100 = n / 10 / 10 ∧ n / 1000 = n / 10 / 10 / 10).
  { intros n. by rewrite !Nat.Div0.div_div. }
  rewrite (proj2 (Hdiv a)), (proj2 (Hdiv b)) in H3.
  rewrite (proj1 (Hdiv a)), (proj1 (Hdiv b)) in H2. clear Hdiv.
  pose proof (Nat.div_mod_eq a 10). pose proof (Nat.div_mod_eq b 10).
  pose proof (Nat.div_mod_eq (a / 10) 10).
  pose proof (Nat.div_mod_eq (b / 10) 10).
  pose proof (Nat.div_mod_eq (a / 10 / 10) 10).
  pose proof (Nat.div_mod_eq (b / 10 / 10) 10).
  pose proof (Nat.div_mod_eq (a / 10 / 10 / 10) 10).
  pose proof (Nat.div_mod_eq (b / 10 / 10 / 10) 10).
  assert (a / 10 / 10 / 10 / 10 = 0).
  { rewrite !Nat.Div0.div_div. apply Nat.div_small. cbn. lia. }
  assert (b / 10 / 10 / 10 / 10 = 0).
  { rewrite !Nat.Div0.div_div. apply Nat.div_small. cbn. lia. }
  lia.
Qed.

Lemma append_inj_l (prefix a b : string) :
  prefix +:+ a = prefix +:+ b → a = b.
Proof.
  induction prefix as [|c prefix IH]; [done|].
  rewrite !append_cons. intros [= H]. by apply IH.
Qed.

Lemma two_digits_append (a b : nat) (x y : string) :
  two_digits a +:+ x = two_digits b +:+ y →
  two_digits a = two_digits b ∧ x = y.
Proof.
  unfold two_digits.
  generalize (digit (a / 10)) (digit a) (digit (b / 10)) (digit b).
  intros c1 c2 c3 c4 H.
  change (String c1 (String c2 x) = String c3 (String c4 y)) in H.
  by injection H as -> -> ->.
Qed.

Lemma strftime_inj (t1 t2 : datetime) :
  valid_datetime t1 → valid_datetime t2 →
  strftime_H_d_m_Y t1 = strftime_H_d_m_Y t2 →
  hour t1 = hour t2 ∧ day t1 = day t2 ∧ month t1 = month t2
  ∧ year t1 = year t2.
Proof.
  intros (Hy1 & Hm1 & Hd1 & Hh1 & _) (Hy2 & Hm2 & Hd2 & Hh2 & _) H.
  unfold strftime_H_d_m_Y in H.
  apply two_digits_append in H as [Hh H]. apply append_inj_l in H.
  apply two_digits_append in H as [Hd H]. apply append_inj_l in H.
  apply two_digits_append in H as [Hm Hy]. apply append_inj_l in Hy.
  repeat split.
  - apply two_digits_inj; [lia..|done].
  - apply two_digits_inj; [lia..|done].
  - apply two_digits_inj; [lia..|done].
  - apply four_digits_inj; [lia..|done].
Qed.

Lemma append_inj_r (a b suffix : string) :
  a +:+ suffix = b +:+ suffix → a = b.
Proof.
  revert b. induction a as [|c a IH]; intros [|d b] H.
  - done.
  - apply (f_equal String.length) in H.
    rewrite !length_append in H. cbn [String.length] in H. lia.
  - apply (f_equal String.length) in H.
    rewrite !length_append in H. cbn [String.length] in H. lia.
  - rewrite !append_cons in H. injection H as -> H. f_equal. by apply IH.
Qed.

(** X15. The time stamp of the two notebooks has the grain of an hour:
    for clock readings with a year of four digits, two exports of step
    9 write to the same path exactly when they are made in the same
    hour of the same day, whatever the minutes and seconds; an export
    made later in that hour replaces the earlier file.  The same holds
    for the model name of the tuning notebook. *)
Theorem one_name_per_hour (l : list (string * qa_record))
    (t1 t2 : datetime) (s : State) :
  globals s !! "train" = Some (VFrame (training_frame l)) →
  valid_datetime t1 → valid_datetime t2 →
  ∃ path1 path2 text : string,
    network ((step9_1_date t1 ≫= λ _, step9_jsonl) s).2
    = network s ++ [FileWrite path1 text]
    ∧ network ((step9_1_date t2 ≫= λ _, step9_jsonl) s).2
      = network s ++ [FileWrite path2 text]
    ∧ (path1 = path2
       ↔ hour t1 = hour t2 ∧ day t1 = day t2 ∧ month t1 = month t2
         ∧ year t1 = year t2)
    ∧ (globals (tuning_step2_version t1 s).2 !! "MODEL_NAME"
       = globals (tuning_step2_version t2 s).2 !! "MODEL_NAME"
       ↔ hour t1 = hour t2 ∧ day t1 = day t2 ∧ month t1 = month t2
         ∧ year t1 = year t2).
Proof.
  intros Htrain Hv1 Hv2.
  assert (Hrun : ∀ t,
    network ((step9_1_date t ≫= λ _, step9_jsonl) s).2
    = network s ++ [FileWrite (training_data_filename (strftime_H_d_m_Y t))
                      (to_json_records_lines (tune_frame l))]).
  { intros t. unfold step9_1_date. rewrite bind_store.
    rewrite (step9_jsonl_run l (strftime_H_d_m_Y t)); [done| |].
    - cbn [globals with_globals]. by rewrite lookup_insert_ne.
    - cbn [globals with_globals]. by rewrite lookup_insert_eq. }
  assert (Hname : ∀ t,
    globals (tuning_step2_version t s).2 !! "MODEL_NAME"
    = Some (VStr ("deep-learning-ai-model-" +:+ strftime_H_d_m_Y t))).
  { intros t. unfold tuning_step2_version. rewrite bind_store, bind_load.
    cbn [globals with_globals]. rewrite lookup_insert_eq.
    unfold as_str. rewrite bind_ret. unfold store.
    cbn [snd globals with_globals]. by rewrite lookup_insert_eq. }
  assert (Hsame : hour t1 = hour t2 ∧ day t1 = day t2 ∧ month t1 = month t2
                  ∧ year t1 = year t2 →
                  strftime_H_d_m_Y t1 = strftime_H_d_m_Y t2).
  { intros (Hh & Hd & Hm & Hy). unfold strftime_H_d_m_Y.
    by rewrite Hh, Hd, Hm, Hy. }
  eexists _, _, _. split; [apply Hrun|]. split; [apply Hrun|].
  rewrite !Hname. split; split.
  - unfold training_data_filename. intros H.
    apply (append_inj_l "tune_data_stack_overflow_python_qa-") in H.
    apply (append_inj_r _ _ ".jsonl") in H. by apply strftime_inj.
  - intros H. by rewrite (Hsame H).
  - intros H.
    assert (H' : "deep-learning-ai-model-" +:+ strftime_H_d_m_Y t1
                 = "deep-learning-ai-model-" +:+ strftime_H_d_m_Y t2)
      by congruence.
    apply (append_inj_l "deep-learning-ai-model-") in H'.
    by apply strftime_inj.
  - intros H. by rewrite (Hsame H).
Qed.

(** X15 at two exports of the same hour, a quarter past and ten to. *)
Lemma one_name_per_hour_witness :
  ∃ path text : string,
    network ((step9_1_date (mkDatetime 2024 3 9 14 15 0) ≫= λ _, step9_jsonl)
               (train_session [("q", mkQA "i q" "a")])).2
    = [FileWrite path text]
    ∧ network ((step9_1_date (mkDatetime 2024 3 9 14 50 30) ≫= λ _, step9_jsonl)
                 (train_session [("q", mkQA "i q" "a")])).2
      = [FileWrite path text].
Proof.
  destruct (one_name_per_hour [("q", mkQA "i q" "a")]
              (mkDatetime 2024 3 9 14 15 0) (mkDatetime 2024 3 9 14 50 30)
              (train_session [("q", mkQA "i q" "a")])
              eq_refl
              ltac:(unfold valid_datetime; cbn; lia)
              ltac:(unfold valid_datetime; cbn; lia))
    as (path1 & path2 & text & H1 & H2 & [_ Hsame] & _).
  exists path1, text. split; [exact H1|].
  rewrite (Hsame ltac:(repeat split)). exact H2.
Defined.

(** ** The export and the tuning run *)

Lemma tuning_step2_version_run (now : datetime) s :
  tuning_step2_version now s
  = (inr tt,
     with_globals
       (<["MODEL_NAME" :=
            VStr ("deep-learning-ai-model-" +:+ strftime_H_d_m_Y now)]>
          (<["date" := VStr (strftime_H_d_m_Y now)]> (globals s))) s).
Proof.
  unfold tuning_step2_version. rewrite bind_store, bind_load.
  cbn [globals with_globals]. by rewrite lookup_insert_eq.
Qed.

Lemma tuning_step5_arguments_run
    (model_name region project steps dataset interval evaluation : pyval) s :
  globals s !! "MODEL_NAME" = Some model_name →
  globals s !! "REGION" = Some region →
  globals s !! "PROJECT_ID" = Some project →
  globals s !! "TRAINING_STEPS" = Some steps →
  globals s !! "TRAINING_DATA_URI" = Some dataset →
  globals s !! "EVALUATION_INTERVAL" = Some interval →
  globals s !! "EVAUATION_DATA_URI" = Some evaluation →
  tuning_step5_arguments s
  = (inr tt,
     with_globals
       (<["pipeline_arguments" :=
            VDict [("model_display_name", model_name);
                   ("location", region);
                   ("large_model_reference", VStr "text-bison@001");
                   ("project", project);
                   ("train_steps", steps);
                   ("dataset_uri", dataset);
                   ("evaluation_interval", interval);
                   ("evaluation_data_uri", evaluation)]]> (globals s)) s).
Proof.
  intros H1 H2 H3 H4 H5 H6 H7. unfold tuning_step5_arguments.
  by rewrite bind_load, H1, bind_load, H2, bind_load, H3, bind_load, H4,
    bind_load, H5, bind_load, H6, bind_load, H7.
Qed.

Lemma tuning_arguments_run (now : datetime) (region project : pyval) s :
  globals s !! "REGION" = Some region →
  globals s !! "PROJECT_ID" = Some project →
  (tuning_arguments now s).1 = inr tt
  ∧ entry_of (tuning_arguments now s).2 "pipeline_arguments" "dataset_uri"
    = Some (VStr TRAINING_DATA_URI)
  ∧ entry_of (tuning_arguments now s).2 "pipeline_arguments"
             "evaluation_data_uri"
    = Some (VStr EVAUATION_DATA_URI)
  ∧ entry_of (tuning_arguments now s).2 "pipeline_arguments"
             "model_display_name"
    = Some (VStr ("deep-learning-ai-model-" +:+ strftime_H_d_m_Y now)).
Proof.
  intros Hregion Hproject.
  assert (Hrun : ∃ g, tuning_arguments now s
    = (inr tt,
       with_globals
         (<["pipeline_arguments" :=
              VDict [("model_display_name",
                      VStr ("deep-learning-ai-model-" +:+ strftime_H_d_m_Y now));
                     ("location", region);
                     ("large_model_reference", VStr "text-bison@001");
                     ("project", project);
                     ("train_steps", VNum 200);
                     ("dataset_uri", VStr TRAINING_DATA_URI);
                     ("evaluation_interval", VNum 20);
                     ("evaluation_data_uri", VStr EVAUATION_DATA_URI)]]> g) s)).
  { eexists. unfold tuning_arguments.
    unfold mbind at 1, M_bind at 1.
    unfold tuning_step1_uris at 1. rewrite !bind_store. unfold store at 1.
    unfold mbind at 1, M_bind at 1. rewrite tuning_step2_version_run.
    unfold mbind at 1, M_bind at 1.
    unfold tuning_step3_parameters at 1. rewrite !bind_store. unfold store at 1.
    rewrite (tuning_step5_arguments_run
               (VStr ("deep-learning-ai-model-" +:+ strftime_H_d_m_Y now))
               region project (VNum 200) (VStr TRAINING_DATA_URI)
               (VNum 20) (VStr EVAUATION_DATA_URI));
      [reflexivity|by lookup_chain..]. }
  destruct Hrun as [g ->]. unfold entry_of.
  cbn [fst snd globals with_globals]. rewrite lookup_insert_eq.
  repeat split.
Qed.

(** X16. The export of [data-prep.ipynb] never writes a file the tuning
    notebook reads.  Whatever the time stamp, the path step 9 writes
    differs from the training path and from the evaluation path that the
    tuning notebook hands to the pipeline as [dataset_uri] and
    [evaluation_data_uri], also when the leading [./] of those is
    ignored: the written name carries a time stamp, the read one does
    not, and no evaluation file is written at all. *)
Theorem export_is_not_what_tuning_reads (l : list (string * qa_record))
    (date : string) (now : datetime) (region project : pyval)
    (s s' : State) :
  globals s !! "train" = Some (VFrame (training_frame l)) →
  globals s !! "date" = Some (VStr date) →
  globals s' !! "REGION" = Some region →
  globals s' !! "PROJECT_ID" = Some project →
  ∃ path text dataset evaluation : string,
    network (step9_jsonl s).2 = network s ++ [FileWrite path text]
    ∧ entry_of (tuning_arguments now s').2 "pipeline_arguments" "dataset_uri"
      = Some (VStr dataset)
    ∧ entry_of (tuning_arguments now s').2 "pipeline_arguments"
               "evaluation_data_uri"
      = Some (VStr evaluation)
    ∧ path ≠ dataset ∧ "./" +:+ path ≠ dataset
    ∧ path ≠ evaluation ∧ "./" +:+ path ≠ evaluation.
Proof.
  intros Htrain Hdate Hregion Hproject.
  destruct (tuning_arguments_run now region project s' Hregion Hproject)
    as (_ & Hdataset & Hevaluation & _).
  eexists _, _, _, _.
  rewrite (step9_jsonl_run l date s Htrain Hdate).
  split; [reflexivity|]. split; [exact Hdataset|].
  split; [exact Hevaluation|].
  unfold TRAINING_DATA_URI, EVAUATION_DATA_URI.
  repeat split; intros H; vm_compute in H; discriminate H.
Qed.

(** X16 at a session of each notebook. *)
Lemma export_is_not_what_tuning_reads_witness :
  ∃ path text : string,
    network (step9_jsonl
               (dated_session [("q", mkQA "i q" "a")] "14:09:03:2024")).2
    = [FileWrite path text]
    ∧ "./" +:+ path ≠ TRAINING_DATA_URI.
Proof.
  destruct (export_is_not_what_tuning_reads [("q", mkQA "i q" "a")]
              "14:09:03:2024" (mkDatetime 2024 3 9 14 15 0)
              (VStr "us-central1") (VStr "my-project")
              (dated_session [("q", mkQA "i q" "a")] "14:09:03:2024")
              tuning_session eq_refl eq_refl eq_refl eq_refl)
    as (path & text & dataset & evaluation & Hnet & Hd & _ & _ & Hne & _).
  exists path, text. split; [exact Hnet|].
  destruct (tuning_arguments_run (mkDatetime 2024 3 9 14 15 0)
              (VStr "us-central1") (VStr "my-project") tuning_session
              eq_refl eq_refl) as (_ & Hd' & _).
  rewrite Hd' in Hd. injection Hd as <-. exact Hne.
Defined.

(** X17. The export needs both columns.  If the training frame lacks
    [input_text_instruct] (step 7 was not run) or [output_text], step 9
    raises [KeyError] before anything is written: no file, no
    [tune_jsonl], no [training_data_filename]; only [cols] is bound. *)
Theorem export_needs_both_columns (train : DataFrame) (s : State) :
  globals s !! "train" = Some (VFrame train) →
  column_index "input_text_instruct" (columns train) = None
  ∨ column_index "output_text" (columns train) = None →
  step9_jsonl s
  = (inl (KeyError "not in index"),
     with_globals
       (<["cols" := VList [VStr "input_text_instruct"; VStr "output_text"]]>
          (globals s)) s)
  ∧ network (step9_jsonl s).2 = network s
  ∧ globals (step9_jsonl s).2 !! "tune_jsonl" = globals s !! "tune_jsonl"
  ∧ globals (step9_jsonl s).2 !! "training_data_filename"
    = globals s !! "training_data_filename".
Proof.
  intros Htrain Hmissing.
  assert (Hrun : step9_jsonl s
    = (inl (KeyError "not in index"),
       with_globals
         (<["cols" := VList [VStr "input_text_instruct"; VStr "output_text"]]>
            (globals s)) s)).
  { unfold step9_jsonl. rewrite bind_store, bind_load.
    cbn [globals with_globals]. rewrite lookup_insert_ne, Htrain by done.
    cbn [as_frame]. rewrite bind_ret, bind_load. cbn [globals with_globals].
    rewrite lookup_insert_eq.
    change (as_labels (VList [VStr "input_text_instruct"; VStr "output_text"]))
      with (mret (M := M) ["input_text_instruct"; "output_text"]).
    rewrite bind_ret. unfold mbind at 1, M_bind at 1.
    unfold getitem_columns. cbn [mapM].
    destruct (column_index "input_text_instruct" (columns train)) as [i|];
      [|done].
    destruct Hmissing as [?| ->]; done. }
  rewrite Hrun. cbn [fst snd globals network with_globals].
  repeat split; by lookup_chain.
Qed.

(** X17 at the frame the query returns, before step 7. *)
Lemma export_needs_both_columns_witness :
  (step9_jsonl
     (with_globals {[ "train" := VFrame (query_frame [("q1", "a1")]) ]}
                   client_session)).1
  = inl (KeyError "not in index")
  ∧ network (step9_jsonl
               (with_globals {[ "train" := VFrame (query_frame [("q1", "a1")]) ]}
                             client_session)).2
    = [].
Proof.
  assert (Hbound : globals (with_globals
                              {[ "train" := VFrame (query_frame [("q1", "a1")]) ]}
                              client_session) !! "train"
                   = Some (VFrame (query_frame [("q1", "a1")]))) by reflexivity.
  destruct (export_needs_both_columns (query_frame [("q1", "a1")]) _ Hbound
              (or_introl eq_refl)) as (Hrun & Hnet & _).
  split; [by rewrite Hrun | exact Hnet].
Defined.

(** ** The Kubeflow example *)

(** X18. The pipeline of the Kubeflow example returns what [how_are_you]
    makes of the greeting of [say_hello]: the recipient between
    [Hello, ] and [!. How are you?].  The text starts with the greeting
    of the first component, is 22 characters longer than the recipient,
    and determines the recipient: two runs with the same output had the
    same recipient. *)
Theorem hello_pipeline_text (recipient : string) :
  hello_pipeline recipient = how_are_you (say_hello recipient)
  ∧ hello_pipeline recipient = "Hello, " +:+ recipient +:+ "!. How are you?"
  ∧ String.prefix (say_hello recipient) (hello_pipeline recipient) = true
  ∧ String.length (hello_pipeline recipient) = 22 + String.length recipient
  ∧ (∀ other : string,
       hello_pipeline other = hello_pipeline recipient → other = recipient).
Proof.
  assert (Htext : ∀ r, hello_pipeline r
                       = "Hello, " +:+ r +:+ "!. How are you?").
  { intros r. unfold hello_pipeline, how_are_you, say_hello. cbn [output].
    by rewrite !append_assoc. }
  assert (Hprefix : ∀ a b, String.prefix a (a +:+ b) = true).
  { intros a b. induction a as [|c a IH]; [by destruct b|].
    rewrite append_cons. cbn [String.prefix].
    destruct (ascii_dec c c); [exact IH|done]. }
  split; [done|]. split; [apply Htext|]. split; [|split].
  - unfold hello_pipeline, how_are_you. cbn [output]. apply Hprefix.
  - rewrite Htext, !length_append. cbn [String.length]. lia.
  - intros other. rewrite !Htext. intros H.
    apply (append_inj_l "Hello, ") in H.
    by apply (append_inj_r _ _ "!. How are you?") in H.
Qed.

(** ** Data preparation from the query to the file *)

Lemma step6_load_run (cloud : Cloud) (sql : string) s :
  globals s !! "bq_client" = Some VClient →
  step6_load cloud sql s
  = let log := network s ++ [NetQuery sql] in
    let g := <["query_job" := VJob sql]>
               (<["QUERY" := VStr sql]> (globals s)) in
    match result_reply cloud log sql with
    | inl e =>
        (inl e, mkState g (draws s) (drawn s) (log ++ [NetResult sql]) (stdout s))
    | inr df =>
        (inr tt,
         mkState (<["stack_overflow_df" := VFrame df]> g)
                 (draws s) (drawn s) (log ++ [NetResult sql]) (stdout s))
    end.
Proof.
  intros Hclient. unfold step6_load.
  rewrite bind_store, bind_load. cbn [globals with_globals].
  rewrite lookup_insert_ne, Hclient by done.
  rewrite bind_load. cbn [globals with_globals]. rewrite lookup_insert_eq.
  unfold bq_query, mbind at 1, M_bind at 1. run_cell.
  unfold result_to_pandas. run_cell.
  rewrite lookup_insert_eq. simpl.
  by destruct (result_reply cloud (network s ++ [NetQuery sql]) sql).
Qed.

Lemma selected_through_fmap {A B : Type} (g : A → B) (l : list A)
    (positions : list nat) (selected : list B) :
  Some <$> selected = (λ i, (g <$> l) !! i) <$> positions →
  ∃ chosen : list A,
    selected = g <$> chosen
    ∧ Some <$> chosen = (λ i, l !! i) <$> positions.
Proof.
  revert selected.
  induction positions as [|i positions IH]; intros selected Hsel.
  - destruct selected; [|done]. by exists [].
  - destruct selected as [|b selected]; [done|].
    rewrite !fmap_cons in Hsel. injection Hsel as Hb Hrest.
    destruct (IH selected Hrest) as (chosen & -> & Hchosen).
    rewrite list_lookup_fmap in Hb. symmetry in Hb.
    apply fmap_Some in Hb as (a & Ha & ->).
    exists (a :: chosen). split; [done|].
    by rewrite !fmap_cons, Ha, Hchosen.
Qed.

(** X19. The cells of [data-prep.ipynb] from the query of step 6 to the
    export, run in order on a query result of [N] question-answer pairs,
    [2 <= N < 2^48], with a generator that permutes the row positions:
    the run ends normally, sends the query, fetches its result and writes
    one file.  The pairs fall into those kept for training and those held
    out, [ceil(N/5)] of them; the file, read back, holds exactly one
    record per kept pair, the instruction, one space and the question as
    [input_text_instruct] and the answer as [output_text].  No held-out
    pair reaches the file, and nothing is printed. *)
Theorem data_prep_end_to_end (cloud : Cloud)
    (permutation : nat → nat → list nat) (sql template : string)
    (now : datetime) (l : list (string * string)) (s : State) :
  (∀ seed n, permutation seed n ≡ₚ seq 0 n) →
  globals s !! "bq_client" = Some VClient →
  result_reply cloud (network s ++ [NetQuery sql]) sql = inr (query_frame l) →
  2 ≤ length l →
  (Z.of_nat (length l) < 2 ^ 48)%Z →
  let run := data_prep cloud permutation sql template now s in
  ∃ (kept held_out : list (string * string)) (text : string),
    run.1 = inr tt
    ∧ network run.2
      = network s ++ [NetQuery sql; NetResult sql;
                      FileWrite ("tune_data_stack_overflow_python_qa-"
                                   +:+ strftime_H_d_m_Y now +:+ ".jsonl") text]
    ∧ stdout run.2 = stdout s
    ∧ kept ++ held_out ≡ₚ l
    ∧ length held_out = (length l + 4) / 5
    ∧ read_json_lines text ≫= mapM qa_of_members
      = Some ((λ p, mkQA (template +:+ " " +:+ p.1) p.2) <$> kept).
Proof.
  intros Hperm Hclient Hrep H2 Hbound run.
  set (df := instructed_frame template l).
  assert (HN : length (rows df) = length l).
  { subst df. unfold instructed_frame. cbn [rows]. by rewrite length_fmap. }
  destruct (train_test_split_run permutation Hperm df 42)
    as (train & evaluation & Hsplit & Heval & Htrain);
    [by rewrite HN..|].
  rewrite HN in Heval, Htrain.
  set (e := (length l + 4) / 5) in *.
  set (p := permutation 42 (length l)) in *.
  subst df. unfold instructed_frame in Hsplit, Heval, Htrain.
  cbn [rows columns] in Hsplit, Heval, Htrain.
  apply selected_through_fmap in Htrain as (kept & -> & Hkept).
  apply selected_through_fmap in Heval as (held_out & -> & Hheld).
  set (l' := (λ q : string * string,
                (q.1, mkQA (template +:+ " " +:+ q.1) q.2)) <$> kept).
  assert (Hframe : mkFrame ["input_text"; "output_text"; "input_text_instruct"]
                     ((λ q : string * string,
                         [q.1; q.2; template +:+ " " +:+ q.1]) <$> kept)
                   = training_frame l').
  { subst l'. unfold training_frame. f_equal.
    rewrite <- list_fmap_compose. by apply list_fmap_ext. }
  rewrite Hframe in Hsplit.
  assert (Hrun : run
    = step9_jsonl
        (mkState
           (<["date" := VStr (strftime_H_d_m_Y now)]>
              (<["evaluation" :=
                   VFrame (mkFrame
                     ["input_text"; "output_text"; "input_text_instruct"]
                     ((λ q : string * string,
                         [q.1; q.2; template +:+ " " +:+ q.1]) <$> held_out))]>
                 (<["train" := VFrame (training_frame l')]>
                    (<["stack_overflow_df" :=
                         VFrame (instructed_frame template l)]>
                       (<["INSTRUCTION_TEMPLATE" := VStr template]>
                          (<["stack_overflow_df" := VFrame (query_frame l)]>
                             (<["query_job" := VJob sql]>
                                (<["QUERY" := VStr sql]> (globals s)))))))))
           (draws s) (drawn s)
           ((network s ++ [NetQuery sql]) ++ [NetResult sql]) (stdout s))).
  { subst run. unfold data_prep.
    unfold mbind at 1, M_bind at 1.
    rewrite (step6_load_run cloud sql s Hclient). cbn zeta. rewrite Hrep.
    unfold mbind at 1, M_bind at 1.
    rewrite (step7_instruct_ok template (query_frame l)
               (instructed_frame template l));
      [|by lookup_chain|apply instruct_query_frame].
    unfold mbind at 1, M_bind at 1.
    rewrite (step8_split_outcome permutation (instructed_frame template l));
      [|by lookup_chain].
    unfold instructed_frame at 1. rewrite Hsplit.
    unfold mbind at 1, M_bind at 1.
    unfold step9_1_date, store at 1. reflexivity. }
  rewrite Hrun.
  rewrite (step9_jsonl_run l' (strftime_H_d_m_Y now));
    [|by lookup_chain|by lookup_chain].
  cbn [fst snd network stdout].
  exists kept, held_out, (to_json_records_lines (tune_frame l')).
  split; [done|]. split; [by rewrite <- !app_assoc|]. split; [done|].
  assert (Hlen : length p = length l).
  { subst p. by rewrite (Hperm 42 (length l)), length_seq. }
  pose proof (Nat.div_mod_eq (length l + 4) 5) as Hdm.
  pose proof (Nat.mod_upper_bound (length l + 4) 5 ltac:(lia)) as Hmod.
  split; [|split].
  - rewrite (Permutation_app_comm kept held_out).
    apply Permutation_of_Some.
    rewrite fmap_app, Hheld, Hkept, <- fmap_app, take_drop.
    subst p. rewrite (Hperm 42 (length l)). by rewrite lookup_all_positions.
  - apply (f_equal length) in Hheld.
    rewrite !length_fmap, length_take in Hheld. fold e in Hdm. lia.
  - rewrite read_written_frame, records_tune_frame. cbn [mbind option_bind].
    rewrite qa_of_qa_members. subst l'. f_equal.
    rewrite <- list_fmap_compose. by apply list_fmap_ext.
Qed.

(** X19 at a query result of six pairs and the generator that keeps
    every range in order: four records are written. *)
Lemma data_prep_end_to_end_witness :
  ∃ (kept held_out : list (string * string)) (text : string),
    network (data_prep
               (serving_cloud
                  (query_frame [("q0", "a0"); ("q1", "a1"); ("q2", "a2");
                                ("q3", "a3"); ("q4", "a4"); ("q5", "a5")]))
               in_order "sql" INSTRUCTION_TEMPLATE
               (mkDatetime 2024 3 9 14 15 0) client_session).2
    = [NetQuery "sql"; NetResult "sql";
       FileWrite "tune_data_stack_overflow_python_qa-14:09:03:2024.jsonl" text]
    ∧ length held_out = 2
    ∧ read_json_lines text ≫= mapM qa_of_members
      = Some ((λ p, mkQA (INSTRUCTION_TEMPLATE +:+ " " +:+ p.1) p.2) <$> kept).
Proof.
  destruct (data_prep_end_to_end
              (serving_cloud
                 (query_frame [("q0", "a0"); ("q1", "a1"); ("q2", "a2");
                               ("q3", "a3"); ("q4", "a4"); ("q5", "a5")]))
              in_order "sql" INSTRUCTION_TEMPLATE
              (mkDatetime 2024 3 9 14 15 0)
              [("q0", "a0"); ("q1", "a1"); ("q2", "a2");
               ("q3", "a3"); ("q4", "a4"); ("q5", "a5")]
              client_session
              ltac:(done) eq_refl eq_refl
              ltac:(simpl; lia) ltac:(vm_compute; reflexivity))
    as (kept & held_out & text & _ & Hnet & _ & _ & Hlen & Hread).
  exists kept, held_out, text.
  split; [exact Hnet|]. split; [exact Hlen | exact Hread].
Defined.
